(** * Off-chain attestation packages: compaction, decompaction and the
      shareable text codec ([src/offchain/offchain-utils.ts])

    The development embeds the TypeScript module in Rocq.  The program
    manipulates untyped JavaScript data (the tuple that [JSON.parse]
    returns is only annotated with a tuple type, and the flat legacy
    signature shape is recognised by key presence), so the embedding
    works over a datatype of JavaScript values with the language's own
    conversions ([Number], [BigInt], truthiness, strict equality with a
    primitive, template-literal stringification) and an error monad for
    the exceptions they raise.

    - Numbers are binary64 values kept by their exact mathematical
      value, bigints are integers.  A string is kept as its UTF-8 text,
      from which its characters and its UTF-16 code units are read
      back; white space is the whole of the language's [WhiteSpace] and
      [LineTerminator].
    - Objects are plain objects: their own properties in the order in
      which the engine enumerates them, with [Object.prototype] behind
      them.  Of the members that prototypes contribute, the embedding
      has [toString] and [valueOf], which the conversions call (the
      program reads none of the others by name); symbols and functions
      are not values of the embedding, so an own member named
      [toString] is never callable.
    - [JSON.stringify] and [JSON.parse] are modelled up to the JSON
      document; the text of a document, pako's deflate stream and the
      base64 text are parameters of the codec.

    The first part has the definitions: the values and their
    conversions, the program, and the shapes of signed packages.  The
    second part has the facts, and at its end a theorem for each
    property of the specification. *)

From Stdlib Require Import ZArith List String Ascii Bool Lia.
From Stdlib Require Import DecimalString DecimalPos.
Import ListNotations.

#[local] Set Warnings "-register-all".
Local Open Scope string_scope.
Local Open Scope Z_scope.

(** ** Exceptions *)

(** The kind of a thrown exception; the message is kept for [Error],
    the only kind the module itself constructs. *)
Inductive error : Type :=
| TypeError
| RangeError
| SyntaxError
| Error (message : string).

Inductive result (A : Type) : Type :=
| Return (a : A)
| Throw (e : error).

Arguments Return {A} a.
Arguments Throw {A} e.

Definition bind {A B : Type} (c : result A) (k : A -> result B) : result B :=
  match c with
  | Return a => k a
  | Throw e => Throw e
  end.

Notation "x <- c ;; k" := (bind c (fun x => k))
  (at level 61, c at next level, right associativity).

(** ** Numbers

    A JavaScript number is an IEEE-754 binary64 value.  The finite ones
    are kept by their exact mathematical value: an integer, or an odd
    numerator over a power of two. *)
Inductive number : Type :=
| NInt (z : Z)                   (* an integral double; [NInt 0] is +0 *)
| NFrac (m : Z) (k : positive)   (* m / 2^k with m odd *)
| NNegZero
| NNaN
| NInf (negative : bool).

Definition number_eqb (a b : number) : bool :=
  match a, b with
  | NInt x, NInt y => x =? y
  | NFrac m k, NFrac m' k' => (m =? m') && (k =? k')%positive
  | NNegZero, NNegZero => true
  | NNaN, NNaN => true
  | NInf s, NInf s' => Bool.eqb s s'
  | _, _ => false
  end.

(** Round a natural number to the nearest integer with a 53-bit
    significand, ties to even. *)
Definition round53 (n : Z) : Z :=
  let bits := Z.log2 n + 1 in
  if bits <=? 53 then n
  else
    let sh := bits - 53 in
    let q := Z.shiftr n sh in
    let r := n - Z.shiftl q sh in
    let half := Z.shiftl 1 (sh - 1) in
    let q' := if (half <? r) || ((r =? half) && Z.odd q) then q + 1 else q in
    Z.shiftl q' sh.

(** [Number(b)] for a bigint [b]: the nearest double, or an infinity. *)
Definition number_of_bigint (z : Z) : number :=
  let m := round53 (Z.abs z) in
  if 2 ^ 1024 <=? m then NInf (z <? 0)
  else NInt (Z.sgn z * m).

(** The integer that a bigint comes back as after [Number] and [BigInt],
    when [Number] of it is finite. *)
Definition through_double (z : Z) : Z := Z.sgn z * round53 (Z.abs z).

(** [Number(z)] is finite. *)
Definition number_is_finite (z : Z) : Prop := round53 (Z.abs z) < 2 ^ 1024.

Definition is_uint64 (z : Z) : Prop := 0 <= z < 2 ^ 64.

Fixpoint trailing_zeros (p : positive) : Z :=
  match p with
  | xO p' => 1 + trailing_zeros p'
  | _ => 0
  end.

(** The finite double of value [m * 2^e] ([m > 0]), in canonical form. *)
Definition make_finite (negative : bool) (m e : Z) : number :=
  let sign := if negative then -1 else 1 in
  if 0 <=? e then NInt (sign * (m * 2 ^ e))
  else
    let t := Z.min (match m with Zpos p => trailing_zeros p | _ => 0 end) (- e) in
    let m' := m / 2 ^ t in
    match - e - t with
    | Zpos k => NFrac (sign * m') k
    | _ => NInt (sign * m')
    end.

(** Is [n / d >= 2^e]? *)
Definition ge_pow2 (n d e : Z) : bool :=
  if 0 <=? e then d * 2 ^ e <=? n else d <=? n * 2 ^ (- e).

(** The double nearest to the positive rational [n / d] (ties to even),
    with gradual underflow and overflow to infinity. *)
Definition round_rational (negative : bool) (n d : Z) : number :=
  if n <=? 0 then (if negative then NNegZero else NInt 0)
  else
    let g := Z.log2 n - Z.log2 d in
    let e0 := if ge_pow2 n d g then g else g - 1 in
    let e := Z.max (e0 - 52) (-1074) in
    let N := if 0 <=? e then n else n * 2 ^ (- e) in
    let D := if 0 <=? e then d * 2 ^ e else d in
    let q := N / D in
    let r := N mod D in
    let m := if (D <? 2 * r) || ((2 * r =? D) && Z.odd q) then q + 1 else q in
    if m =? 0 then (if negative then NNegZero else NInt 0)
    else if (0 <=? e) && (2 ^ 1024 <=? m * 2 ^ e) then NInf negative
    else make_finite negative m e.

(** ** Strings

    A string is kept as its UTF-8 text: a character is one to four
    bytes, a lead byte and the continuation bytes after it. *)

Definition byte (c : ascii) : Z := Z.of_N (N_of_ascii c).

(** A continuation byte, [10xxxxxx]. *)
Definition is_continuation (c : ascii) : bool :=
  (128 <=? byte c) && (byte c <? 192).

Definition starts_with_continuation (s : string) : bool :=
  match s with
  | String c _ => is_continuation c
  | EmptyString => false
  end.

(** The characters of a string, each as the string of its bytes. *)
Fixpoint characters (s : string) : list string :=
  match s with
  | EmptyString => []
  | String c s' =>
      match characters s' with
      | ch :: l =>
          if starts_with_continuation ch then String c ch :: l
          else String c EmptyString :: ch :: l
      | [] => [String c EmptyString]
      end
  end.

(** The code point of a character. *)
Definition code_point (ch : string) : Z :=
  match ch with
  | String a EmptyString => byte a
  | String a (String b EmptyString) => (byte a - 192) * 64 + (byte b - 128)
  | String a (String b (String c EmptyString)) =>
      (byte a - 224) * 4096 + (byte b - 128) * 64 + (byte c - 128)
  | String a (String b (String c (String d EmptyString))) =>
      (byte a - 240) * 262144 + (byte b - 128) * 4096
      + (byte c - 128) * 64 + (byte d - 128)
  | _ => -1
  end.

(** The three bytes of a code unit from U+0800 on. *)
Definition three_bytes (u : Z) : string :=
  String (ascii_of_N (Z.to_N (224 + u / 4096)))
    (String (ascii_of_N (Z.to_N (128 + (u / 64) mod 64)))
       (String (ascii_of_N (Z.to_N (128 + u mod 64))) EmptyString)).

(** The UTF-16 code units of a character, each as a string of its own:
    a character beyond U+FFFF is a pair of surrogates. *)
Definition code_units (ch : string) : list string :=
  let c := code_point ch in
  if 65536 <=? c then
    [three_bytes (55296 + (c - 65536) / 1024);
     three_bytes (56320 + (c - 65536) mod 1024)]
  else [ch].

(** [WhiteSpace] and [LineTerminator]: tab, line feed, vertical tab,
    form feed, carriage return, space, no-break space, U+1680, U+2000
    to U+200A, the line and paragraph separators U+2028 and U+2029,
    U+202F, U+205F, U+3000 and the byte order mark U+FEFF. *)
Definition is_whitespace (ch : string) : bool :=
  let c := code_point ch in
  existsb (Z.eqb c)
    [9; 10; 11; 12; 13; 32; 160; 5760; 8232; 8233; 8239; 8287; 12288; 65279]
  || ((8192 <=? c) && (c <=? 8202)).

Fixpoint drop_whitespace (l : list string) : list string :=
  match l with
  | ch :: l' => if is_whitespace ch then drop_whitespace l' else l
  | [] => []
  end.

(** Strip leading and trailing white space. *)
Definition trim (s : string) : string :=
  String.concat ""
    (rev (drop_whitespace (rev (drop_whitespace (characters s))))).

(** A string of visible ASCII characters. *)
Fixpoint is_visible_ascii (s : string) : bool :=
  match s with
  | EmptyString => true
  | String c s' => (32 <? byte c) && (byte c <? 128) && is_visible_ascii s'
  end.

(** The value of a digit character in a base up to 16. *)
Definition digit_value (base : Z) (c : ascii) : option Z :=
  let n := Z.of_nat (nat_of_ascii c) in
  let v :=
    if (48 <=? n) && (n <=? 57) then Some (n - 48)
    else if (97 <=? n) && (n <=? 102) then Some (n - 87)
    else if (65 <=? n) && (n <=? 70) then Some (n - 55)
    else None in
  match v with
  | Some d => if d <? base then Some d else None
  | None => None
  end.

Fixpoint digits_value_from (base acc : Z) (s : string) : option Z :=
  match s with
  | EmptyString => Some acc
  | String c s' =>
      match digit_value base c with
      | Some d => digits_value_from base (base * acc + d) s'
      | None => None
      end
  end.

(** The value of a non-empty string of digits in the given base. *)
Definition digits_value (base : Z) (s : string) : option Z :=
  match s with
  | EmptyString => None
  | _ => digits_value_from base 0 s
  end.

(** The decimal rendering of an integer: [BigInt.prototype.toString]. *)
Definition bigint_to_string (z : Z) : string :=
  NilEmpty.string_of_int (Z.to_int z).

(** A non-empty string of decimal digits, read by the standard library's
    reader. *)
Definition decimal_digits (s : string) : option Z :=
  match s with
  | EmptyString => None
  | _ => option_map Z.of_uint (NilEmpty.uint_of_string s)
  end.

(** A [StrIntegerLiteral]: an optionally signed decimal integer, or an
    unsigned binary, octal or hexadecimal one. *)
Definition integer_literal (s : string) : option Z :=
  match decimal_digits s with
  | Some z => Some z
  | None =>
      match s with
      | String "-" ds => option_map Z.opp (decimal_digits ds)
      | String "+" ds => decimal_digits ds
      | String "0" (String "x" ds) | String "0" (String "X" ds) => digits_value 16 ds
      | String "0" (String "o" ds) | String "0" (String "O" ds) => digits_value 8 ds
      | String "0" (String "b" ds) | String "0" (String "B" ds) => digits_value 2 ds
      | _ => None
      end
  end.

(** [StringToBigInt]: the empty (or blank) string is [0n]. *)
Definition string_to_bigint (s : string) : option Z :=
  match trim s with
  | EmptyString => Some 0
  | t => integer_literal t
  end.

(** *** Number to string: [Number::toString] in radix 10 *)

Fixpoint zeros (n : nat) : string :=
  match n with
  | O => EmptyString
  | S n' => String "0" (zeros n')
  end.

Fixpoint take_string (n : nat) (s : string) : string :=
  match n, s with
  | S n', String c s' => String c (take_string n' s')
  | _, _ => EmptyString
  end.

Fixpoint drop_string (n : nat) (s : string) : string :=
  match n, s with
  | S n', String _ s' => drop_string n' s'
  | _, _ => s
  end.

(** The rational [s * 10^e], as numerator and denominator. *)
Definition scale10 (s e : Z) : Z * Z :=
  if 0 <=? e then (s * 10 ^ e, 1) else (s, 10 ^ (- e)).

(** For [0 < p / d < 1]: the least [j >= 1] with [p * 10^j >= d]. *)
Fixpoint first_digit_position (fuel : nat) (p d j : Z) : Z :=
  match fuel with
  | O => j
  | S fuel' => if d <=? p * 10 ^ j then j else first_digit_position fuel' p d (j + 1)
  end.

(** The [n] with [10^(n-1) <= p / d < 10^n]. *)
Definition decimal_exponent (p d : Z) : Z :=
  if d <=? p then Z.of_nat (String.length (bigint_to_string (p / d)))
  else 1 - first_digit_position 400 p d 1.

(** The shortest digit string [s] (of [k] digits, [k] from [k0] upward)
    such that [s * 10^(n-k)] reads back as [x], which is [p / d]. *)
Fixpoint shortest_digits (fuel : nat) (x : number) (p d n k : Z) : Z * Z :=
  match fuel with
  | O => (p / d, n)
  | S fuel' =>
      let '(sn, sd) := scale10 1 (k - n) in
      let N := p * sn in
      let D := d * sd in
      let lo := N / D in
      let r := N mod D in
      let reads_back (s : Z) :=
        let '(vn, vd) := scale10 s (n - k) in
        number_eqb (round_rational false vn vd) x in
      let pick (s : Z) := if s =? 10 ^ k then (1, n + 1) else (s, n) in
      match reads_back lo, reads_back (lo + 1) with
      | true, true =>
          if 2 * r <? D then pick lo
          else if D <? 2 * r then pick (lo + 1)
          else if Z.even lo then pick lo else pick (lo + 1)
      | true, false => pick lo
      | false, true => pick (lo + 1)
      | false, false => shortest_digits fuel' x p d n (k + 1)
      end
  end.

(** The rendering of a positive finite number of value [p / d]. *)
Definition positive_to_string (x : number) (p d : Z) : string :=
  let '(s, n) := shortest_digits 17 x p d (decimal_exponent p d) 1 in
  let ds := bigint_to_string s in
  let k := Z.of_nat (String.length ds) in
  if (k <=? n) && (n <=? 21) then ds ++ zeros (Z.to_nat (n - k))
  else if (0 <? n) && (n <=? 21) then
    take_string (Z.to_nat n) ds ++ "." ++ drop_string (Z.to_nat n) ds
  else if (-6 <? n) && (n <=? 0) then "0." ++ zeros (Z.to_nat (- n)) ++ ds
  else
    let e := n - 1 in
    let exponent := (if e <? 0 then "-" else "+") ++ bigint_to_string (Z.abs e) in
    if k =? 1 then ds ++ "e" ++ exponent
    else take_string 1 ds ++ "." ++ drop_string 1 ds ++ "e" ++ exponent.

Definition number_abs (x : number) : number :=
  match x with
  | NInt z => NInt (Z.abs z)
  | NFrac m k => NFrac (Z.abs m) k
  | NNegZero => NInt 0
  | NNaN => NNaN
  | NInf _ => NInf false
  end.

Definition number_to_string (x : number) : string :=
  match x with
  | NNaN => "NaN"
  | NNegZero => "0"
  | NInf false => "Infinity"
  | NInf true => "-Infinity"
  | NInt 0 => "0"
  | NInt z =>
      (if z <? 0 then "-" else "") ++ positive_to_string (number_abs x) (Z.abs z) 1
  | NFrac m k =>
      (if m <? 0 then "-" else "") ++ positive_to_string (number_abs x) (Z.abs m) (2 ^ Zpos k)
  end.

(** *** String to number: [StringToNumber] *)

(** Split at the first character satisfying [f]; the separator is kept
    out of both halves. *)
Fixpoint split_at (f : ascii -> bool) (s : string) : string * option string :=
  match s with
  | EmptyString => (EmptyString, None)
  | String c s' =>
      if f c then (EmptyString, Some s')
      else let '(a, b) := split_at f s' in (String c a, b)
  end.

(** An unsigned [StrDecimalLiteral] other than [Infinity], as a
    rational: digits, an optional fraction, an optional exponent. *)
Definition unsigned_decimal (s : string) : option (Z * Z) :=
  let '(mantissa, exponent) :=
    split_at (fun c => Ascii.eqb c "e" || Ascii.eqb c "E") s in
  let '(int_part, frac) := split_at (Ascii.eqb ".") mantissa in
  let frac_part := match frac with Some f => f | None => EmptyString end in
  let e :=
    match exponent with
    | None => Some 0
    | Some (String "-" ds) => option_map Z.opp (decimal_digits ds)
    | Some (String "+" ds) => decimal_digits ds
    | Some ds => decimal_digits ds
    end in
  match int_part ++ frac_part, digits_value_from 10 0 (int_part ++ frac_part), e with
  | String _ _, Some m, Some e =>
      Some (scale10 m (e - Z.of_nat (String.length frac_part)))
  | _, _, _ => None
  end.

Definition decimal_literal (negative : bool) (s : string) : number :=
  if String.eqb s "Infinity" then NInf negative
  else
    match unsigned_decimal s with
    | Some (n, d) => round_rational negative n d
    | None => NNaN
    end.

Definition string_to_number (s : string) : number :=
  match trim s with
  | EmptyString => NInt 0
  | String "-" t => decimal_literal true t
  | String "+" t => decimal_literal false t
  | String "0" (String "x" ds) | String "0" (String "X" ds) =>
      match digits_value 16 ds with Some z => number_of_bigint z | None => NNaN end
  | String "0" (String "o" ds) | String "0" (String "O" ds) =>
      match digits_value 8 ds with Some z => number_of_bigint z | None => NNaN end
  | String "0" (String "b" ds) | String "0" (String "B" ds) =>
      match digits_value 2 ds with Some z => number_of_bigint z | None => NNaN end
  | t => decimal_literal false t
  end.

(** ** Values *)

(** The JavaScript values that occur in packages and tuples: the
    primitives, arrays, and plain objects as their own properties in
    the order of enumeration, which is the array indices in ascending
    order and then the other keys in the order of their creation (keys
    are distinct in a well-formed object; lookup takes the first
    binding). *)
Inductive value : Type :=
| VUndefined
| VNull
| VBool (b : bool)
| VNumber (n : number)
| VBigInt (z : Z)
| VString (s : string)
| VArray (elements : list value)
| VObject (properties : list (string * value)).

Definition num (z : Z) : value := VNumber (NInt z).

(** *** Objects *)

Fixpoint obj_get (o : list (string * value)) (k : string) : value :=
  match o with
  | [] => VUndefined
  | (k', v) :: o' => if String.eqb k' k then v else obj_get o' k
  end.

Definition obj_has (o : list (string * value)) (k : string) : bool :=
  existsb (fun kv => String.eqb (fst kv) k) o.

(** Assignment of a property in an object literal: an existing key
    keeps its position, a new key goes last (the keys that the program
    assigns are names, not array indices). *)
Fixpoint obj_set (o : list (string * value)) (k : string) (v : value)
  : list (string * value) :=
  match o with
  | [] => [(k, v)]
  | (k', v') :: o' =>
      if String.eqb k' k then (k', v) :: o' else (k', v') :: obj_set o' k v
  end.

Definition obj_remove (ks : list string) (o : list (string * value))
  : list (string * value) :=
  filter (fun kv => negb (existsb (String.eqb (fst kv)) ks)) o.

(** The array index that a key denotes: the key is the canonical
    decimal rendering of an integer below [2^32 - 1]. *)
Definition index_of_key (k : string) : option Z :=
  match decimal_digits k with
  | Some i =>
      if String.eqb (bigint_to_string i) k && (i <? 2 ^ 32 - 1) then Some i
      else None
  | None => None
  end.

(** The place of a new array index [i] among the properties: after the
    smaller indices and before everything else. *)
Fixpoint insert_index (o : list (string * value)) (i : Z) (k : string)
  (v : value) : list (string * value) :=
  match o with
  | [] => [(k, v)]
  | (k', v') :: o' =>
      match index_of_key k' with
      | Some j => if j <? i then (k', v') :: insert_index o' i k v
                  else (k, v) :: o
      | None => (k, v) :: o
      end
  end.

(** Definition of a property with any key: an existing key keeps its
    position and takes the new value, a new array index goes among the
    indices, and any other new key goes last. *)
Definition obj_define (o : list (string * value)) (k : string) (v : value)
  : list (string * value) :=
  match index_of_key k with
  | Some i => if obj_has o k then obj_set o k v else insert_index o i k v
  | None => obj_set o k v
  end.

(** *** Conversions *)

(** [ToBoolean]. *)
Definition to_boolean (v : value) : bool :=
  match v with
  | VUndefined | VNull => false
  | VBool b => b
  | VNumber (NInt z) => negb (z =? 0)
  | VNumber (NNegZero | NNaN) => false
  | VNumber _ => true
  | VBigInt z => negb (z =? 0)
  | VString s => negb (String.eqb s "")
  | VArray _ | VObject _ => true
  end.

(** [ToString], as a template literal applies it.  An array joins the
    renderings of its elements with commas, [undefined] and [null]
    counting as empty.  An object goes through [ToPrimitive]: the
    [toString] that it finds is called, which for a plain object is
    that of [Object.prototype] and gives the default rendering, unless
    an own member named [toString] shadows it; such a member is not
    callable, [valueOf] gives the object itself, and the conversion
    throws a [TypeError]. *)
Fixpoint to_string (v : value) : result string :=
  match v with
  | VUndefined => Return "undefined"
  | VNull => Return "null"
  | VBool true => Return "true"
  | VBool false => Return "false"
  | VNumber n => Return (number_to_string n)
  | VBigInt z => Return (bigint_to_string z)
  | VString s => Return s
  | VArray l =>
      (fix join (l : list value) : result string :=
         match l with
         | [] => Return ""
         | x :: l' =>
             e <- match x with
                  | VUndefined | VNull => Return ""
                  | _ => to_string x
                  end ;;
             match l' with
             | [] => Return e
             | _ => r <- join l' ;; Return (e ++ "," ++ r)
             end
         end) l
  | VObject o =>
      if obj_has o "toString" then Throw TypeError
      else Return "[object Object]"
  end.

(** [ToPrimitive]: a primitive is left alone.  For an array or a plain
    object [valueOf] gives the object itself, so that [toString]
    decides, with either hint. *)
Definition to_primitive (v : value) : result value :=
  match v with
  | VArray _ | VObject _ => s <- to_string v ;; Return (VString s)
  | _ => Return v
  end.

(** [Number(v)]: it throws when [v] has no primitive value. *)
Definition js_Number (v : value) : result number :=
  p <- to_primitive v ;;
  Return
    match p with
    | VBigInt z => number_of_bigint z
    | VNumber n => n
    | VUndefined => NNaN
    | VNull => NInt 0
    | VBool b => NInt (if b then 1 else 0)
    | VString s => string_to_number s
    | VArray _ | VObject _ => NNaN   (* not reached: [p] is a primitive *)
    end.

(** [BigInt(v)]: a number must be integral ([RangeError] otherwise), a
    string must be an integer literal ([SyntaxError] otherwise),
    [undefined] and [null] do not convert, nor does a value without a
    primitive value ([TypeError]). *)
Definition js_BigInt (v : value) : result Z :=
  p <- to_primitive v ;;
  match p with
  | VNumber (NInt z) => Return z
  | VNumber NNegZero => Return 0
  | VNumber _ => Throw RangeError
  | VBigInt z => Return z
  | VBool b => Return (if b then 1 else 0)
  | VString s =>
      match string_to_bigint s with
      | Some z => Return z
      | None => Throw SyntaxError
      end
  | VUndefined | VNull => Throw TypeError
  | VArray _ | VObject _ => Throw TypeError   (* not reached *)
  end.

(** [v === s] for a string constant [s]. *)
Definition strict_equal_string (v : value) (s : string) : bool :=
  match v with
  | VString s' => String.eqb s' s
  | _ => false
  end.

(** [v === n] for a number constant [n]. *)
Definition strict_equal_number (v : value) (n : number) : bool :=
  match v with
  | VNumber n' =>
      match n', n with
      | NNaN, _ | _, NNaN => false
      | (NInt 0 | NNegZero), (NInt 0 | NNegZero) => true
      | _, _ => number_eqb n' n
      end
  | _ => false
  end.

(** *** Property access *)

Definition index_key (i : nat) : string := bigint_to_string (Z.of_nat i).

(** The array index that a property key denotes, if it is one below
    [len]: the key is the canonical decimal rendering of the index. *)
Definition array_index (k : string) (len : nat) : option nat :=
  match decimal_digits k with
  | Some i =>
      if String.eqb (bigint_to_string i) k && (i <? Z.of_nat len)
      then Some (Z.to_nat i) else None
  | None => None
  end.

(** The elements of a string: its UTF-16 code units. *)
Definition chars (s : string) : list value :=
  map VString (flat_map code_units (characters s)).

Definition indexed_get (l : list value) (k : string) : value :=
  if String.eqb k "length" then num (Z.of_nat (List.length l))
  else
    match array_index k (List.length l) with
    | Some i => nth i l VUndefined
    | None => VUndefined
    end.

(** [v.k] for a property name [k].  Reading a property of [undefined]
    or [null] throws; the prototypes' members are not modelled (the
    program reads none). *)
Definition get_prop (v : value) (k : string) : result value :=
  match v with
  | VUndefined | VNull => Throw TypeError
  | VObject o => Return (obj_get o k)
  | VArray l => Return (indexed_get l k)
  | VString s => Return (indexed_get (chars s) k)
  | VBool _ | VNumber _ | VBigInt _ => Return VUndefined
  end.

(** [v[i]] for a literal index [i]. *)
Definition get_index (v : value) (i : nat) : result value :=
  match v with
  | VUndefined | VNull => Throw TypeError
  | VArray l => Return (nth i l VUndefined)
  | VString s => Return (nth i (chars s) VUndefined)
  | VObject o => Return (obj_get o (index_key i))
  | VBool _ | VNumber _ | VBigInt _ => Return VUndefined
  end.

(** [k in v]: the right operand must be an object. *)
Definition has_property (k : string) (v : value) : result bool :=
  match v with
  | VObject o => Return (obj_has o k)
  | VArray l =>
      Return (String.eqb k "length"
              || match array_index k (List.length l) with
                 | Some _ => true
                 | None => false
                 end)
  | _ => Throw TypeError
  end.

Fixpoint indexed (i : nat) (l : list value) : list (string * value) :=
  match l with
  | [] => []
  | x :: l' => (index_key i, x) :: indexed (S i) l'
  end.

(** The own enumerable properties that a rest pattern or a spread
    copies. *)
Definition own_properties (v : value) : result (list (string * value)) :=
  match v with
  | VUndefined | VNull => Throw TypeError
  | VObject o => Return o
  | VArray l => Return (indexed 0 l)
  | VString s => Return (indexed 0 (chars s))
  | VBool _ | VNumber _ | VBigInt _ => Return []
  end.

(** ** JSON *)

(** A JSON document.  [JSON.stringify] and [JSON.parse] are modelled up
    to the document; its text is left to the codec below. *)
Inductive json : Type :=
| JNull
| JBool (b : bool)
| JNumber (n : number)
| JString (s : string)
| JArray (elements : list json)
| JObject (members : list (string * json)).

(** The rendering of a number: one that is not finite is written
    [null], and negative zero is written [0]. *)
Definition json_of_number (n : number) : json :=
  match n with
  | NNaN | NInf _ => JNull
  | NNegZero => JNumber (NInt 0)
  | _ => JNumber n
  end.

(** [typeof value === 'bigint' ? value.toString() : value], the
    replacer that [zipAndEncodeToBase64] passes to [JSON.stringify]. *)
Definition replacer (x : value) : value :=
  match x with
  | VBigInt z => VString (bigint_to_string z)
  | _ => x
  end.

(** [JSON.stringify(v, replacer)] up to the document: every property
    value goes through the replacer first (first branch below, the only
    values it changes); [undefined] has no rendering, so an object omits
    the member and an array writes [null]. *)
Fixpoint JSON_stringify (v : value) : option json :=
  match v with
  | VBigInt z =>
      match replacer (VBigInt z) with
      | VString s => Some (JString s)
      | _ => None
      end
  | VUndefined => None
  | VNull => Some JNull
  | VBool b => Some (JBool b)
  | VNumber n => Some (json_of_number n)
  | VString s => Some (JString s)
  | VArray l =>
      Some (JArray (map (fun x => match JSON_stringify x with
                                  | Some j => j
                                  | None => JNull
                                  end) l))
  | VObject o =>
      Some (JObject
              ((fix members (o : list (string * value)) : list (string * json) :=
                  match o with
                  | [] => []
                  | (k, x) :: o' =>
                      match JSON_stringify x with
                      | Some j => (k, j) :: members o'
                      | None => members o'
                      end
                  end) o))
  end.

(** The value [JSON.parse] builds from a document: the members of an
    object are defined one after the other, so that a repeated key
    keeps its first position and its last value, and array indices are
    enumerated first. *)
Fixpoint JSON_parse (j : json) : value :=
  match j with
  | JNull => VNull
  | JBool b => VBool b
  | JNumber n => VNumber n
  | JString s => VString s
  | JArray l => VArray (map JSON_parse l)
  | JObject m =>
      VObject
        ((fix properties (m : list (string * json)) (acc : list (string * value))
            : list (string * value) :=
            match m with
            | [] => acc
            | (k, x) :: m' => properties m' (obj_define acc k (JSON_parse x))
            end) m [])
  end.

(** ** The module's imports *)

(** Modelled from the spec: the zero-address constant [ZeroAddress] that
    the module imports from the ethers library, the 20-byte address of
    all zeros as a hex string. *)
Definition ZeroAddress : string :=
  "0x0000000000000000000000000000000000000000".

(** Modelled from the spec: the zero-hash constant [ZeroHash] that the
    module imports from the ethers library, the 32-byte value of all
    zeros as a hex string. *)
Definition ZeroHash : string :=
  "0x0000000000000000000000000000000000000000000000000000000000000000".

(** Modelled from the spec: the enumeration [OffchainAttestationVersion]
    of [./offchain], the three-valued version tag Legacy, V1, V2; a V2
    package has version 2, and the members count up from 0. *)
Module OffchainAttestationVersion.

Definition Legacy : number := NInt 0.
Definition Version1 : number := NInt 1.
Definition Version2 : number := NInt 2.

End OffchainAttestationVersion.
Import OffchainAttestationVersion.

(** ** The program *)

(** [a.k1.k2]. *)
Definition get_prop2 (a : value) (k1 k2 : string) : result value :=
  b <- get_prop a k1 ;; get_prop b k2.

(** ['v' in attestation && 'r' in attestation && 's' in attestation]. *)
Definition isSignedOffchainAttestationV1 (attestation : value) : result bool :=
  has_v <- has_property "v" attestation ;;
  if has_v then
    has_r <- has_property "r" attestation ;;
    if has_r then has_property "s" attestation else Return false
  else Return false.

(** [const { v, r, s, ...rest } = attestation] and the object literal
    [{ ...rest, version: Version1, signature: { v, r, s } }]. *)
Definition convertV1AttestationToV2 (attestation : value) : result value :=
  v <- get_prop attestation "v" ;;
  r <- get_prop attestation "r" ;;
  s <- get_prop attestation "s" ;;
  own <- own_properties attestation ;;
  let rest := obj_remove ["v"; "r"; "s"] own in
  Return
    (VObject
       (obj_set (obj_set rest "version" (VNumber Version1))
          "signature" (VObject [("v", v); ("r", r); ("s", s)]))).

Definition compactOffchainAttestationPackage (pkg : value) : result value :=
  signer <- get_prop pkg "signer" ;;
  sig <- get_prop pkg "sig" ;;
  flat <- isSignedOffchainAttestationV1 sig ;;
  sig <- (if flat then convertV1AttestationToV2 sig else Return sig) ;;
  c0 <- get_prop2 sig "domain" "version" ;;
  c1 <- get_prop2 sig "domain" "chainId" ;;
  c2 <- get_prop2 sig "domain" "verifyingContract" ;;
  c3 <- get_prop2 sig "signature" "r" ;;
  c4 <- get_prop2 sig "signature" "s" ;;
  c5 <- get_prop2 sig "signature" "v" ;;
  c7 <- get_prop sig "uid" ;;
  c8 <- get_prop2 sig "message" "schema" ;;
  c9 <- (recipient <- get_prop2 sig "message" "recipient" ;;
         if strict_equal_string recipient ZeroAddress then Return (VString "0")
         else get_prop2 sig "message" "recipient") ;;
  c10 <- (time <- get_prop2 sig "message" "time" ;;
          n <- js_Number time ;; Return (VNumber n)) ;;
  c11 <- (expirationTime <- get_prop2 sig "message" "expirationTime" ;;
          n <- js_Number expirationTime ;; Return (VNumber n)) ;;
  c12 <- (refUID <- get_prop2 sig "message" "refUID" ;;
          if strict_equal_string refUID ZeroHash then Return (VString "0")
          else get_prop2 sig "message" "refUID") ;;
  c13 <- get_prop2 sig "message" "revocable" ;;
  c14 <- get_prop2 sig "message" "data" ;;
  c16 <- get_prop2 sig "message" "version" ;;
  c17 <- get_prop2 sig "message" "salt" ;;
  Return
    (VArray
       [c0; c1; c2; c3; c4; c5; signer; c7; c8; c9; c10; c11; c12; c13; c14;
        num 0; c16; c17]).

(** An entry [{ name, type }] of a typed-data field list. *)
Definition field (name type : string) : value :=
  VObject [("name", VString name); ("type", VString type)].

(** The field list that [attestTypes.Attest] starts from. *)
Definition base_fields : list value :=
  [field "schema" "bytes32"; field "recipient" "address";
   field "time" "uint64"; field "expirationTime" "uint64";
   field "revocable" "bool"; field "refUID" "bytes32"; field "data" "bytes"].

Definition uncompactOffchainAttestationPackage (compacted : value)
  : result value :=
  c16 <- get_index compacted 16 ;;
  version <- (if to_boolean c16 then get_index compacted 16
              else Return (VNumber Legacy)) ;;
  Attest <-
    (if strict_equal_number version Legacy then Return base_fields
     else if strict_equal_number version Version1 then
       Return (field "version" "uint16" :: base_fields)
     else if strict_equal_number version Version2 then
       Return (field "version" "uint16" :: base_fields
                 ++ [field "salt" "bytes32"])
     else (rendering <- to_string version ;;
           Throw (Error ("Unsupported version: " ++ rendering)))) ;;
  let attestTypes := VObject [("Attest", VArray Attest)] in
  c0 <- get_index compacted 0 ;;
  chainId <- (c1 <- get_index compacted 1 ;; js_BigInt c1) ;;
  c2 <- get_index compacted 2 ;;
  c3 <- get_index compacted 3 ;;
  c4 <- get_index compacted 4 ;;
  c5 <- get_index compacted 5 ;;
  c7 <- get_index compacted 7 ;;
  c8 <- get_index compacted 8 ;;
  recipient <- (c9 <- get_index compacted 9 ;;
                if strict_equal_string c9 "0" then Return (VString ZeroAddress)
                else get_index compacted 9) ;;
  time <- (c10 <- get_index compacted 10 ;; js_BigInt c10) ;;
  expirationTime <- (c11 <- get_index compacted 11 ;; js_BigInt c11) ;;
  refUID <- (c12 <- get_index compacted 12 ;;
             if strict_equal_string c12 "0" then Return (VString ZeroHash)
             else get_index compacted 12) ;;
  c13 <- get_index compacted 13 ;;
  c14 <- get_index compacted 14 ;;
  c17 <- get_index compacted 17 ;;
  c6 <- get_index compacted 6 ;;
  Return
    (VObject
       [("sig",
         VObject
           [("version", version);
            ("domain",
             VObject
               [("name", VString "EAS Attestation");
                ("version", c0);
                ("chainId", VBigInt chainId);
                ("verifyingContract", c2)]);
            ("primaryType",
             VString (if strict_equal_number version Legacy
                      then "Attestation" else "Attest"));
            ("types", attestTypes);
            ("signature", VObject [("r", c3); ("s", c4); ("v", c5)]);
            ("uid", c7);
            ("message",
             VObject
               [("version", version);
                ("schema", c8);
                ("recipient", recipient);
                ("time", VBigInt time);
                ("expirationTime", VBigInt expirationTime);
                ("refUID", refUID);
                ("revocable", c13);
                ("data", c14);
                ("salt", c17)])]);
        ("signer", c6)]).

(** *** The text codec

    The text of a JSON document, the deflate stream and its base64
    rendering belong to the JavaScript engine and to the pako and
    js-base64 libraries; the module is embedded over any implementation
    of them. *)
Section Codec.

(** JSON text, compressed bytes, base64 text. *)
Variables text bytes base64 : Type.

(** The text [JSON.stringify] writes for a document, and the document
    [JSON.parse] reads from a text. *)
Variable JSON_write : json -> text.
Variable JSON_read : text -> result json.

(** [pako.deflate(s, { level: 9 })] and [pako.inflate(b, { to: 'string' })]. *)
Variable deflate : text -> bytes.
Variable inflate : bytes -> result text.

(** [Base64.fromUint8Array] and [Base64.toUint8Array]. *)
Variable fromUint8Array : bytes -> base64.
Variable toUint8Array : base64 -> bytes.

(** [encodeURIComponent], on a base64 text. *)
Variable encodeURIComponent : base64 -> string.

Definition zipAndEncodeToBase64 (pkg : value) : result base64 :=
  compacted <- compactOffchainAttestationPackage pkg ;;
  match JSON_stringify compacted with
  | Some document =>
      let jsoned := JSON_write document in
      let gzipped := deflate jsoned in
      Return (fromUint8Array gzipped)
  | None => Throw TypeError   (* not reached: [compacted] is an array *)
  end.

Definition createOffchainURL (pkg : value) : result string :=
  base64 <- zipAndEncodeToBase64 pkg ;;
  Return ("/offchain/url/#attestation=" ++ encodeURIComponent base64).

Definition decodeBase64ZippedBase64 (b : base64) : result value :=
  let fromBase64 := toUint8Array b in
  jsonStr <- inflate fromBase64 ;;
  document <- JSON_read jsonStr ;;
  let compacted := JSON_parse document in
  uncompactOffchainAttestationPackage compacted.

End Codec.

Arguments zipAndEncodeToBase64 {text bytes base64}.
Arguments createOffchainURL {text bytes base64}.
Arguments decodeBase64ZippedBase64 {text bytes base64}.

(** ** Signed packages *)

(** The typed leaves of a signed package: the signing domain, the
    signature, the attestation message, the uid and the signer. *)
Record fields : Type := {
  domain_version : string;
  chainId : Z;
  verifyingContract : string;
  sig_r : string;
  sig_s : string;
  sig_v : Z;
  signer : string;
  uid : string;
  schema : string;
  recipient : string;
  time : Z;
  expirationTime : Z;
  refUID : string;
  revocable : bool;
  data : string
}.

(** The "Attest" field list of a version: the base fields, with a
    leading [version] from V1 on and a trailing [salt] from V2 on. *)
Definition attest_fields (version : number) : list value :=
  if number_eqb version Legacy then base_fields
  else if number_eqb version Version1 then field "version" "uint16" :: base_fields
  else field "version" "uint16" :: base_fields ++ [field "salt" "bytes32"].

Definition primary_type (version : number) : string :=
  if number_eqb version Legacy then "Attestation" else "Attest".

Definition domain_of (f : fields) : value :=
  VObject
    [("name", VString "EAS Attestation");
     ("version", VString (domain_version f));
     ("chainId", VBigInt (chainId f));
     ("verifyingContract", VString (verifyingContract f))].

Definition signature_of (f : fields) : value :=
  VObject
    [("r", VString (sig_r f)); ("s", VString (sig_s f)); ("v", num (sig_v f))].

(** A message, with the values of its [version] and [salt] members
    ([VUndefined] for a member that the message does not have). *)
Definition message_of (version salt : value) (f : fields) : value :=
  VObject
    [("version", version);
     ("schema", VString (schema f));
     ("recipient", VString (recipient f));
     ("time", VBigInt (time f));
     ("expirationTime", VBigInt (expirationTime f));
     ("refUID", VString (refUID f));
     ("revocable", VBool (revocable f));
     ("data", VString (data f));
     ("salt", salt)].

(** A signed package in the nested signature form, as the decompactor
    lays it out: [version] is the package's version tag, [mversion] and
    [salt] are the message's members of that name. *)
Definition package_of (version : number) (mversion salt : value) (f : fields)
  : value :=
  VObject
    [("sig",
      VObject
        [("version", VNumber version);
         ("domain", domain_of f);
         ("primaryType", VString (primary_type version));
         ("types", VObject [("Attest", VArray (attest_fields version))]);
         ("signature", signature_of f);
         ("uid", VString (uid f));
         ("message", message_of mversion salt f)]);
     ("signer", VString (signer f))].

(** The flat legacy signature form: [r], [s], [v] beside [domain],
    [message] and [uid], no nested [signature] and no [version]. *)
Definition flat_package_of (message : value) (f : fields) : value :=
  VObject
    [("sig",
      VObject
        [("domain", domain_of f);
         ("primaryType", VString (primary_type Version1));
         ("types", VObject [("Attest", VArray (attest_fields Version1))]);
         ("r", VString (sig_r f));
         ("s", VString (sig_s f));
         ("v", num (sig_v f));
         ("uid", VString (uid f));
         ("message", message)]);
     ("signer", VString (signer f))].

(** A message whose [version] and [salt] members are left out when they
    are [None]. *)
Definition plain_message (version : option number) (salt : option string)
  (f : fields) : value :=
  VObject
    ((match version with Some n => [("version", VNumber n)] | None => [] end)
     ++ [("schema", VString (schema f));
         ("recipient", VString (recipient f));
         ("time", VBigInt (time f));
         ("expirationTime", VBigInt (expirationTime f));
         ("refUID", VString (refUID f));
         ("revocable", VBool (revocable f));
         ("data", VString (data f))]
     ++ match salt with Some s => [("salt", VString s)] | None => [] end).

(** A nested package whose message is [message]. *)
Definition nested_package_of (version : number) (message : value) (f : fields)
  : value :=
  VObject
    [("sig",
      VObject
        [("version", VNumber version);
         ("domain", domain_of f);
         ("primaryType", VString (primary_type version));
         ("types", VObject [("Attest", VArray (attest_fields version))]);
         ("signature", signature_of f);
         ("uid", VString (uid f));
         ("message", message)]);
     ("signer", VString (signer f))].

Definition is_undefined (v : value) : bool :=
  match v with
  | VUndefined => true
  | _ => false
  end.

(** Two values are the same when no property read tells them apart:
    primitives are equal, arrays agree element by element, and objects
    agree on every key, a missing property reading as [undefined]. *)
Fixpoint same_value (a b : value) : bool :=
  match a, b with
  | VUndefined, VUndefined => true
  | VNull, VNull => true
  | VBool x, VBool y => Bool.eqb x y
  | VNumber x, VNumber y => number_eqb x y
  | VBigInt x, VBigInt y => x =? y
  | VString x, VString y => String.eqb x y
  | VArray l, VArray l' =>
      (fix all2 (l l' : list value) : bool :=
         match l, l' with
         | [], [] => true
         | x :: l, y :: l' => same_value x y && all2 l l'
         | _, _ => false
         end) l l'
  | VObject o, VObject o' =>
      (fix members (m : list (string * value)) : bool :=
         match m with
         | [] => true
         | (k, x) :: m' => same_value x (obj_get o' k) && members m'
         end) o
      && forallb (fun kv => obj_has o (fst kv) || is_undefined (snd kv)) o'
  | _, _ => false
  end.

(** Two values are deep-equal when they are the same member for
    member: primitives are equal, arrays agree element by element, and
    objects have the same own keys, in any order, with deep-equal
    values.  A missing property is not an [undefined] one. *)
Fixpoint deep_equal (a b : value) : bool :=
  match a, b with
  | VUndefined, VUndefined => true
  | VNull, VNull => true
  | VBool x, VBool y => Bool.eqb x y
  | VNumber x, VNumber y => number_eqb x y
  | VBigInt x, VBigInt y => x =? y
  | VString x, VString y => String.eqb x y
  | VArray l, VArray l' =>
      (fix all2 (l l' : list value) : bool :=
         match l, l' with
         | [], [] => true
         | x :: l, y :: l' => deep_equal x y && all2 l l'
         | _, _ => false
         end) l l'
  | VObject o, VObject o' =>
      (fix members (m : list (string * value)) : bool :=
         match m with
         | [] => true
         | (k, x) :: m' =>
             obj_has o' k && deep_equal x (obj_get o' k) && members m'
         end) o
      && forallb (fun kv => obj_has o (fst kv)) o'
  | _, _ => false
  end.

(** The value of a member that may be missing. *)
Definition version_value (version : option number) : value :=
  match version with
  | Some n => VNumber n
  | None => VUndefined
  end.

Definition salt_value (salt : option string) : value :=
  match salt with
  | Some s => VString s
  | None => VUndefined
  end.

(** [P] is a signed package in the nested form, of the given version
    and leaves, whose message has the given [version] and [salt]
    members: it reads like [package_of], and it does not expose [v],
    [r] and [s] at the top level of its signature-bearing object. *)
Definition is_package (version : number) (mversion : option number)
  (salt : option string) (f : fields) (P : value) : Prop :=
  same_value
    (package_of version (version_value mversion) (salt_value salt) f) P = true /\
  (sig <- get_prop P "sig" ;; isSignedOffchainAttestationV1 sig) = Return false.

(** The three version tags. *)
Definition is_version_tag (n : number) : Prop :=
  n = Legacy \/ n = Version1 \/ n = Version2.

(** The tuple of a package's leaves, for given values of the chain-id,
    version and salt slots. *)
Definition tuple_with (chain mversion salt : value) (f : fields) : value :=
  VArray
    [VString (domain_version f);
     chain;
     VString (verifyingContract f);
     VString (sig_r f);
     VString (sig_s f);
     num (sig_v f);
     VString (signer f);
     VString (uid f);
     VString (schema f);
     VString (if String.eqb (recipient f) ZeroAddress then "0" else recipient f);
     VNumber (number_of_bigint (time f));
     VNumber (number_of_bigint (expirationTime f));
     VString (if String.eqb (refUID f) ZeroHash then "0" else refUID f);
     VBool (revocable f);
     VString (data f);
     num 0;
     mversion;
     salt].

(** The tuple that the compactor makes of a package's leaves. *)
Definition tuple_of (mversion salt : value) (f : fields) : value :=
  tuple_with (VBigInt (chainId f)) mversion salt f.

(** The version that the decompactor resolves for a message's version
    member. *)
Definition resolved_version (mversion : option number) : number :=
  match mversion with
  | Some n => n
  | None => Legacy
  end.

(** What [JSON.parse] returns for the text of a value that may be
    missing: [undefined] comes back as [null]. *)
Definition through_json (v : value) : value :=
  match v with
  | VUndefined => VNull
  | _ => v
  end.

(** The largest integer [n] such that [n] and [n + 1] are both doubles:
    [Number.MAX_SAFE_INTEGER]. *)
Definition MAX_SAFE_INTEGER : Z := 2 ^ 53 - 1.

Definition is_safe_integer (z : Z) : Prop := Z.abs z <= MAX_SAFE_INTEGER.


(** [a.k1.k2.k3]. *)
Definition get_prop3 (a : value) (k1 k2 k3 : string) : result value :=
  b <- get_prop2 a k1 k2 ;; get_prop b k3.

(** The value in slot [i] of a tuple that can be indexed. *)
Definition slot (compacted : value) (i : nat) : value :=
  match get_index compacted i with
  | Return v => v
  | Throw _ => VUndefined
  end.

(** The compactor followed by the decompactor. *)
Definition decompact_compact (P : value) : result value :=
  compacted <- compactOffchainAttestationPackage P ;;
  uncompactOffchainAttestationPackage compacted.

(** What the decompactor makes of a slot that the compactor filled from
    [s]: the literal string "0" is taken for the sentinel. *)
Definition unsentinel (zero s : string) : string :=
  if String.eqb s "0" then zero else s.

(** The leaves with other times. *)
Definition with_times (t e : Z) (f : fields) : fields :=
  {| domain_version := domain_version f;
     chainId := chainId f;
     verifyingContract := verifyingContract f;
     sig_r := sig_r f;
     sig_s := sig_s f;
     sig_v := sig_v f;
     signer := signer f;
     uid := uid f;
     schema := schema f;
     recipient := recipient f;
     time := t;
     expirationTime := e;
     refUID := refUID f;
     revocable := revocable f;
     data := data f |}.

(** The leaves with the times as they come back from their coercion to
    numbers. *)
Definition lossy_times (f : fields) : fields :=
  with_times (through_double (time f)) (through_double (expirationTime f)) f.

(** The leaves after compaction and decompaction. *)
Definition decompacted_leaves (f : fields) : fields :=
  {| domain_version := domain_version f;
     chainId := chainId f;
     verifyingContract := verifyingContract f;
     sig_r := sig_r f;
     sig_s := sig_s f;
     sig_v := sig_v f;
     signer := signer f;
     uid := uid f;
     schema := schema f;
     recipient := unsentinel ZeroAddress (recipient f);
     time := through_double (time f);
     expirationTime := through_double (expirationTime f);
     refUID := unsentinel ZeroHash (refUID f);
     revocable := revocable f;
     data := data f |}.

(** The JSON document of the tuple of a package's leaves. *)
Definition wire_of (mversion : option number) (salt : option string)
  (f : fields) : json :=
  JArray
    [JString (domain_version f);
     JString (bigint_to_string (chainId f));
     JString (verifyingContract f);
     JString (sig_r f);
     JString (sig_s f);
     JNumber (NInt (sig_v f));
     JString (signer f);
     JString (uid f);
     JString (schema f);
     JString (if String.eqb (recipient f) ZeroAddress then "0" else recipient f);
     json_of_number (number_of_bigint (time f));
     json_of_number (number_of_bigint (expirationTime f));
     JString (if String.eqb (refUID f) ZeroHash then "0" else refUID f);
     JBool (revocable f);
     JString (data f);
     JNumber (NInt 0);
     match mversion with Some n => json_of_number n | None => JNull end;
     match salt with Some s => JString s | None => JNull end].

Definition is_json_string (j : json) : bool :=
  match j with
  | JString _ => true
  | _ => false
  end.

(** ** Sample packages *)

(** The leaves of the specification's concrete scenario: an all-zero
    schema id, the zero address as recipient, time 1000, no expiration,
    revocable, no referenced attestation, data [0x1234], [v = 27]. *)
Definition sample_fields : fields :=
  {| domain_version := "1.3.0";
     chainId := 11155111;
     verifyingContract := "0xC2679fBD37d54388Ce493F1DB75320D236e1815e";
     sig_r := "0x5d3f1f0a9e8c7b6a5d4c3b2a19080706f5e4d3c2b1a0918273645546372819a0b1";
     sig_s := "0x1b2a39485766758493a2b1c0d9e8f70615243342516070809a0b0c0d0e0f1011";
     sig_v := 27;
     signer := "0x8ba1f109551bD432803012645Ac136ddd64DBA72";
     uid := "0x9c4f2b7d1e3a5c6f8091a2b3c4d5e6f708192a3b4c5d6e7f8091a2b3c4d5e6f7";
     schema := "0x0000000000000000000000000000000000000000000000000000000000000000";
     recipient := ZeroAddress;
     time := 1000;
     expirationTime := 0;
     refUID := ZeroHash;
     revocable := true;
     data := "0x1234" |}.

Definition sample_salt : string :=
  "0xabcdabcdabcdabcdabcdabcdabcdabcdabcdabcdabcdabcdabcdabcdabcdabcd".

(** A Legacy package: its message has neither [version] nor [salt]. *)
Definition legacy_sample : value :=
  nested_package_of Legacy (plain_message None None sample_fields) sample_fields.

(** A V1 package in the nested form: the message carries [version]. *)
Definition v1_sample : value :=
  nested_package_of Version1
    (plain_message (Some Version1) None sample_fields) sample_fields.

(** A V2 package: the message carries [version] and [salt]. *)
Definition v2_sample : value :=
  nested_package_of Version2
    (plain_message (Some Version2) (Some sample_salt) sample_fields)
    sample_fields.

(** A package in the flat legacy form, without an explicit version. *)
Definition flat_sample : value :=
  flat_package_of (plain_message None None sample_fields) sample_fields.

(** A tuple whose version slot holds 99. *)
Definition tuple_99 : value :=
  tuple_with (VBigInt 1) (num 99) VUndefined sample_fields.

(** An object with an own member named [toString], as [JSON.parse]
    makes of the text [{"toString":1}]. *)
Definition shadowed : value := VObject [("toString", num 1)].

(** A tuple whose version slot holds that object. *)
Definition tuple_shadowed : value :=
  tuple_with (VBigInt 1) shadowed VUndefined sample_fields.

(** The sample leaves with a time beyond the safe integers. *)
Definition late_fields : fields :=
  {| domain_version := domain_version sample_fields;
     chainId := 1;
     verifyingContract := verifyingContract sample_fields;
     sig_r := sig_r sample_fields;
     sig_s := sig_s sample_fields;
     sig_v := sig_v sample_fields;
     signer := signer sample_fields;
     uid := uid sample_fields;
     schema := schema sample_fields;
     recipient := recipient sample_fields;
     time := 2 ^ 60;
     expirationTime := 0;
     refUID := refUID sample_fields;
     revocable := revocable sample_fields;
     data := data sample_fields |}.

Definition late_sample : value :=
  nested_package_of Version1
    (plain_message (Some Version1) None late_fields) late_fields.

(** The codec that leaves a document as it is, to run the pipeline on
    the samples. *)
Definition zip_plain (pkg : value) : result json :=
  zipAndEncodeToBase64 (fun j : json => j) (fun t : json => t)
    (fun b : json => b) pkg.

Definition unzip_plain (b : json) : result value :=
  decodeBase64ZippedBase64 (fun t : json => Return t)
    (fun b : json => Return b) (fun b : json => b) b.

(** The package that the decompactor builds from the slots of a tuple,
    for the resolved version [r] and the converted chain id and times. *)
Definition unpacked (r : number) (compacted : value) (chain time expiration : Z)
  : value :=
  VObject
    [("sig",
      VObject
        [("version", VNumber r);
         ("domain",
          VObject
            [("name", VString "EAS Attestation");
             ("version", slot compacted 0);
             ("chainId", VBigInt chain);
             ("verifyingContract", slot compacted 2)]);
         ("primaryType", VString (primary_type r));
         ("types", VObject [("Attest", VArray (attest_fields r))]);
         ("signature",
          VObject
            [("r", slot compacted 3);
             ("s", slot compacted 4);
             ("v", slot compacted 5)]);
         ("uid", slot compacted 7);
         ("message",
          VObject
            [("version", VNumber r);
             ("schema", slot compacted 8);
             ("recipient",
              if strict_equal_string (slot compacted 9) "0"
              then VString ZeroAddress else slot compacted 9);
             ("time", VBigInt time);
             ("expirationTime", VBigInt expiration);
             ("refUID",
              if strict_equal_string (slot compacted 12) "0"
              then VString ZeroHash else slot compacted 12);
             ("revocable", slot compacted 13);
             ("data", slot compacted 14);
             ("salt", slot compacted 17)])]);
     ("signer", slot compacted 6)].

(** A value that [ToString] renders: the rendering reaches no object
    with an own member named [toString]. *)
Fixpoint renders (v : value) : bool :=
  match v with
  | VArray l => forallb renders l
  | VObject o => negb (obj_has o "toString")
  | _ => true
  end.

(** The version slot [c16] resolves to the tag [r]: it is falsy and [r]
    is Legacy, or it is the number of the V1 or the V2 tag. *)
Definition resolves_to (c16 : value) (r : number) : Prop :=
  (to_boolean c16 = false /\ r = Legacy) \/
  (c16 = VNumber r /\ (r = Version1 \/ r = Version2)).

(** ** What the compactor reads *)

Definition is_nullish (v : value) : bool :=
  match v with
  | VUndefined | VNull => true
  | _ => false
  end.

(** The member [k] of a value that has members. *)
Definition member (v : value) (k : string) : value :=
  match get_prop v k with
  | Return x => x
  | Throw _ => VUndefined
  end.

(** [v === zero ? '0' : v]. *)
Definition sentinel (zero : string) (v : value) : value :=
  if strict_equal_string v zero then VString "0" else v.

(** [c === '0' ? zero : c]. *)
Definition restore (zero : string) (c : value) : value :=
  if strict_equal_string c "0" then VString zero else c.

(** The signature-bearing object after the legacy adapter. *)
Definition normalized (sig : value) : result value :=
  flat <- isSignedOffchainAttestationV1 sig ;;
  if flat then convertV1AttestationToV2 sig else Return sig.

(** The tuple of a signer and a normalized signature-bearing object
    whose [domain], [signature] and [message] can be read, for the
    numbers that the two times have been coerced to. *)
Definition compacted_of (signer sig : value) (time expirationTime : number)
  : value :=
  let domain := member sig "domain" in
  let signature := member sig "signature" in
  let message := member sig "message" in
  VArray
    [member domain "version";
     member domain "chainId";
     member domain "verifyingContract";
     member signature "r";
     member signature "s";
     member signature "v";
     signer;
     member sig "uid";
     member message "schema";
     sentinel ZeroAddress (member message "recipient");
     VNumber time;
     VNumber expirationTime;
     sentinel ZeroHash (member message "refUID");
     member message "revocable";
     member message "data";
     num 0;
     member message "version";
     member message "salt"].

(** The compactor after the reads of [signer] and [sig] and the
    normalization: the reads of [domain], [signature] and [message]
    fail on [undefined] and [null], then the two times are coerced. *)
Definition compact_normalized (signer sig : value) : result value :=
  if is_nullish (member sig "domain")
     || is_nullish (member sig "signature")
     || is_nullish (member sig "message")
  then Throw TypeError
  else
    time <- js_Number (member (member sig "message") "time") ;;
    expirationTime <- js_Number (member (member sig "message") "expirationTime") ;;
    Return (compacted_of signer sig time expirationTime).

(** The tuple that recompaction makes of a decompacted one. *)
Definition canonical_tuple (r : number) (t : value) (chain time expiration : Z)
  : value :=
  VArray
    [slot t 0;
     VBigInt chain;
     slot t 2;
     slot t 3;
     slot t 4;
     slot t 5;
     slot t 6;
     slot t 7;
     slot t 8;
     sentinel ZeroAddress (restore ZeroAddress (slot t 9));
     VNumber (number_of_bigint time);
     VNumber (number_of_bigint expiration);
     sentinel ZeroHash (restore ZeroHash (slot t 12));
     slot t 13;
     slot t 14;
     num 0;
     VNumber r;
     slot t 17].

(** The leaves with another recipient. *)
Definition with_recipient (a : string) (f : fields) : fields :=
  {| domain_version := domain_version f;
     chainId := chainId f;
     verifyingContract := verifyingContract f;
     sig_r := sig_r f;
     sig_s := sig_s f;
     sig_v := sig_v f;
     signer := signer f;
     uid := uid f;
     schema := schema f;
     recipient := a;
     time := time f;
     expirationTime := expirationTime f;
     refUID := refUID f;
     revocable := revocable f;
     data := data f |}.

(** An integral number, the only kind that [BigInt] converts. *)
Definition is_integral (n : number) : bool :=
  match n with
  | NInt _ | NNegZero => true
  | _ => false
  end.
(** * Facts about the conversions *)

Lemma bind_Return {A B : Type} (c : result A) (k : A -> result B) (b : B) :
  bind c k = Return b -> exists a, c = Return a /\ k a = Return b.
Proof.
  destruct c as [a | e]; simpl; intros H; [eauto | discriminate].
Qed.

Lemma number_eqb_eq (a b : number) : number_eqb a b = true -> a = b.
Proof.
  destruct a, b; simpl; intros H; try discriminate; try reflexivity.
  - apply Z.eqb_eq in H. congruence.
  - apply andb_prop in H. destruct H as [Hm Hk].
    apply Z.eqb_eq in Hm. apply Pos.eqb_eq in Hk. congruence.
  - apply Bool.eqb_prop in H. congruence.
Qed.

(** A safe integer is a double: [Number] of a bigint in the safe range
    is exact. *)
Lemma round53_small (n : Z) : 0 <= n < 2 ^ 53 -> round53 n = n.
Proof.
  intros [H0 H1]. unfold round53.
  assert (Hlog : Z.log2 n < 53).
  { destruct (Z.eq_dec n 0) as [-> | Hn]; [reflexivity |].
    apply Z.log2_lt_pow2; lia. }
  destruct (Z.leb_spec (Z.log2 n + 1) 53); [reflexivity | lia].
Qed.

Lemma number_of_bigint_safe (z : Z) :
  is_safe_integer z -> number_of_bigint z = NInt z.
Proof.
  unfold is_safe_integer, MAX_SAFE_INTEGER, number_of_bigint. intros H.
  assert (H53 : 2 ^ 53 < 2 ^ 1024) by (apply Z.pow_lt_mono_r; lia).
  rewrite round53_small by lia.
  destruct (Z.leb_spec (2 ^ 1024) (Z.abs z)); [lia |].
  f_equal. lia.
Qed.

Lemma round53_bound (n : Z) : 0 <= n -> round53 n <= 2 ^ (Z.log2 n + 1).
Proof.
  intros Hn. unfold round53.
  assert (Hlog : 0 <= Z.log2 n) by apply Z.log2_nonneg.
  destruct (Z.leb_spec (Z.log2 n + 1) 53) as [Hsmall | Hbig].
  - destruct (Z.eq_dec n 0) as [-> | Hn0]; [simpl; lia |].
    pose proof (Z.log2_spec n ltac:(lia)). lia.
  - set (sh := Z.log2 n + 1 - 53).
    assert (Hsh : 0 < sh) by (unfold sh; lia).
    assert (Hpos : 0 < n).
    { destruct (Z.eq_dec n 0) as [-> | ?]; [simpl in Hbig; lia | lia]. }
    pose proof (Z.log2_spec n Hpos) as [_ Hup].
    rewrite Z.shiftr_div_pow2 by lia.
    assert (Hq : n / 2 ^ sh < 2 ^ 53).
    { apply Z.div_lt_upper_bound; [apply Z.pow_pos_nonneg; lia |].
      rewrite <- Z.pow_add_r by lia.
      replace (sh + 53) with (Z.succ (Z.log2 n)) by (unfold sh; lia).
      exact Hup. }
    match goal with
    | |- Z.shiftl ?q' sh <= _ => assert (Hq' : q' <= 2 ^ 53)
    end.
    { destruct (_ || _)%bool; lia. }
    rewrite Z.shiftl_mul_pow2 by lia.
    replace (Z.log2 n + 1) with (53 + sh) by (unfold sh; lia).
    rewrite Z.pow_add_r by lia.
    apply Z.mul_le_mono_nonneg_r; [apply Z.pow_nonneg; lia | exact Hq'].
Qed.

(** [Number] of an unsigned 64-bit integer is finite. *)
Lemma uint64_number_is_finite (z : Z) : is_uint64 z -> number_is_finite z.
Proof.
  unfold is_uint64, number_is_finite. intros [H0 H64].
  rewrite Z.abs_eq by assumption.
  pose proof (round53_bound z H0) as Hb.
  assert (Hlog : Z.log2 z + 1 <= 64).
  { destruct (Z.eq_dec z 0) as [-> | Hz]; [simpl; lia |].
    assert (Z.log2 z < 64) by (apply Z.log2_lt_pow2; lia). lia. }
  assert (Hpow : 2 ^ (Z.log2 z + 1) <= 2 ^ 64) by (apply Z.pow_le_mono_r; lia).
  assert (H1024 : 2 ^ 64 < 2 ^ 1024) by (apply Z.pow_lt_mono_r; lia).
  lia.
Qed.

Lemma through_double_safe (z : Z) : is_safe_integer z -> through_double z = z.
Proof.
  unfold is_safe_integer, MAX_SAFE_INTEGER, through_double. intros H.
  rewrite round53_small by lia. lia.
Qed.

Lemma safe_number_is_finite (z : Z) : is_safe_integer z -> number_is_finite z.
Proof.
  unfold is_safe_integer, MAX_SAFE_INTEGER, number_is_finite. intros H.
  assert (H53 : 2 ^ 53 < 2 ^ 1024) by (apply Z.pow_lt_mono_r; lia).
  rewrite round53_small by lia. lia.
Qed.

Lemma number_of_bigint_finite (z : Z) :
  number_is_finite z -> number_of_bigint z = NInt (through_double z).
Proof.
  unfold number_is_finite, number_of_bigint, through_double. intros H.
  destruct (Z.leb_spec (2 ^ 1024) (round53 (Z.abs z))); [lia | reflexivity].
Qed.

(** Beyond the safe integers the coercion loses the low bits. *)
Lemma through_double_lossy : through_double (2 ^ 53 + 1) = 2 ^ 53.
Proof.
  reflexivity.
Qed.

(** * Facts about strings *)

Lemma visible_not_continuation (c : ascii) :
  (32 <? byte c) && (byte c <? 128) = true -> is_continuation c = false.
Proof.
  unfold is_continuation. intros H. apply andb_prop in H. destruct H as [_ H].
  apply Z.ltb_lt in H.
  destruct (Z.leb_spec 128 (byte c)); [lia | reflexivity].
Qed.

Lemma visible_not_whitespace (c : ascii) :
  (32 <? byte c) && (byte c <? 128) = true ->
  is_whitespace (String c EmptyString) = false.
Proof.
  unfold is_whitespace. cbn [code_point existsb]. intros H.
  apply andb_prop in H. destruct H as [Hlo Hhi].
  apply Z.ltb_lt in Hlo. apply Z.ltb_lt in Hhi.
  repeat match goal with
         | |- context [Z.eqb (byte c) ?k] =>
             destruct (Z.eqb_spec (byte c) k); [lia |]
         end.
  destruct (Z.leb_spec 8192 (byte c)); [lia | reflexivity].
Qed.

(** A string of visible ASCII characters has one character to the
    byte. *)
Lemma characters_visible (s : string) :
  is_visible_ascii s = true ->
  characters s = map (fun c => String c EmptyString) (list_ascii_of_string s).
Proof.
  induction s as [| c s IH]; [reflexivity |].
  cbn [is_visible_ascii characters list_ascii_of_string map]. intros H.
  apply andb_prop in H. destruct H as [_ Hs]. rewrite (IH Hs).
  destruct s as [| c' s']; [reflexivity |].
  cbn [list_ascii_of_string map starts_with_continuation].
  cbn [is_visible_ascii] in Hs. apply andb_prop in Hs. destruct Hs as [Hc' _].
  rewrite (visible_not_continuation _ Hc'). reflexivity.
Qed.

Lemma drop_whitespace_none (l : list string) :
  Forall (fun ch => is_whitespace ch = false) l -> drop_whitespace l = l.
Proof.
  intros H. destruct H as [| ch l Hch _]; [reflexivity |].
  simpl. rewrite Hch. reflexivity.
Qed.

Lemma concat_characters (l : list ascii) :
  String.concat "" (map (fun c => String c EmptyString) l)
  = string_of_list_ascii l.
Proof.
  induction l as [| c l IH]; [reflexivity |].
  cbn [map string_of_list_ascii]. rewrite <- IH.
  destruct l; reflexivity.
Qed.

(** Strings of visible ASCII characters are left alone by [trim]. *)
Lemma trim_visible (s : string) : is_visible_ascii s = true -> trim s = s.
Proof.
  intros H. unfold trim. rewrite (characters_visible s H).
  assert (Hall : Forall (fun ch => is_whitespace ch = false)
                   (map (fun c => String c EmptyString)
                      (list_ascii_of_string s))).
  { clear -H. induction s as [| c s IH]; [constructor |].
    cbn [is_visible_ascii] in H. apply andb_prop in H. destruct H as [Hc Hs].
    cbn [list_ascii_of_string map]. constructor.
    - exact (visible_not_whitespace c Hc).
    - exact (IH Hs). }
  rewrite (drop_whitespace_none _ Hall).
  rewrite (drop_whitespace_none (rev _)) by (apply Forall_rev; exact Hall).
  rewrite rev_involutive, concat_characters.
  apply string_of_list_ascii_of_string.
Qed.

Lemma string_of_uint_visible (u : Decimal.uint) :
  is_visible_ascii (NilEmpty.string_of_uint u) = true.
Proof.
  induction u; simpl; try rewrite IHu; reflexivity.
Qed.

Lemma bigint_to_string_visible (z : Z) :
  is_visible_ascii (bigint_to_string z) = true.
Proof.
  unfold bigint_to_string. destruct (Z.to_int z) as [u | u]; simpl.
  - apply string_of_uint_visible.
  - apply string_of_uint_visible.
Qed.

Lemma string_of_uint_nonempty (p : positive) :
  NilEmpty.string_of_uint (Pos.to_uint p) <> EmptyString.
Proof.
  intros H.
  assert (Hu : NilEmpty.uint_of_string (NilEmpty.string_of_uint (Pos.to_uint p))
               = Some Decimal.Nil) by (rewrite H; reflexivity).
  rewrite NilEmpty.usu in Hu. injection Hu as Hu.
  apply (f_equal Pos.of_uint) in Hu. rewrite DecimalPos.Unsigned.of_to in Hu.
  discriminate Hu.
Qed.

Lemma decimal_digits_to_uint (p : positive) :
  decimal_digits (NilEmpty.string_of_uint (Pos.to_uint p)) = Some (Zpos p).
Proof.
  unfold decimal_digits.
  destruct (NilEmpty.string_of_uint (Pos.to_uint p)) eqn:E.
  - exfalso. exact (string_of_uint_nonempty p E).
  - rewrite <- E, NilEmpty.usu. simpl. unfold Z.of_uint.
    rewrite DecimalPos.Unsigned.of_to. reflexivity.
Qed.

(** Reading back the decimal rendering of a bigint. *)
Lemma string_to_bigint_to_string (z : Z) :
  string_to_bigint (bigint_to_string z) = Some z.
Proof.
  unfold string_to_bigint.
  rewrite trim_visible by apply bigint_to_string_visible.
  unfold bigint_to_string.
  destruct z as [| p | p]; [reflexivity | |].
  - simpl Z.to_int. simpl NilEmpty.string_of_int.
    destruct (NilEmpty.string_of_uint (Pos.to_uint p)) eqn:E.
    + exfalso. exact (string_of_uint_nonempty p E).
    + rewrite <- E. unfold integer_literal.
      rewrite decimal_digits_to_uint. reflexivity.
  - simpl Z.to_int. simpl NilEmpty.string_of_int.
    unfold integer_literal at 1.
    assert (Hd : decimal_digits (String "-" (NilEmpty.string_of_uint (Pos.to_uint p)))
                 = None).
    { unfold decimal_digits. simpl.
      destruct (NilEmpty.uint_of_string (NilEmpty.string_of_uint (Pos.to_uint p)));
        reflexivity. }
    rewrite Hd. rewrite decimal_digits_to_uint. reflexivity.
Qed.

Lemma BigInt_of_decimal (z : Z) :
  js_BigInt (VString (bigint_to_string z)) = Return z.
Proof.
  unfold js_BigInt. cbn [to_primitive bind].
  rewrite string_to_bigint_to_string. reflexivity.
Qed.

(** * Facts about objects and sameness *)

Lemma same_value_string (s : string) (v : value) :
  same_value (VString s) v = true -> v = VString s.
Proof.
  destruct v; simpl; intros H; try discriminate.
  apply String.eqb_eq in H. congruence.
Qed.

Lemma same_value_bigint (z : Z) (v : value) :
  same_value (VBigInt z) v = true -> v = VBigInt z.
Proof.
  destruct v; simpl; intros H; try discriminate.
  apply Z.eqb_eq in H. congruence.
Qed.

Lemma same_value_bool (b : bool) (v : value) :
  same_value (VBool b) v = true -> v = VBool b.
Proof.
  destruct v; simpl; intros H; try discriminate.
  apply Bool.eqb_prop in H. congruence.
Qed.

Lemma same_value_number (n : number) (v : value) :
  same_value (VNumber n) v = true -> v = VNumber n.
Proof.
  destruct v; simpl; intros H; try discriminate.
  apply number_eqb_eq in H. congruence.
Qed.

Lemma same_value_undefined (v : value) :
  same_value VUndefined v = true -> v = VUndefined.
Proof.
  destruct v; simpl; intros H; try discriminate. reflexivity.
Qed.

Lemma same_value_version (mversion : option number) (v : value) :
  same_value (version_value mversion) v = true -> v = version_value mversion.
Proof.
  destruct mversion; simpl version_value.
  - apply same_value_number.
  - apply same_value_undefined.
Qed.

Lemma same_value_salt (salt : option string) (v : value) :
  same_value (salt_value salt) v = true -> v = salt_value salt.
Proof.
  destruct salt; simpl salt_value.
  - apply same_value_string.
  - apply same_value_undefined.
Qed.

Lemma same_value_object (o : list (string * value)) (v : value) :
  same_value (VObject o) v = true ->
  exists o', v = VObject o' /\
    Forall (fun kx => same_value (snd kx) (obj_get o' (fst kx)) = true) o.
Proof.
  destruct v as [| | | | | | | o']; try discriminate.
  intros H. exists o'. split; [reflexivity |].
  cbn [same_value] in H. apply andb_prop in H. destruct H as [H _].
  induction o as [| [k x] o IH]; [constructor |].
  apply andb_prop in H. destruct H as [Hx Ho].
  constructor; [exact Hx | exact (IH Ho)].
Qed.

(** Take a sameness hypothesis apart, down to the leaves. *)
Ltac same_inv :=
  repeat match goal with
    | H : Forall _ [] |- _ => clear H
    | H : Forall _ (_ :: _) |- _ =>
        let H1 := fresh "H" in
        apply Forall_cons_iff in H; destruct H as [H1 H]; cbn [fst snd] in H1
    | H : same_value (VString _) _ = true |- _ => apply same_value_string in H
    | H : same_value (VBigInt _) _ = true |- _ => apply same_value_bigint in H
    | H : same_value (VBool _) _ = true |- _ => apply same_value_bool in H
    | H : same_value (VNumber _) _ = true |- _ => apply same_value_number in H
    | H : same_value (num _) _ = true |- _ => apply same_value_number in H
    | H : same_value (version_value _) _ = true |- _ => apply same_value_version in H
    | H : same_value (salt_value _) _ = true |- _ => apply same_value_salt in H
    | H : same_value (VObject _) _ = true |- _ =>
        let o := fresh "o" in
        let E := fresh "E" in
        apply same_value_object in H; destruct H as (o & E & H)
    end.

Ltac read_props :=
  repeat match goal with
    | H : obj_get ?o ?k = _ |- context [obj_get ?o ?k] => rewrite H
    end.

(** The compactor on a package in the nested form. *)
Lemma compact_package (version : number) (mversion : option number)
  (salt : option string) (f : fields) (P : value) :
  is_package version mversion salt f P ->
  compactOffchainAttestationPackage P
  = Return (tuple_of (version_value mversion) (salt_value salt) f).
Proof.
  intros [Hs Hf].
  unfold package_of, domain_of, signature_of, message_of in Hs.
  same_inv. subst P.
  unfold compactOffchainAttestationPackage, get_prop2, tuple_of, tuple_with.
  cbn [get_prop bind] in *.
  read_props.
  match goal with
  | H : obj_get ?o "sig" = _ |- _ => rewrite H in Hf
  end.
  rewrite Hf.
  repeat (cbn [get_prop bind strict_equal_string js_Number to_primitive];
          read_props).
  destruct (String.eqb (recipient f) ZeroAddress),
    (String.eqb (refUID f) ZeroHash); reflexivity.
Qed.

Lemma decompacted_leaves_lossy (f : fields) :
  recipient f <> "0" -> refUID f <> "0" -> decompacted_leaves f = lossy_times f.
Proof.
  destruct f; unfold decompacted_leaves, lossy_times, with_times, unsentinel;
    simpl. intros Hrec Href.
  destruct (String.eqb_spec recipient0 "0"); [contradiction |].
  destruct (String.eqb_spec refUID0 "0"); [contradiction |].
  reflexivity.
Qed.

Lemma lossy_times_safe (f : fields) :
  is_safe_integer (time f) -> is_safe_integer (expirationTime f) ->
  lossy_times f = f.
Proof.
  intros Htime Hexp. unfold lossy_times.
  rewrite (through_double_safe _ Htime), (through_double_safe _ Hexp).
  destruct f; reflexivity.
Qed.

Lemma unsentinel_slot (zero s : string) :
  String.eqb zero "0" = false ->
  (if String.eqb (if String.eqb s zero then "0" else s) "0"
   then VString zero
   else VString (if String.eqb s zero then "0" else s))
  = VString (unsentinel zero s).
Proof.
  intros Hz. unfold unsentinel.
  destruct (String.eqb_spec s zero) as [-> | _].
  - rewrite Hz. reflexivity.
  - destruct (String.eqb s "0"); reflexivity.
Qed.

(** The decompactor on the tuple of a package's leaves: [chain] is the
    chain-id slot, [c16] the version slot, which is either falsy or the
    number of the V1 or the V2 tag. *)
Lemma uncompact_tuple (chain c16 salt : value) (f : fields) (r : number) :
  js_BigInt chain = Return (chainId f) ->
  (to_boolean c16 = false /\ r = Legacy) \/
  (c16 = VNumber r /\ (r = Version1 \/ r = Version2)) ->
  number_is_finite (time f) ->
  number_is_finite (expirationTime f) ->
  uncompactOffchainAttestationPackage (tuple_with chain c16 salt f)
  = Return (package_of r (VNumber r) salt (decompacted_leaves f)).
Proof.
  intros Hchain Hver Htime Hexp.
  assert (Hresolve :
            (if to_boolean c16 then Return c16 else Return (VNumber Legacy))
            = Return (VNumber r)).
  { destruct Hver as [[Hfalsy ->] | [-> [-> | ->]]];
      [rewrite Hfalsy | |]; reflexivity. }
  unfold uncompactOffchainAttestationPackage, tuple_with.
  cbn [get_index nth bind].
  rewrite Hresolve. cbn [bind].
  rewrite Hchain.
  rewrite (number_of_bigint_finite _ Htime), (number_of_bigint_finite _ Hexp).
  cbn [bind js_BigInt to_primitive strict_equal_string].
  assert (Hif : forall (b : bool) (x y : value),
             (if b then Return x else Return y) = Return (if b then x else y)).
  { intros [] ? ?; reflexivity. }
  rewrite !Hif.
  rewrite (unsentinel_slot ZeroAddress) by reflexivity.
  rewrite (unsentinel_slot ZeroHash) by reflexivity.
  cbn [bind].
  destruct Hver as [[_ ->] | [_ [-> | ->]]]; reflexivity.
Qed.

(** The version slot of a package whose message carries a version
    tag, or no version. *)
Lemma version_slot_resolves (mversion : option number) :
  (mversion = None \/ exists n, mversion = Some n /\ is_version_tag n) ->
  (to_boolean (version_value mversion) = false
   /\ resolved_version mversion = Legacy) \/
  (version_value mversion = VNumber (resolved_version mversion)
   /\ (resolved_version mversion = Version1
       \/ resolved_version mversion = Version2)).
Proof.
  intros [-> | (n & -> & [-> | [-> | ->]])]; simpl; auto.
Qed.

(** Compaction followed by decompaction, on a package in the nested
    form. *)
Lemma decompact_compact_package (version : number) (mversion : option number)
  (salt : option string) (f : fields) (P : value) :
  is_package version mversion salt f P ->
  (mversion = None \/ exists n, mversion = Some n /\ is_version_tag n) ->
  number_is_finite (time f) ->
  number_is_finite (expirationTime f) ->
  decompact_compact P
  = Return (package_of (resolved_version mversion)
              (VNumber (resolved_version mversion)) (salt_value salt)
              (decompacted_leaves f)).
Proof.
  intros HP Hver Htime Hexp. unfold decompact_compact.
  rewrite (compact_package _ _ _ _ _ HP). cbn [bind]. unfold tuple_of.
  apply uncompact_tuple; [reflexivity | | assumption | assumption].
  apply version_slot_resolves. assumption.
Qed.

(** * The decompactor on an arbitrary tuple *)

Lemma get_index_total (t : value) (i : nat) (x : value) :
  get_index t i = Return x -> forall j, get_index t j = Return (slot t j).
Proof.
  intros H j. unfold slot.
  destruct t; simpl in *; try discriminate H; reflexivity.
Qed.

Lemma get_index_slot (t : value) (i : nat) (x : value) :
  get_index t i = Return x -> x = slot t i.
Proof.
  intros H. unfold slot. rewrite H. reflexivity.
Qed.

Lemma if_Return {A : Type} (b : bool) (x y : A) :
  (if b then Return x else Return y) = Return (if b then x else y).
Proof.
  destruct b; reflexivity.
Qed.

Lemma strict_equal_number_nonzero (v : value) (p : positive) :
  strict_equal_number v (NInt (Zpos p)) = true -> v = VNumber (NInt (Zpos p)).
Proof.
  destruct v as [| | | n | | | |]; simpl; try discriminate.
  destruct n as [[| q | q] | | | |]; simpl; intros H; try discriminate.
  apply Pos.eqb_eq in H. congruence.
Qed.

Lemma strict_equal_number_zero_falsy (v : value) :
  strict_equal_number v (NInt 0) = true -> to_boolean v = false.
Proof.
  destruct v as [| | | n | | | |]; simpl; try discriminate.
  destruct n as [[| q | q] | | | |]; simpl; intros H;
    try discriminate; reflexivity.
Qed.

Lemma resolves_to_tag (c16 : value) (r : number) :
  resolves_to c16 r -> is_version_tag r.
Proof.
  unfold is_version_tag. intros [[_ ->] | [_ [-> | ->]]]; auto.
Qed.

(** The decompactor returns exactly when the version slot resolves to a
    tag and the chain id and the two times convert to bigints, and then
    it returns [unpacked]. *)
Lemma uncompact_intro (t c16 : value) (r : number) (chain time expiration : Z) :
  get_index t 16 = Return c16 ->
  resolves_to c16 r ->
  js_BigInt (slot t 1) = Return chain ->
  js_BigInt (slot t 10) = Return time ->
  js_BigInt (slot t 11) = Return expiration ->
  uncompactOffchainAttestationPackage t
  = Return (unpacked r t chain time expiration).
Proof.
  intros H16 Hres Hchain Htime Hexp.
  pose proof (get_index_total _ _ _ H16) as Hall.
  pose proof (get_index_slot _ _ _ H16) as Hc16.
  unfold uncompactOffchainAttestationPackage.
  rewrite !Hall. cbn [bind]. rewrite <- Hc16.
  assert (Hresolve :
            (if to_boolean c16 then Return c16 else Return (VNumber Legacy))
            = Return (VNumber r)).
  { destruct Hres as [[Hfalsy ->] | [-> [-> | ->]]];
      [rewrite Hfalsy | |]; reflexivity. }
  rewrite Hresolve. cbn [bind].
  rewrite Hchain, Htime, Hexp, !if_Return. cbn [bind].
  destruct Hres as [[_ ->] | [_ [-> | ->]]]; reflexivity.
Qed.

Lemma uncompact_inv (t R : value) :
  uncompactOffchainAttestationPackage t = Return R ->
  exists c16 r chain time expiration,
    get_index t 16 = Return c16 /\
    resolves_to c16 r /\
    js_BigInt (slot t 1) = Return chain /\
    js_BigInt (slot t 10) = Return time /\
    js_BigInt (slot t 11) = Return expiration /\
    R = unpacked r t chain time expiration.
Proof.
  intros H. unfold uncompactOffchainAttestationPackage in H.
  apply bind_Return in H. destruct H as (c16 & H16 & H).
  pose proof (get_index_total _ _ _ H16) as Hall.
  pose proof (get_index_slot _ _ _ H16) as Hc16.
  rewrite !Hall in H. rewrite <- Hc16 in H.
  assert (Hres : exists r, resolves_to c16 r /\
            (if to_boolean c16 then Return c16 else Return (VNumber Legacy))
            = Return (VNumber r)).
  { unfold resolves_to. destruct (to_boolean c16) eqn:Htruthy.
    - cbn [bind] in H.
      destruct (strict_equal_number c16 Legacy) eqn:E0.
      { apply strict_equal_number_zero_falsy in E0. congruence. }
      destruct (strict_equal_number c16 Version1) eqn:E1.
      { apply strict_equal_number_nonzero in E1. exists Version1. subst c16. auto. }
      destruct (strict_equal_number c16 Version2) eqn:E2.
      { apply strict_equal_number_nonzero in E2. exists Version2. subst c16. auto. }
      destruct (to_string c16); discriminate H.
    - exists Legacy. auto. }
  destruct Hres as (r & Hres & Hresolve).
  rewrite Hresolve in H. cbn [bind] in H.
  exists c16, r.
  assert (Hattest :
            (if strict_equal_number (VNumber r) Legacy then Return base_fields
             else if strict_equal_number (VNumber r) Version1
                  then Return (field "version" "uint16" :: base_fields)
                  else if strict_equal_number (VNumber r) Version2
                       then Return (field "version" "uint16" :: base_fields
                                      ++ [field "salt" "bytes32"])
                       else (rendering <- to_string (VNumber r) ;;
                             Throw (Error ("Unsupported version: "
                                             ++ rendering))))
            = Return (attest_fields r)).
  { destruct Hres as [[_ ->] | [_ [-> | ->]]]; reflexivity. }
  rewrite Hattest in H. cbn [bind] in H.
  destruct (js_BigInt (slot t 1)) as [chain |] eqn:Hchain; [| discriminate H].
  cbn [bind] in H. rewrite !if_Return in H. cbn [bind] in H.
  destruct (js_BigInt (slot t 10)) as [time |] eqn:Htime; [| discriminate H].
  cbn [bind] in H.
  destruct (js_BigInt (slot t 11)) as [expiration |] eqn:Hexp; [| discriminate H].
  cbn [bind] in H.
  exists chain, time, expiration.
  repeat split; try assumption; try reflexivity.
  injection H as <-. unfold unpacked.
  destruct Hres as [[_ ->] | [_ [-> | ->]]]; reflexivity.
Qed.

(** * The compactor on an arbitrary package *)

Lemma obj_get_set_same (o : list (string * value)) (k : string) (v : value) :
  obj_get (obj_set o k v) k = v.
Proof.
  induction o as [| [k' v'] o IH]; simpl.
  - rewrite String.eqb_refl. reflexivity.
  - destruct (String.eqb k' k) eqn:E; simpl; rewrite E; [reflexivity | exact IH].
Qed.

Lemma obj_get_set_other (o : list (string * value)) (k k' : string) (v : value) :
  k <> k' -> obj_get (obj_set o k v) k' = obj_get o k'.
Proof.
  intros Hk. induction o as [| [k0 v0] o IH]; simpl.
  - destruct (String.eqb_spec k k'); [contradiction | reflexivity].
  - destruct (String.eqb_spec k0 k) as [-> | Hk0]; simpl.
    + destruct (String.eqb_spec k k'); [contradiction | reflexivity].
    + destruct (String.eqb k0 k'); [reflexivity | exact IH].
Qed.

Lemma obj_get_remove_other (ks : list string) (o : list (string * value))
  (k : string) :
  existsb (String.eqb k) ks = false -> obj_get (obj_remove ks o) k = obj_get o k.
Proof.
  intros Hk. induction o as [| [k0 v0] o IH]; simpl; [reflexivity |].
  destruct (String.eqb_spec k0 k) as [-> | Hk0].
  - rewrite Hk. simpl. rewrite String.eqb_refl. reflexivity.
  - destruct (negb (existsb (String.eqb k0) ks)); simpl; [| exact IH].
    destruct (String.eqb_spec k0 k); [contradiction | exact IH].
Qed.

Lemma obj_has_remove (ks : list string) (o : list (string * value)) (k : string) :
  existsb (String.eqb k) ks = true -> obj_has (obj_remove ks o) k = false.
Proof.
  intros Hk. unfold obj_has. induction o as [| [k0 v0] o IH]; simpl; [reflexivity |].
  destruct (existsb (String.eqb k0) ks) eqn:E0; simpl; [exact IH |].
  destruct (String.eqb_spec k0 k) as [-> | _]; [congruence | exact IH].
Qed.

(** The predicate accepts exactly the objects that have the keys [v],
    [r] and [s]. *)
Lemma isSignedOffchainAttestationV1_true (sig : value) :
  isSignedOffchainAttestationV1 sig = Return true <->
  exists o, sig = VObject o /\
    obj_has o "v" = true /\ obj_has o "r" = true /\ obj_has o "s" = true.
Proof.
  unfold isSignedOffchainAttestationV1. split.
  - destruct sig as [| | | | | | l | o]; try discriminate.
    cbn [has_property bind]. intros H. exists o.
    destruct (obj_has o "v"); [| discriminate H].
    destruct (obj_has o "r"); [| discriminate H].
    injection H as ->. auto.
  - intros (o & -> & Hv & Hr & Hs). cbn [has_property bind].
    rewrite Hv, Hr, Hs. reflexivity.
Qed.

(** The object that the legacy adapter makes of a flat one. *)
Lemma convert_object (o : list (string * value)) :
  convertV1AttestationToV2 (VObject o)
  = Return
      (VObject
         (obj_set (obj_set (obj_remove ["v"; "r"; "s"] o)
                     "version" (VNumber Version1))
            "signature"
            (VObject [("v", obj_get o "v"); ("r", obj_get o "r");
                      ("s", obj_get o "s")]))).
Proof.
  reflexivity.
Qed.

(** Normalization leaves the message where it is. *)
Lemma normalized_message (sig0 sig : value) (flat : bool) :
  isSignedOffchainAttestationV1 sig0 = Return flat ->
  (if flat then convertV1AttestationToV2 sig0 else Return sig0) = Return sig ->
  get_prop sig "message" = get_prop sig0 "message".
Proof.
  intros Hflat Hsig. destruct flat.
  - apply isSignedOffchainAttestationV1_true in Hflat.
    destruct Hflat as (o & -> & _). rewrite convert_object in Hsig.
    injection Hsig as <-. cbn [get_prop]. f_equal.
    rewrite obj_get_set_other by discriminate.
    rewrite obj_get_set_other by discriminate.
    apply obj_get_remove_other. reflexivity.
  - injection Hsig as <-. reflexivity.
Qed.

Tactic Notation "bind_inv" hyp(H) ident(x) ident(E) :=
  apply bind_Return in H; destruct H as (x & E & H).

(** What the compactor reads and where it puts it. *)
Lemma compact_inv (P t : value) :
  compactOffchainAttestationPackage P = Return t ->
  exists sig0 sig flat recipient refUID c16 c17,
    get_prop P "sig" = Return sig0 /\
    isSignedOffchainAttestationV1 sig0 = Return flat /\
    (if flat then convertV1AttestationToV2 sig0 else Return sig0) = Return sig /\
    get_prop2 sig "message" "recipient" = Return recipient /\
    get_prop2 sig "message" "refUID" = Return refUID /\
    get_prop2 sig "message" "version" = Return c16 /\
    get_prop2 sig "message" "salt" = Return c17 /\
    get_index t 9
    = Return (if strict_equal_string recipient ZeroAddress
              then VString "0" else recipient) /\
    get_index t 12
    = Return (if strict_equal_string refUID ZeroHash
              then VString "0" else refUID) /\
    get_index t 15 = Return (num 0) /\
    get_index t 16 = Return c16 /\
    get_index t 17 = Return c17.
Proof.
  intros H. unfold compactOffchainAttestationPackage in H.
  bind_inv H sgn Esgn. bind_inv H sig0 Esig0.
  bind_inv H flat Eflat. bind_inv H sig Esig.
  bind_inv H c0 E0. bind_inv H c1 E1. bind_inv H c2 E2. bind_inv H c3 E3.
  bind_inv H c4 E4. bind_inv H c5 E5. bind_inv H c7 E7. bind_inv H c8 E8.
  bind_inv H c9 E9. bind_inv H c10 E10. bind_inv H c11 E11.
  bind_inv H c12 E12. bind_inv H c13 E13. bind_inv H c14 E14.
  bind_inv H c16 E16. bind_inv H c17 E17.
  injection H as <-.
  bind_inv E9 rcp Ercp. bind_inv E12 ref Eref.
  exists sig0, sig, flat, rcp, ref, c16, c17.
  repeat split; try assumption; try reflexivity.
  - cbn [get_index nth]. f_equal.
    destruct (strict_equal_string rcp ZeroAddress); congruence.
  - cbn [get_index nth]. f_equal.
    destruct (strict_equal_string ref ZeroHash); congruence.
Qed.

(** * Facts about the renderings *)

(** Induction on a value through the elements of its arrays. *)
Lemma value_array_induction (Q : value -> Prop) :
  (forall v, (forall l, v <> VArray l) -> Q v) ->
  (forall l, Forall Q l -> Q (VArray l)) ->
  forall v, Q v.
Proof.
  intros Hother Harray.
  fix IH 1. intros v.
  destruct v as [| | b | n | z | s | l | o];
    try (apply Hother; intros l0 H0; discriminate H0).
  apply Harray.
  exact ((fix all (l : list value) : Forall Q l :=
            match l with
            | [] => Forall_nil Q
            | x :: l' => Forall_cons x (IH x) (all l')
            end) l).
Qed.

(** The rendering of an array, element by element. *)
Lemma to_string_cons (x : value) (l : list value) :
  to_string (VArray (x :: l))
  = (e <- match x with
          | VUndefined | VNull => Return ""
          | _ => to_string x
          end ;;
     match l with
     | [] => Return e
     | _ => r <- to_string (VArray l) ;; Return (e ++ "," ++ r)
     end).
Proof.
  reflexivity.
Qed.

(** A rendering fails with a [TypeError] only, and exactly on the
    values that do not render. *)
Lemma to_string_renders (v : value) :
  (renders v = true -> exists s, to_string v = Return s) /\
  (renders v = false -> to_string v = Throw TypeError).
Proof.
  induction v as [v Hv | l IH] using value_array_induction.
  - destruct v as [| | [] | n | z | s | l | o];
      try (split; [intros _; eexists; reflexivity | discriminate]).
    + exfalso. exact (Hv l eq_refl).
    + cbn [renders to_string]. destruct (obj_has o "toString"); split;
        try discriminate; intros _; [reflexivity | eexists; reflexivity].
  - induction IH as [| x l Hx _ IHl].
    + split; [intros _; eexists; reflexivity | discriminate].
    + rewrite to_string_cons. cbn [renders forallb].
      change (forallb renders l) with (renders (VArray l)).
      destruct Hx as [Hx1 Hx0], IHl as [Hl1 Hl0].
      assert (He : (renders x = true ->
                    exists s, match x with
                              | VUndefined | VNull => Return ""
                              | _ => to_string x
                              end = Return s) /\
                   (renders x = false ->
                    match x with
                    | VUndefined | VNull => Return ""
                    | _ => to_string x
                    end = Throw TypeError)).
      { destruct x; split; auto; try discriminate;
          intros _; eexists; reflexivity. }
      destruct He as [He1 He0].
      destruct (renders x).
      * destruct (He1 eq_refl) as (e & He). rewrite He. cbn [bind andb].
        destruct (renders (VArray l)) eqn:El.
        -- destruct (Hl1 eq_refl) as (r & Hr). split; [| discriminate].
           intros _. destruct l; [eexists; reflexivity |].
           rewrite Hr. eexists. reflexivity.
        -- split; [discriminate |]. intros _.
           destruct l; [discriminate El |].
           rewrite (Hl0 eq_refl). reflexivity.
      * rewrite (He0 eq_refl). split; [discriminate | reflexivity].
Qed.

Lemma to_string_only_TypeError (v : value) (e : error) :
  to_string v = Throw e -> e = TypeError.
Proof.
  intros H. destruct (to_string_renders v) as [H1 H0].
  destruct (renders v).
  - destruct (H1 eq_refl) as (s & Hs). congruence.
  - rewrite (H0 eq_refl) in H. congruence.
Qed.

Lemma to_primitive_only_TypeError (v : value) (e : error) :
  to_primitive v = Throw e -> e = TypeError.
Proof.
  unfold to_primitive. destruct v; try discriminate.
  - destruct (to_string (VArray elements)) eqn:E; [discriminate |].
    cbn [bind]. intros H. injection H as <-.
    exact (to_string_only_TypeError _ _ E).
  - destruct (to_string (VObject properties)) eqn:E; [discriminate |].
    cbn [bind]. intros H. injection H as <-.
    exact (to_string_only_TypeError _ _ E).
Qed.

(** [Number] throws a [TypeError] only, and exactly on the values that
    do not render. *)
Lemma js_Number_only_TypeError (v : value) (e : error) :
  js_Number v = Throw e -> e = TypeError.
Proof.
  unfold js_Number. destruct (to_primitive v) eqn:E; [discriminate |].
  cbn [bind]. intros H. injection H as <-.
  exact (to_primitive_only_TypeError _ _ E).
Qed.

Lemma js_Number_renders (v : value) :
  (renders v = true -> exists n, js_Number v = Return n) /\
  (renders v = false -> js_Number v = Throw TypeError).
Proof.
  destruct (to_string_renders v) as [H1 H0].
  unfold js_Number, to_primitive.
  destruct v; try (split; [intros _; eexists; reflexivity | discriminate]).
  - split; intros H.
    + destruct (H1 H) as (s & ->). eexists. reflexivity.
    + rewrite (H0 H). reflexivity.
  - split; intros H.
    + destruct (H1 H) as (s & ->). eexists. reflexivity.
    + rewrite (H0 H). reflexivity.
Qed.

(** * Facts about the compactor *)

Lemma get_prop_member (v : value) (k : string) :
  is_nullish v = false -> get_prop v k = Return (member v k).
Proof.
  unfold member. destruct v; simpl; intros H; try discriminate H; reflexivity.
Qed.

Lemma get_prop_nullish (v : value) (k : string) :
  is_nullish v = true -> get_prop v k = Throw TypeError.
Proof.
  destruct v; simpl; intros H; try discriminate H; reflexivity.
Qed.

Lemma get_prop_only_TypeError (v : value) (k : string) (e : error) :
  get_prop v k = Throw e -> e = TypeError.
Proof.
  destruct v; simpl; intros H; try discriminate H; congruence.
Qed.

Lemma isSigned_returns (sig : value) (flat : bool) :
  isSignedOffchainAttestationV1 sig = Return flat ->
  (exists o, sig = VObject o) \/ (exists l, sig = VArray l /\ flat = false).
Proof.
  unfold isSignedOffchainAttestationV1.
  destruct sig as [| | | | | | l | o]; try discriminate.
  - intros H. right. exists l. split; [reflexivity |].
    cbn [has_property bind] in H. simpl in H. congruence.
  - intros _. left. eauto.
Qed.

Lemma isSigned_only_TypeError (sig : value) (e : error) :
  isSignedOffchainAttestationV1 sig = Throw e -> e = TypeError.
Proof.
  unfold isSignedOffchainAttestationV1.
  destruct sig as [| | | | | | l | o]; cbn [has_property bind];
    try (intros H; congruence).
  - simpl. discriminate.
  - destruct (obj_has o "v"); [| discriminate].
    destruct (obj_has o "r"); discriminate.
Qed.

(** What normalization returns is an object or an array, so that its
    members can be read. *)
Lemma normalized_not_nullish (sig0 sig : value) :
  normalized sig0 = Return sig -> is_nullish sig = false.
Proof.
  unfold normalized. intros H.
  apply bind_Return in H. destruct H as (flat & Hflat & H).
  destruct (isSigned_returns _ _ Hflat) as [(o & ->) | (l & -> & ->)].
  - destruct flat.
    + rewrite convert_object in H. injection H as <-. reflexivity.
    + injection H as <-. reflexivity.
  - injection H as <-. reflexivity.
Qed.

Lemma normalized_only_TypeError (sig0 : value) (e : error) :
  normalized sig0 = Throw e -> e = TypeError.
Proof.
  unfold normalized. intros H.
  destruct (isSignedOffchainAttestationV1 sig0) as [flat |] eqn:Hflat.
  - cbn [bind] in H.
    destruct (isSigned_returns _ _ Hflat) as [(o & ->) | (l & -> & ->)].
    + destruct flat; [rewrite convert_object in H |]; discriminate H.
    + discriminate H.
  - cbn [bind] in H. injection H as <-.
    exact (isSigned_only_TypeError _ _ Hflat).
Qed.

(** The compactor is the two reads, the normalization and the rest. *)
Lemma compact_unfold (P : value) :
  compactOffchainAttestationPackage P
  = (sgn <- get_prop P "signer" ;;
     sig0 <- get_prop P "sig" ;;
     sig <- normalized sig0 ;;
     compact_normalized sgn sig).
Proof.
  unfold compactOffchainAttestationPackage, normalized, compact_normalized.
  destruct (get_prop P "signer") as [sgn |]; [| reflexivity]. cbn [bind].
  destruct (get_prop P "sig") as [sig0 |]; [| reflexivity]. cbn [bind].
  destruct (isSignedOffchainAttestationV1 sig0) as [flat |] eqn:Hflat;
    [| reflexivity].
  cbn [bind].
  destruct (if flat then convertV1AttestationToV2 sig0 else Return sig0)
    as [sig |] eqn:Hsig; [| reflexivity].
  cbn [bind].
  assert (Hnn : is_nullish sig = false).
  { apply (normalized_not_nullish sig0). unfold normalized.
    rewrite Hflat. exact Hsig. }
  unfold get_prop2.
  rewrite !(fun k => get_prop_member sig k Hnn). cbn [bind].
  destruct (is_nullish (member sig "domain")) eqn:Hd.
  { rewrite !(fun k => get_prop_nullish (member sig "domain") k Hd).
    reflexivity. }
  rewrite !(fun k => get_prop_member (member sig "domain") k Hd). cbn [bind].
  destruct (is_nullish (member sig "signature")) eqn:Hs.
  { rewrite !(fun k => get_prop_nullish (member sig "signature") k Hs).
    reflexivity. }
  rewrite !(fun k => get_prop_member (member sig "signature") k Hs). cbn [bind].
  destruct (is_nullish (member sig "message")) eqn:Hm.
  { rewrite !(fun k => get_prop_nullish (member sig "message") k Hm).
    reflexivity. }
  rewrite !(fun k => get_prop_member (member sig "message") k Hm). cbn [bind].
  rewrite !if_Return. cbn [bind orb].
  destruct (js_Number (member (member sig "message") "time"));
    [| reflexivity].
  cbn [bind].
  destruct (js_Number (member (member sig "message") "expirationTime"));
    reflexivity.
Qed.

(** What a package that the compactor accepts is like, and the tuple
    that it gets. *)
Lemma compact_returns (P t : value) :
  compactOffchainAttestationPackage P = Return t ->
  exists sig0 sig time expirationTime,
    get_prop P "sig" = Return sig0 /\
    normalized sig0 = Return sig /\
    is_nullish (member sig "domain") = false /\
    is_nullish (member sig "signature") = false /\
    is_nullish (member sig "message") = false /\
    js_Number (member (member sig "message") "time") = Return time /\
    js_Number (member (member sig "message") "expirationTime")
    = Return expirationTime /\
    t = compacted_of (member P "signer") sig time expirationTime.
Proof.
  rewrite compact_unfold. unfold compact_normalized. intros H.
  destruct (get_prop P "signer") as [sgn |] eqn:Esgn; [| discriminate H].
  cbn [bind] in H.
  destruct (get_prop P "sig") as [sig0 |] eqn:Esig0; [| discriminate H].
  cbn [bind] in H.
  destruct (normalized sig0) as [sig |] eqn:Esig; [| discriminate H].
  cbn [bind] in H.
  destruct (is_nullish (member sig "domain")) eqn:Hd; [discriminate H |].
  destruct (is_nullish (member sig "signature")) eqn:Hs; [discriminate H |].
  destruct (is_nullish (member sig "message")) eqn:Hm; [discriminate H |].
  cbn [orb] in H.
  destruct (js_Number (member (member sig "message") "time"))
    as [time |] eqn:Ht; [| discriminate H].
  cbn [bind] in H.
  destruct (js_Number (member (member sig "message") "expirationTime"))
    as [expirationTime |] eqn:He; [| discriminate H].
  cbn [bind] in H. injection H as <-.
  assert (Hsgn : member P "signer" = sgn)
    by (unfold member; rewrite Esgn; reflexivity).
  exists sig0, sig, time, expirationTime. rewrite Hsgn.
  repeat split; try reflexivity; assumption.
Qed.

Lemma obj_has_set_other (o : list (string * value)) (k k' : string) (x : value) :
  k <> k' -> obj_has (obj_set o k' x) k = obj_has o k.
Proof.
  intros Hk. unfold obj_has.
  induction o as [| [k0 v0] o IH]; simpl.
  - destruct (String.eqb_spec k' k); [congruence | reflexivity].
  - destruct (String.eqb_spec k0 k') as [-> | _]; simpl; [reflexivity |].
    rewrite IH. reflexivity.
Qed.

(** The tuple depends on the normalized object through its [domain],
    [uid] and [message] and through [r], [s] and [v] of its
    [signature] only. *)
Lemma compact_normalized_ext (sgn sig sig' : value) :
  member sig "domain" = member sig' "domain" ->
  member sig "uid" = member sig' "uid" ->
  member sig "message" = member sig' "message" ->
  is_nullish (member sig "signature") = is_nullish (member sig' "signature") ->
  member (member sig "signature") "r" = member (member sig' "signature") "r" ->
  member (member sig "signature") "s" = member (member sig' "signature") "s" ->
  member (member sig "signature") "v" = member (member sig' "signature") "v" ->
  compact_normalized sgn sig = compact_normalized sgn sig'.
Proof.
  intros Hd Hu Hm Hn Hr Hs Hv. unfold compact_normalized, compacted_of.
  rewrite Hd, Hu, Hm, Hn, Hr, Hs, Hv. reflexivity.
Qed.

Lemma normalized_object (o : list (string * value)) :
  normalized (VObject o)
  = Return
      (if obj_has o "v" && obj_has o "r" && obj_has o "s"
       then VObject
              (obj_set (obj_set (obj_remove ["v"; "r"; "s"] o)
                          "version" (VNumber Version1))
                 "signature"
                 (VObject [("v", obj_get o "v"); ("r", obj_get o "r");
                           ("s", obj_get o "s")]))
       else VObject o).
Proof.
  unfold normalized, isSignedOffchainAttestationV1.
  cbn [has_property bind].
  destruct (obj_has o "v"); [| reflexivity].
  destruct (obj_has o "r"); [| reflexivity].
  cbn [bind]. destruct (obj_has o "s"); reflexivity.
Qed.

Lemma converted_member (o : list (string * value)) (k : string) :
  k <> "version" -> k <> "signature" ->
  existsb (String.eqb k) ["v"; "r"; "s"] = false ->
  obj_get (obj_set (obj_set (obj_remove ["v"; "r"; "s"] o)
                      "version" (VNumber Version1))
             "signature"
             (VObject [("v", obj_get o "v"); ("r", obj_get o "r");
                       ("s", obj_get o "s")])) k
  = obj_get o k.
Proof.
  intros Hkv Hks Hk.
  rewrite !obj_get_set_other by congruence.
  apply obj_get_remove_other. exact Hk.
Qed.

Lemma normalized_keeps_message (sig0 sig : value) :
  normalized sig0 = Return sig ->
  get_prop sig "message" = get_prop sig0 "message".
Proof.
  unfold normalized. intros H.
  apply bind_Return in H. destruct H as (flat & Hflat & H).
  exact (normalized_message _ _ _ Hflat H).
Qed.

(** The member of the message that the compactor reads is the member of
    the package's own message. *)
Lemma compact_reads_message (P sig0 sig x : value) (k : string) :
  get_prop P "sig" = Return sig0 ->
  normalized sig0 = Return sig ->
  get_prop3 P "sig" "message" k = Return x ->
  member (member sig "message") k = x.
Proof.
  intros Hsig0 Hsig Hx. unfold get_prop3, get_prop2 in Hx.
  rewrite Hsig0 in Hx. cbn [bind] in Hx.
  rewrite <- (normalized_keeps_message _ _ Hsig) in Hx.
  apply bind_Return in Hx. destruct Hx as (m & Hm & Hx).
  unfold member. rewrite Hm, Hx. reflexivity.
Qed.

(** * Facts about deep equality and the members of a package *)

Lemma deep_equal_object (o : list (string * value)) (v : value) :
  deep_equal (VObject o) v = true ->
  exists o', v = VObject o' /\
    Forall (fun kx => obj_has o' (fst kx) = true /\
                      deep_equal (snd kx) (obj_get o' (fst kx)) = true) o.
Proof.
  destruct v as [| | | | | | | o']; try discriminate.
  intros H. exists o'. split; [reflexivity |].
  cbn [deep_equal] in H. apply andb_prop in H. destruct H as [H _].
  induction o as [| [k x] o IH]; [constructor |].
  apply andb_prop in H. destruct H as [Hx Ho].
  apply andb_prop in Hx. destruct Hx as [Hk Hx].
  constructor; [split; [exact Hk | exact Hx] | exact (IH Ho)].
Qed.

(** The message of a value that reads like a package, with what its
    [version] and [salt] members read as, and the top-level version. *)
Lemma package_reads (version : number) (mversion salt : value) (f : fields)
  (P : value) :
  same_value (package_of version mversion salt f) P = true ->
  exists m,
    get_prop2 P "sig" "version" = Return (VNumber version) /\
    get_prop2 P "sig" "message" = Return (VObject m) /\
    same_value mversion (obj_get m "version") = true /\
    same_value salt (obj_get m "salt") = true.
Proof.
  intros Hs. unfold package_of in Hs.
  apply same_value_object in Hs. destruct Hs as (oP & -> & Hs).
  apply Forall_cons_iff in Hs. destruct Hs as [Hsig _]. cbn [fst snd] in Hsig.
  apply same_value_object in Hsig. destruct Hsig as (oS & ES & Hsig).
  repeat (apply Forall_cons_iff in Hsig;
          let H := fresh "Hm" in destruct Hsig as [H Hsig]; cbn [fst snd] in H).
  unfold message_of in *.
  match goal with
  | H : same_value (VObject (("version", mversion) :: _)) _ = true |- _ =>
      apply same_value_object in H; destruct H as (oM & EM & HM)
  end.
  repeat (apply Forall_cons_iff in HM;
          let H := fresh "Hl" in destruct HM as [H HM]; cbn [fst snd] in H).
  match goal with
  | H : same_value (VNumber version) _ = true |- _ =>
      apply same_value_number in H; rename H into Hver
  end.
  exists oM. unfold get_prop2. cbn [get_prop bind]. rewrite ES.
  cbn [get_prop bind]. rewrite Hver, EM.
  repeat split; assumption.
Qed.

(** What is deep-equal to a package has a message with an own [salt]. *)
Lemma package_deep_equal_salt (version : number) (mversion salt : value)
  (f : fields) (P : value) :
  deep_equal (package_of version mversion salt f) P = true ->
  (m <- get_prop2 P "sig" "message" ;; has_property "salt" m) = Return true.
Proof.
  intros Hs. unfold package_of in Hs.
  apply deep_equal_object in Hs. destruct Hs as (oP & -> & Hs).
  apply Forall_cons_iff in Hs. destruct Hs as [[_ Hsig] _].
  cbn [fst snd] in Hsig.
  apply deep_equal_object in Hsig. destruct Hsig as (oS & ES & Hsig).
  do 6 (apply Forall_cons_iff in Hsig; destruct Hsig as [_ Hsig]).
  apply Forall_cons_iff in Hsig. destruct Hsig as [[_ Hm] _].
  cbn [fst snd] in Hm. unfold message_of in Hm.
  apply deep_equal_object in Hm. destruct Hm as (oM & EM & Hm).
  do 8 (apply Forall_cons_iff in Hm; destruct Hm as [_ Hm]).
  apply Forall_cons_iff in Hm. destruct Hm as [[Hsalt _] _].
  cbn [fst] in Hsalt.
  unfold get_prop2. cbn [get_prop bind]. rewrite ES. cbn [get_prop bind].
  rewrite EM. cbn [bind has_property]. rewrite Hsalt. reflexivity.
Qed.

(** * The claims *)

(** C1 (as amended).  For every signed package in the nested form,
    decompaction of the compacted package returns the package in the
    decompactor's layout with every leaf as it was, except that [time]
    and [expirationTime] have gone through a double and that
    [message.version] is the resolved version tag: the message's own,
    or the Legacy tag when it has none.  With the times within the safe
    integers, every member of the returned package reads as it does in
    the original one exactly when the original message carries the
    package's version tag, and the returned package is then deep-equal
    to an original that has exactly the members of the layout.  The
    returned message always has an own [salt]: an original whose
    message has no [salt] member is not reproduced member for member,
    the returned package has one member more, which holds [undefined].
    (The recipient and the refUID are an address and an id, not the
    literal string "0"; the times are such that [Number] of them is
    finite, which every unsigned 64-bit integer is.) *)
Theorem decompact_compact_roundtrip (version : number)
  (mversion : option number) (salt : option string) (f : fields) (P : value) :
  is_package version mversion salt f P ->
  (mversion = None \/ exists n, mversion = Some n /\ is_version_tag n) ->
  recipient f <> "0" ->
  refUID f <> "0" ->
  number_is_finite (time f) ->
  number_is_finite (expirationTime f) ->
  exists R,
    decompact_compact P = Return R /\
    R = package_of (resolved_version mversion)
          (VNumber (resolved_version mversion)) (salt_value salt)
          (lossy_times f) /\
    get_prop3 P "sig" "message" "version" = Return (version_value mversion) /\
    get_prop3 R "sig" "message" "version"
    = Return (VNumber (resolved_version mversion)) /\
    (m <- get_prop2 R "sig" "message" ;; has_property "salt" m) = Return true /\
    (forall m, get_prop2 P "sig" "message" = Return m ->
               has_property "salt" m = Return false ->
               deep_equal R P = false) /\
    (is_safe_integer (time f) -> is_safe_integer (expirationTime f) ->
     (same_value R P = true <-> mversion = Some version) /\
     (mversion = Some version ->
      deep_equal
        (package_of version (VNumber version) (salt_value salt) f) P = true ->
      deep_equal R P = true)).
Proof.
  intros HP Hver Hrec Href Htime Hexp.
  pose proof HP as [Hsame _].
  destruct (package_reads _ _ _ _ _ Hsame) as (m & HPv & HPm & Hmv & Hms).
  apply same_value_version in Hmv.
  eexists. split; [| split; [reflexivity |]].
  { rewrite (decompact_compact_package _ _ _ _ _ HP); [| assumption ..].
    rewrite decompacted_leaves_lossy by assumption. reflexivity. }
  split; [unfold get_prop3; rewrite HPm; cbn [bind get_prop];
          rewrite Hmv; reflexivity |].
  split; [reflexivity |]. split; [reflexivity |]. split.
  - intros m' Hm' Hsalt.
    destruct (deep_equal _ P) eqn:E; [exfalso | reflexivity].
    apply package_deep_equal_salt in E. rewrite Hm' in E. cbn [bind] in E.
    congruence.
  - intros Hst Hse. rewrite lossy_times_safe by assumption. split; [split |].
    + intros HRP.
      destruct (package_reads _ _ _ _ _ HRP) as (m' & HRv & HRm & Hmv' & _).
      rewrite HPm in HRm. injection HRm as <-.
      rewrite HPv in HRv. injection HRv as HRv.
      rewrite Hmv in Hmv'.
      destruct mversion as [nv |]; [| discriminate Hmv'].
      cbn [resolved_version] in HRv. congruence.
    + intros ->. exact Hsame.
    + intros -> Hdeep. exact Hdeep.
Qed.

(** The V2 sample comes back member for member; the V1 sample, whose
    message has no [salt], comes back with the same reads and one
    member more; the Legacy sample, whose message has no [version]
    either, comes back with other reads. *)
Lemma decompact_compact_roundtrip_witness :
  (exists R, decompact_compact v2_sample = Return R /\
             same_value R v2_sample = true /\
             deep_equal R v2_sample = true) /\
  (exists R, decompact_compact v1_sample = Return R /\
             same_value R v1_sample = true /\
             deep_equal R v1_sample = false) /\
  (exists R, decompact_compact legacy_sample = Return R /\
             same_value R legacy_sample <> true).
Proof.
  split; [| split].
  - destruct (decompact_compact_roundtrip Version2 (Some Version2)
                (Some sample_salt) sample_fields v2_sample)
      as (R & HR & _ & _ & _ & _ & _ & Hsafe).
    + split; reflexivity.
    + right. exists Version2. split; [reflexivity |]. right. right. reflexivity.
    + discriminate.
    + discriminate.
    + reflexivity.
    + reflexivity.
    + exists R. split; [exact HR |].
      destruct Hsafe as [Hsame Hdeep]; [discriminate | discriminate |].
      split; [apply Hsame; reflexivity |]. apply Hdeep; reflexivity.
  - destruct (decompact_compact_roundtrip Version1 (Some Version1) None
                sample_fields v1_sample)
      as (R & HR & _ & _ & _ & _ & Hless & Hsafe).
    + split; reflexivity.
    + right. exists Version1. split; [reflexivity |]. right. left. reflexivity.
    + discriminate.
    + discriminate.
    + reflexivity.
    + reflexivity.
    + exists R. split; [exact HR |].
      destruct Hsafe as [Hsame _]; [discriminate | discriminate |].
      split; [apply Hsame; reflexivity |].
      apply (Hless (plain_message (Some Version1) None sample_fields));
        reflexivity.
  - destruct (decompact_compact_roundtrip Legacy None None
                sample_fields legacy_sample)
      as (R & HR & _ & _ & _ & _ & _ & Hsafe).
    + split; reflexivity.
    + left. reflexivity.
    + discriminate.
    + discriminate.
    + reflexivity.
    + reflexivity.
    + exists R. split; [exact HR |].
      destruct Hsafe as [Hsame _]; [discriminate | discriminate |].
      intros H. apply Hsame in H. discriminate H.
Defined.

(** C1, as stated, fails on the Legacy package of the specification's
    concrete scenario, whose message has no [version]: the decompacted
    package has [message.version] set to the Legacy tag. *)
Lemma legacy_roundtrip_differs :
  exists R,
    decompact_compact legacy_sample = Return R /\
    same_value R legacy_sample = false /\
    R <> legacy_sample /\
    get_prop3 legacy_sample "sig" "message" "version" = Return VUndefined /\
    get_prop3 R "sig" "message" "version" = Return (VNumber Legacy).
Proof.
  exists (package_of Legacy (VNumber Legacy) VUndefined sample_fields).
  repeat split; try reflexivity. discriminate.
Qed.

(** C3 (as amended).  For every tuple whose slot 16 is truthy and is
    neither the V1 nor the V2 tag (a truthy value is never the Legacy
    tag, which is 0), the decompactor returns nothing and throws.  When
    the value renders as a string, which every primitive does, and every
    array and object whose rendering reaches no own member named
    [toString], the exception is an [Error] whose message is
    "Unsupported version: " followed by the rendering; otherwise the
    rendering itself throws, and the exception is its [TypeError]. *)
Theorem unsupported_version_throws (t c16 : value) :
  get_index t 16 = Return c16 ->
  to_boolean c16 = true ->
  strict_equal_number c16 Version1 = false ->
  strict_equal_number c16 Version2 = false ->
  (exists e, uncompactOffchainAttestationPackage t = Throw e) /\
  (renders c16 = true ->
   exists s,
     to_string c16 = Return s /\
     uncompactOffchainAttestationPackage t
     = Throw (Error ("Unsupported version: " ++ s))) /\
  (renders c16 = false ->
   to_string c16 = Throw TypeError /\
   uncompactOffchainAttestationPackage t = Throw TypeError).
Proof.
  intros H16 Htruthy H1 H2.
  assert (H0 : strict_equal_number c16 Legacy = false).
  { destruct (strict_equal_number c16 Legacy) eqn:E0; [| reflexivity].
    apply strict_equal_number_zero_falsy in E0. congruence. }
  assert (Hu : uncompactOffchainAttestationPackage t
               = (rendering <- to_string c16 ;;
                  Throw (Error ("Unsupported version: " ++ rendering)))).
  { unfold uncompactOffchainAttestationPackage.
    rewrite H16. cbn [bind]. rewrite Htruthy. cbn [bind].
    rewrite H0, H1, H2.
    destruct (to_string c16); reflexivity. }
  rewrite Hu. destruct (to_string_renders c16) as [Hyes Hno].
  split; [| split].
  - destruct (to_string c16); eexists; reflexivity.
  - intros Hr. destruct (Hyes Hr) as (s & Hs). exists s.
    rewrite Hs. split; reflexivity.
  - intros Hr. rewrite (Hno Hr). split; reflexivity.
Qed.

Lemma unsupported_version_throws_witness :
  get_index tuple_99 16 = Return (num 99) /\
  uncompactOffchainAttestationPackage tuple_99
  = Throw (Error "Unsupported version: 99") /\
  get_index tuple_shadowed 16 = Return shadowed /\
  uncompactOffchainAttestationPackage tuple_shadowed = Throw TypeError.
Proof.
  split; [reflexivity |].
  destruct (unsupported_version_throws tuple_99 (num 99)
              eq_refl eq_refl eq_refl eq_refl) as (_ & Hyes & _).
  destruct (Hyes eq_refl) as (s & Hs & Hu).
  assert (E : to_string (num 99) = Return "99") by reflexivity.
  rewrite E in Hs. injection Hs as <-.
  split; [exact Hu |]. split; [reflexivity |].
  destruct (unsupported_version_throws tuple_shadowed shadowed
              eq_refl eq_refl eq_refl eq_refl) as (_ & _ & Hno).
  exact (proj2 (Hno eq_refl)).
Defined.

(** C3, as stated, fails on a tuple whose slot 16 is an object with an
    own member named [toString], which [JSON.parse] makes of the text
    [{"toString":1}]: the value is truthy and is no version tag, but the
    exception is the [TypeError] of the rendering, not an [Error] with
    the value in its message. *)
Lemma shadowed_version_throws_TypeError :
  get_index tuple_shadowed 16 = Return shadowed /\
  JSON_parse (JObject [("toString", JNumber (NInt 1))]) = shadowed /\
  to_boolean shadowed = true /\
  strict_equal_number shadowed Legacy = false /\
  strict_equal_number shadowed Version1 = false /\
  strict_equal_number shadowed Version2 = false /\
  uncompactOffchainAttestationPackage tuple_shadowed = Throw TypeError /\
  forall m, uncompactOffchainAttestationPackage tuple_shadowed
            <> Throw (Error m).
Proof.
  repeat split; try reflexivity. discriminate.
Qed.

(** C4.  For every tuple whose slot 16 is absent or falsy (and whose
    chain id and times convert to bigints, without which the
    decompactor returns nothing), the decompactor returns a package
    whose version is the Legacy tag, whose [primaryType] is
    "Attestation" and whose "Attest" field list is the base list of
    seven fields. *)
Theorem falsy_version_decodes_legacy (t c16 : value) (chain time expiration : Z) :
  get_index t 16 = Return c16 ->
  to_boolean c16 = false ->
  js_BigInt (slot t 1) = Return chain ->
  js_BigInt (slot t 10) = Return time ->
  js_BigInt (slot t 11) = Return expiration ->
  exists R,
    uncompactOffchainAttestationPackage t = Return R /\
    get_prop2 R "sig" "version" = Return (VNumber Legacy) /\
    get_prop2 R "sig" "primaryType" = Return (VString "Attestation") /\
    get_prop2 R "sig" "types"
    = Return
        (VObject
           [("Attest",
             VArray
               [field "schema" "bytes32"; field "recipient" "address";
                field "time" "uint64"; field "expirationTime" "uint64";
                field "revocable" "bool"; field "refUID" "bytes32";
                field "data" "bytes"])]).
Proof.
  intros H16 Hfalsy Hchain Htime Hexp.
  exists (unpacked Legacy t chain time expiration). split.
  - apply (uncompact_intro t c16); try assumption. left. auto.
  - repeat split; reflexivity.
Qed.

Lemma falsy_version_decodes_legacy_witness :
  exists R,
    uncompactOffchainAttestationPackage
      (tuple_of VUndefined VUndefined sample_fields) = Return R /\
    get_prop2 R "sig" "version" = Return (VNumber Legacy) /\
    get_prop2 R "sig" "primaryType" = Return (VString "Attestation") /\
    get_prop2 R "sig" "types"
    = Return
        (VObject
           [("Attest",
             VArray
               [field "schema" "bytes32"; field "recipient" "address";
                field "time" "uint64"; field "expirationTime" "uint64";
                field "revocable" "bool"; field "refUID" "bytes32";
                field "data" "bytes"])]).
Proof.
  exact (falsy_version_decodes_legacy
           (tuple_of VUndefined VUndefined sample_fields) VUndefined
           11155111 1000 0 eq_refl eq_refl eq_refl eq_refl eq_refl).
Defined.

(** C5.  For every tuple whose slot 16 equals the V2 tag (and whose
    chain id and times convert to bigints), the decompactor returns a
    package whose "Attest" field list has nine fields, a leading
    [version], the seven base fields and a trailing [salt], whose
    [primaryType] is "Attest" and whose [message.salt] is slot 17,
    unchanged. *)
Theorem v2_version_decodes_salted (t c16 c17 : value)
  (chain time expiration : Z) :
  get_index t 16 = Return c16 ->
  strict_equal_number c16 Version2 = true ->
  get_index t 17 = Return c17 ->
  js_BigInt (slot t 1) = Return chain ->
  js_BigInt (slot t 10) = Return time ->
  js_BigInt (slot t 11) = Return expiration ->
  exists R,
    uncompactOffchainAttestationPackage t = Return R /\
    get_prop2 R "sig" "types"
    = Return
        (VObject
           [("Attest",
             VArray
               ([field "version" "uint16"]
                ++ [field "schema" "bytes32"; field "recipient" "address";
                    field "time" "uint64"; field "expirationTime" "uint64";
                    field "revocable" "bool"; field "refUID" "bytes32";
                    field "data" "bytes"]
                ++ [field "salt" "bytes32"]))]) /\
    get_prop2 R "sig" "primaryType" = Return (VString "Attest") /\
    get_prop3 R "sig" "message" "salt" = Return c17.
Proof.
  intros H16 H2 H17 Hchain Htime Hexp.
  apply strict_equal_number_nonzero in H2.
  exists (unpacked Version2 t chain time expiration). split.
  - apply (uncompact_intro t c16); try assumption. right. auto.
  - repeat split; try reflexivity.
    rewrite (get_index_slot _ _ _ H17). reflexivity.
Qed.

Lemma v2_version_decodes_salted_witness :
  exists R,
    uncompactOffchainAttestationPackage
      (tuple_of (VNumber Version2) (VString sample_salt) sample_fields)
    = Return R /\
    get_prop2 R "sig" "types"
    = Return
        (VObject
           [("Attest",
             VArray
               ([field "version" "uint16"]
                ++ [field "schema" "bytes32"; field "recipient" "address";
                    field "time" "uint64"; field "expirationTime" "uint64";
                    field "revocable" "bool"; field "refUID" "bytes32";
                    field "data" "bytes"]
                ++ [field "salt" "bytes32"]))]) /\
    get_prop2 R "sig" "primaryType" = Return (VString "Attest") /\
    get_prop3 R "sig" "message" "salt" = Return (VString sample_salt).
Proof.
  exact (v2_version_decodes_salted
           (tuple_of (VNumber Version2) (VString sample_salt) sample_fields)
           (VNumber Version2) (VString sample_salt)
           11155111 1000 0 eq_refl eq_refl eq_refl eq_refl eq_refl eq_refl).
Defined.

(** C9.  For every tuple that the decompactor accepts, the returned
    package has [sig.version] and [sig.message.version] both equal to the
    resolved version tag: the Legacy tag when slot 16 is falsy, slot 16
    itself otherwise. *)
Theorem decompacted_versions_agree (t R : value) :
  uncompactOffchainAttestationPackage t = Return R ->
  exists c16 r,
    get_index t 16 = Return c16 /\
    is_version_tag r /\
    VNumber r = (if to_boolean c16 then c16 else VNumber Legacy) /\
    get_prop2 R "sig" "version" = Return (VNumber r) /\
    get_prop3 R "sig" "message" "version" = Return (VNumber r).
Proof.
  intros H. apply uncompact_inv in H.
  destruct H as (c16 & r & chain & time & expiration & H16 & Hres & _ & _ & _ & ->).
  exists c16, r. split; [exact H16 |].
  split; [exact (resolves_to_tag _ _ Hres) |].
  split; [| split; reflexivity].
  destruct Hres as [[Hfalsy ->] | [-> [-> | ->]]];
    [rewrite Hfalsy |..]; reflexivity.
Qed.

(** The Legacy package of the concrete scenario, whose message has no
    [version], comes back with [message.version] set to the Legacy tag. *)
Lemma decompacted_versions_agree_witness :
  get_prop3 legacy_sample "sig" "message" "version" = Return VUndefined /\
  exists c16 r,
    get_index (tuple_of VUndefined VUndefined sample_fields) 16 = Return c16 /\
    is_version_tag r /\
    VNumber r = (if to_boolean c16 then c16 else VNumber Legacy) /\
    get_prop2 (package_of Legacy (VNumber Legacy) VUndefined sample_fields)
      "sig" "version" = Return (VNumber r) /\
    get_prop3 (package_of Legacy (VNumber Legacy) VUndefined sample_fields)
      "sig" "message" "version" = Return (VNumber r).
Proof.
  split; [reflexivity |].
  exact (decompacted_versions_agree
           (tuple_of VUndefined VUndefined sample_fields)
           (package_of Legacy (VNumber Legacy) VUndefined sample_fields)
           eq_refl).
Defined.

(** Every Legacy package whose message has no [version] member acquires
    [message.version], set to the Legacy tag, by compaction and
    decompaction. *)
Lemma legacy_package_acquires_version (version : number)
  (salt : option string) (f : fields) (P : value) :
  is_package version None salt f P ->
  number_is_finite (time f) ->
  number_is_finite (expirationTime f) ->
  get_prop3 P "sig" "message" "version" = Return VUndefined /\
  exists R,
    decompact_compact P = Return R /\
    get_prop2 R "sig" "version" = Return (VNumber Legacy) /\
    get_prop3 R "sig" "message" "version" = Return (VNumber Legacy).
Proof.
  intros HP Htime Hexp. split.
  - destruct HP as [Hs _].
    unfold package_of, domain_of, signature_of, message_of in Hs.
    same_inv. subst P. unfold get_prop3, get_prop2. cbn [get_prop bind].
    read_props. cbn [get_prop bind]. read_props. cbn [get_prop bind].
    read_props. reflexivity.
  - rewrite (decompact_compact_package _ _ _ _ _ HP); [| auto | assumption ..].
    eexists. split; [reflexivity |]. split; reflexivity.
Qed.

(** C2.  For every package that the compactor accepts, slot 9 of the
    tuple is the string "0" when the recipient is the zero address and
    slot 12 is "0" when the refUID is the zero hash (and the member
    itself otherwise); for every tuple that the decompactor accepts, a
    slot 9 equal to "0" comes back as the zero-address constant and a
    slot 12 equal to "0" as the zero-hash constant (and the slot itself
    otherwise). *)
Theorem sentinel_substitution (P t t' R : value) :
  compactOffchainAttestationPackage P = Return t ->
  uncompactOffchainAttestationPackage t' = Return R ->
  (exists recipient refUID,
      get_prop3 P "sig" "message" "recipient" = Return recipient /\
      get_prop3 P "sig" "message" "refUID" = Return refUID /\
      get_index t 9
      = Return (if strict_equal_string recipient ZeroAddress
                then VString "0" else recipient) /\
      get_index t 12
      = Return (if strict_equal_string refUID ZeroHash
                then VString "0" else refUID)) /\
  (exists c9 c12,
      get_index t' 9 = Return c9 /\
      get_index t' 12 = Return c12 /\
      get_prop3 R "sig" "message" "recipient"
      = Return (if strict_equal_string c9 "0"
                then VString ZeroAddress else c9) /\
      get_prop3 R "sig" "message" "refUID"
      = Return (if strict_equal_string c12 "0"
                then VString ZeroHash else c12)).
Proof.
  intros Hc Hu. split.
  - apply compact_inv in Hc.
    destruct Hc as (sig0 & sig & flat & recipient & refUID & c16 & c17
                    & Esig0 & Eflat & Esig & Erec & Eref & _ & _
                    & H9 & H12 & _).
    exists recipient, refUID.
    pose proof (normalized_message _ _ _ Eflat Esig) as Hm.
    unfold get_prop3, get_prop2 in *. rewrite Esig0. cbn [bind].
    rewrite <- Hm. auto.
  - apply uncompact_inv in Hu.
    destruct Hu as (c16 & r & chain & time & expiration & H16 & _ & _ & _ & _ & ->).
    exists (slot t' 9), (slot t' 12).
    rewrite !(get_index_total _ _ _ H16). repeat split; reflexivity.
Qed.

Lemma sentinel_substitution_witness :
  get_prop3 legacy_sample "sig" "message" "recipient"
  = Return (VString ZeroAddress) /\
  get_index (tuple_of VUndefined VUndefined sample_fields) 9
  = Return (VString "0") /\
  get_prop3 (package_of Legacy (VNumber Legacy) VUndefined sample_fields)
    "sig" "message" "recipient" = Return (VString ZeroAddress) /\
  get_prop3 legacy_sample "sig" "message" "refUID" = Return (VString ZeroHash) /\
  get_index (tuple_of VUndefined VUndefined sample_fields) 12
  = Return (VString "0") /\
  get_prop3 (package_of Legacy (VNumber Legacy) VUndefined sample_fields)
    "sig" "message" "refUID" = Return (VString ZeroHash).
Proof.
  destruct (sentinel_substitution legacy_sample
              (tuple_of VUndefined VUndefined sample_fields)
              (tuple_of VUndefined VUndefined sample_fields)
              (package_of Legacy (VNumber Legacy) VUndefined sample_fields)
              eq_refl eq_refl)
    as [(recipient & refUID & Hrec & Href & H9 & H12)
        (c9 & c12 & H9' & H12' & Hrec' & Href')].
  injection Hrec as <-. injection Href as <-.
  injection H9' as <-. injection H12' as <-.
  repeat split; try reflexivity; assumption.
Defined.

(** C6 (as amended).  For every package whose signature-bearing object
    exposes the keys [v], [r] and [s] (the objects that
    [isSignedOffchainAttestationV1] accepts), the legacy adapter makes
    a nested object with [version] set to the V1 tag and
    [signature = {v, r, s}], without the flat keys and with every other
    member unchanged, and the compactor works on that object: what it
    returns for the package is what it returns for the package with the
    nested object in the place of the flat one.  It accepts the package
    when [domain] and [message] can be read and the times have a
    primitive value; slots 3, 4 and 5 of the tuple are then the flat
    [r], [s] and [v], and slot 16 is the [version] member of the
    package's message, whatever it is. *)
Theorem flat_signature_normalized (P sig : value) :
  get_prop P "sig" = Return sig ->
  isSignedOffchainAttestationV1 sig = Return true ->
  exists o n,
    sig = VObject o /\
    obj_has o "v" = true /\ obj_has o "r" = true /\ obj_has o "s" = true /\
    convertV1AttestationToV2 sig = Return (VObject n) /\
    obj_get n "version" = VNumber Version1 /\
    obj_get n "signature"
    = VObject [("v", obj_get o "v"); ("r", obj_get o "r"); ("s", obj_get o "s")] /\
    obj_has n "v" = false /\ obj_has n "r" = false /\ obj_has n "s" = false /\
    (forall k, k <> "v" -> k <> "r" -> k <> "s" ->
               k <> "version" -> k <> "signature" ->
               obj_get n k = obj_get o k) /\
    isSignedOffchainAttestationV1 (VObject n) = Return false /\
    compactOffchainAttestationPackage P
    = compactOffchainAttestationPackage
        (VObject [("signer", member P "signer"); ("sig", VObject n)]) /\
    (is_nullish (obj_get o "domain") = false ->
     is_nullish (obj_get o "message") = false ->
     renders (member (obj_get o "message") "time") = true ->
     renders (member (obj_get o "message") "expirationTime") = true ->
     exists t, compactOffchainAttestationPackage P = Return t) /\
    (forall t, compactOffchainAttestationPackage P = Return t ->
               get_index t 3 = Return (obj_get o "r") /\
               get_index t 4 = Return (obj_get o "s") /\
               get_index t 5 = Return (obj_get o "v") /\
               get_index t 16 = get_prop3 P "sig" "message" "version").
Proof.
  intros Hsig Hflat.
  pose proof Hflat as Hkeys.
  apply isSignedOffchainAttestationV1_true in Hkeys.
  destruct Hkeys as (o & -> & Hv & Hr & Hs).
  set (n := obj_set (obj_set (obj_remove ["v"; "r"; "s"] o)
                       "version" (VNumber Version1))
              "signature"
              (VObject [("v", obj_get o "v"); ("r", obj_get o "r");
                        ("s", obj_get o "s")])).
  assert (HP : is_nullish P = false).
  { destruct P; try discriminate Hsig; reflexivity. }
  assert (Hnv : obj_has n "v" = false).
  { unfold n. rewrite !obj_has_set_other by discriminate.
    apply obj_has_remove. reflexivity. }
  assert (Hnsig : obj_get n "signature"
                  = VObject [("v", obj_get o "v"); ("r", obj_get o "r");
                             ("s", obj_get o "s")])
    by (unfold n; apply obj_get_set_same).
  assert (Hnd : obj_get n "domain" = obj_get o "domain")
    by (apply converted_member; [discriminate | discriminate | reflexivity]).
  assert (Hnm : obj_get n "message" = obj_get o "message")
    by (apply converted_member; [discriminate | discriminate | reflexivity]).
  assert (Hnested : isSignedOffchainAttestationV1 (VObject n) = Return false).
  { unfold isSignedOffchainAttestationV1. cbn [has_property bind].
    rewrite Hnv. reflexivity. }
  assert (Hc : compactOffchainAttestationPackage P
               = compact_normalized (member P "signer") (VObject n)).
  { rewrite compact_unfold, (get_prop_member P "signer" HP), Hsig.
    cbn [bind]. unfold normalized. rewrite Hflat. cbn [bind].
    rewrite convert_object. reflexivity. }
  exists o, n. split; [reflexivity |].
  split; [exact Hv |]. split; [exact Hr |]. split; [exact Hs |].
  split; [apply convert_object |].
  split; [unfold n; rewrite obj_get_set_other by discriminate;
          apply obj_get_set_same |].
  split; [exact Hnsig |]. split; [exact Hnv |].
  split; [unfold n; rewrite !obj_has_set_other by discriminate;
          apply obj_has_remove; reflexivity |].
  split; [unfold n; rewrite !obj_has_set_other by discriminate;
          apply obj_has_remove; reflexivity |].
  split.
  { intros k Hkv Hkr Hks Hkver Hksig.
    apply converted_member; try assumption. simpl.
    destruct (String.eqb_spec k "v"); [contradiction |].
    destruct (String.eqb_spec k "r"); [contradiction |].
    destruct (String.eqb_spec k "s"); [contradiction |]. reflexivity. }
  split; [exact Hnested |].
  split.
  { rewrite Hc, compact_unfold. cbn [get_prop bind obj_get String.eqb
      Ascii.eqb Bool.eqb]. unfold normalized. rewrite Hnested. reflexivity. }
  split.
  { intros Hd Hm Ht He. rewrite Hc. unfold compact_normalized, member.
    cbn [get_prop]. rewrite Hnd, Hnm, Hnsig, Hd, Hm. cbn [is_nullish orb].
    destruct (proj1 (js_Number_renders _) Ht) as (n10 & H10).
    destruct (proj1 (js_Number_renders _) He) as (n11 & H11).
    unfold member in H10, H11. rewrite H10, H11. cbn [bind].
    eexists. reflexivity. }
  intros t Ht.
  assert (H16 : get_index t 16 = get_prop3 P "sig" "message" "version").
  { pose proof Ht as Hi. apply compact_inv in Hi.
    destruct Hi as (sig0 & sig & flat & recipient & refUID & c16 & c17
                    & Esig0 & Eflat & Esig & _ & _ & E16 & _ & _ & _ & _ & H16 & _).
    pose proof (normalized_message _ _ _ Eflat Esig) as Hmsg.
    rewrite H16. unfold get_prop3, get_prop2 in *. rewrite Esig0. cbn [bind].
    rewrite <- Hmsg. symmetry. exact E16. }
  rewrite Hc in Ht. unfold compact_normalized in Ht.
  destruct (_ || _)%bool; [discriminate Ht |].
  destruct (js_Number _) as [n10 |]; [| discriminate Ht]. cbn [bind] in Ht.
  destruct (js_Number _) as [n11 |]; [| discriminate Ht]. cbn [bind] in Ht.
  injection Ht as Ht. rewrite <- Ht in H16 |- *.
  unfold compacted_of, member. cbn [get_prop get_index nth].
  rewrite Hnsig. cbn [get_prop obj_get String.eqb Ascii.eqb Bool.eqb].
  repeat split; try reflexivity. exact H16.
Qed.

(** The flat sample is accepted; its tuple has the flat [r], [s] and
    [v] in slots 3, 4 and 5, and [undefined] in slot 16. *)
Lemma flat_signature_normalized_witness :
  exists o n t,
    get_prop flat_sample "sig" = Return (VObject o) /\
    convertV1AttestationToV2 (VObject o) = Return (VObject n) /\
    obj_get n "version" = VNumber Version1 /\
    obj_get n "signature"
    = VObject [("v", num 27); ("r", VString (sig_r sample_fields));
               ("s", VString (sig_s sample_fields))] /\
    compactOffchainAttestationPackage flat_sample = Return t /\
    get_index t 3 = Return (VString (sig_r sample_fields)) /\
    get_index t 4 = Return (VString (sig_s sample_fields)) /\
    get_index t 5 = Return (num 27) /\
    get_index t 16 = get_prop3 flat_sample "sig" "message" "version".
Proof.
  destruct (flat_signature_normalized flat_sample
              (VObject
                 [("domain", domain_of sample_fields);
                  ("primaryType", VString (primary_type Version1));
                  ("types", VObject [("Attest", VArray (attest_fields Version1))]);
                  ("r", VString (sig_r sample_fields));
                  ("s", VString (sig_s sample_fields));
                  ("v", num (sig_v sample_fields));
                  ("uid", VString (uid sample_fields));
                  ("message", plain_message None None sample_fields)])
              eq_refl eq_refl)
    as (o & n & Ho & _ & _ & _ & Hn & Hver & Hsig & _ & _ & _ & _ & _ & _
        & Hex & Hslots).
  injection Ho as <-.
  destruct (Hex eq_refl eq_refl eq_refl eq_refl) as (t & Ht).
  destruct (Hslots t Ht) as (H3 & H4 & H5 & H16).
  eexists. exists n, t. split; [reflexivity |]. split; [exact Hn |].
  split; [exact Hver |]. split; [exact Hsig |]. split; [exact Ht |].
  repeat split; assumption.
Defined.

(** C6, as stated, fails on a flat package whose message has no
    [version]: normalization sets the top-level [version] to the V1 tag,
    but slot 16 is read from the message and is [undefined]. *)
Lemma flat_sample_slot16_undefined :
  (sig <- get_prop flat_sample "sig" ;; isSignedOffchainAttestationV1 sig)
  = Return true /\
  (sig <- get_prop flat_sample "sig" ;;
   n <- convertV1AttestationToV2 sig ;; get_prop n "version")
  = Return (VNumber Version1) /\
  exists t,
    compactOffchainAttestationPackage flat_sample = Return t /\
    get_index t 16 = Return VUndefined /\
    get_index t 16 <> Return (VNumber Version1).
Proof.
  split; [reflexivity |]. split; [reflexivity |].
  exists (tuple_of VUndefined VUndefined sample_fields).
  repeat split; try reflexivity. discriminate.
Qed.

(** * The wire form *)

Lemma stringify_tuple (mversion : option number) (salt : option string)
  (f : fields) :
  JSON_stringify (tuple_of (version_value mversion) (salt_value salt) f)
  = Some (wire_of mversion salt f).
Proof.
  destruct mversion, salt; reflexivity.
Qed.

Lemma json_of_number_not_string (n : number) :
  is_json_string (json_of_number n) = false.
Proof.
  destruct n as [z | m k | | | s]; reflexivity.
Qed.

(** What [JSON.parse] makes of the wire form: the chain id is a decimal
    string, and a missing version or salt is [null]. *)
Lemma parse_wire (mversion : option number) (salt : option string)
  (f : fields) :
  (mversion = None \/ exists n, mversion = Some n /\ is_version_tag n) ->
  number_is_finite (time f) ->
  number_is_finite (expirationTime f) ->
  JSON_parse (wire_of mversion salt f)
  = tuple_with (VString (bigint_to_string (chainId f)))
      (through_json (version_value mversion))
      (through_json (salt_value salt)) f.
Proof.
  intros Hver Htime Hexp. unfold wire_of, tuple_with.
  rewrite (number_of_bigint_finite _ Htime), (number_of_bigint_finite _ Hexp).
  destruct salt;
    destruct Hver as [-> | (n & -> & [-> | [-> | ->]])]; reflexivity.
Qed.

Lemma through_json_version_resolves (mversion : option number) :
  (mversion = None \/ exists n, mversion = Some n /\ is_version_tag n) ->
  resolves_to (through_json (version_value mversion)) (resolved_version mversion).
Proof.
  unfold resolves_to.
  intros [-> | (n & -> & [-> | [-> | ->]])]; simpl; auto.
Qed.

Section CodecFacts.

Variables text bytes base64 : Type.
Variable JSON_write : json -> text.
Variable JSON_read : text -> result json.
Variable deflate : text -> bytes.
Variable inflate : bytes -> result text.
Variable fromUint8Array : bytes -> base64.
Variable toUint8Array : base64 -> bytes.

(** The contracts of the engine and the libraries: parsing the text of
    a document gives the document back, inflating a deflated text gives
    the text back, and decoding an encoded byte sequence gives the bytes
    back. *)
Hypothesis JSON_read_write : forall j, JSON_read (JSON_write j) = Return j.
Hypothesis inflate_deflate : forall s, inflate (deflate s) = Return s.
Hypothesis toUint8Array_fromUint8Array :
  forall b, toUint8Array (fromUint8Array b) = b.

Local Abbreviation encodeToText :=
  (zipAndEncodeToBase64 JSON_write deflate fromUint8Array).
Local Abbreviation decodeFromText :=
  (decodeBase64ZippedBase64 JSON_read inflate toUint8Array).

(** Encoding a package to text and decoding the text. *)
Lemma decode_encode_package (version : number) (mversion : option number)
  (salt : option string) (f : fields) (P : value) :
  is_package version mversion salt f P ->
  (mversion = None \/ exists n, mversion = Some n /\ is_version_tag n) ->
  number_is_finite (time f) ->
  number_is_finite (expirationTime f) ->
  exists b,
    encodeToText P = Return b /\
    decodeFromText b
    = Return (package_of (resolved_version mversion)
                (VNumber (resolved_version mversion))
                (through_json (salt_value salt)) (decompacted_leaves f)).
Proof.
  intros HP Hver Htime Hexp.
  unfold zipAndEncodeToBase64, decodeBase64ZippedBase64.
  rewrite (compact_package _ _ _ _ _ HP). cbn [bind].
  rewrite stringify_tuple. eexists. split; [reflexivity |].
  rewrite toUint8Array_fromUint8Array, inflate_deflate. cbn [bind].
  rewrite JSON_read_write. cbn [bind].
  rewrite parse_wire by assumption.
  apply uncompact_tuple; try assumption.
  - apply BigInt_of_decimal.
  - apply through_json_version_resolves. assumption.
Qed.

(** C7 (as amended).  For every signed package in the nested form,
    decoding the encoded text returns the package in the decompactor's
    layout with every leaf as it was, except that [time] and
    [expirationTime] have gone through a double, that [message.version]
    is the resolved version tag (the message's own, or the Legacy tag
    when it has none) and that [message.salt] is the message's own, or
    [null] when it has none.  With the times within the safe integers,
    every member of the decoded package reads as it does in the original
    one exactly when the original message carries the package's version
    tag and a salt, as that of a V2 package does, and the decoded
    package is then deep-equal to an original that has exactly the
    members of the layout.  The text of a JSON document, the deflate
    stream and the base64 text are those of any implementation that
    reads back what it writes. *)
Theorem decode_encode_roundtrip (version : number) (mversion : option number)
  (salt : option string) (f : fields) (P : value) :
  is_package version mversion salt f P ->
  (mversion = None \/ exists n, mversion = Some n /\ is_version_tag n) ->
  recipient f <> "0" ->
  refUID f <> "0" ->
  number_is_finite (time f) ->
  number_is_finite (expirationTime f) ->
  exists b R,
    encodeToText P = Return b /\
    decodeFromText b = Return R /\
    R = package_of (resolved_version mversion)
          (VNumber (resolved_version mversion))
          (through_json (salt_value salt)) (lossy_times f) /\
    get_prop3 P "sig" "message" "version" = Return (version_value mversion) /\
    get_prop3 R "sig" "message" "version"
    = Return (VNumber (resolved_version mversion)) /\
    get_prop3 P "sig" "message" "salt" = Return (salt_value salt) /\
    get_prop3 R "sig" "message" "salt"
    = Return (through_json (salt_value salt)) /\
    (is_safe_integer (time f) -> is_safe_integer (expirationTime f) ->
     (same_value R P = true <-> mversion = Some version /\ salt <> None) /\
     (mversion = Some version -> salt <> None ->
      deep_equal
        (package_of version (VNumber version) (salt_value salt) f) P = true ->
      deep_equal R P = true)).
Proof.
  intros HP Hver Hrec Href Htime Hexp.
  destruct (decode_encode_package _ _ _ _ _ HP) as (b & Hb & HR);
    [assumption | assumption | assumption |].
  rewrite decompacted_leaves_lossy in HR by assumption.
  pose proof HP as [Hsame _].
  destruct (package_reads _ _ _ _ _ Hsame) as (m & HPv & HPm & Hmv & Hms).
  apply same_value_version in Hmv. apply same_value_salt in Hms.
  exists b. eexists. split; [exact Hb |]. split; [exact HR |].
  split; [reflexivity |].
  split; [unfold get_prop3; rewrite HPm; cbn [bind get_prop];
          rewrite Hmv; reflexivity |].
  split; [reflexivity |].
  split; [unfold get_prop3; rewrite HPm; cbn [bind get_prop];
          rewrite Hms; reflexivity |].
  split; [reflexivity |].
  intros Hst Hse. rewrite lossy_times_safe by assumption. split; [split |].
  - intros HRP.
    destruct (package_reads _ _ _ _ _ HRP) as (m' & HRv & HRm & Hmv' & Hms').
    rewrite HPm in HRm. injection HRm as <-.
    rewrite HPv in HRv. injection HRv as HRv.
    rewrite Hmv in Hmv'. rewrite Hms in Hms'. split.
    + destruct mversion as [nv |]; [| discriminate Hmv'].
      cbn [resolved_version] in HRv. congruence.
    + destruct salt; [discriminate | discriminate Hms'].
  - intros [-> Hsalt]. destruct salt as [s |]; [| contradiction].
    exact Hsame.
  - intros -> Hsalt Hdeep. destruct salt as [s |]; [| contradiction].
    exact Hdeep.
Qed.

(** A package whose message has no salt does not come back the same:
    the decoded package has [message.salt] equal to [null]. *)
Lemma decode_encode_without_salt (version : number) (mversion : option number)
  (f : fields) (P : value) :
  is_package version mversion None f P ->
  (mversion = None \/ exists n, mversion = Some n /\ is_version_tag n) ->
  number_is_finite (time f) ->
  number_is_finite (expirationTime f) ->
  get_prop3 P "sig" "message" "salt" = Return VUndefined /\
  exists b R,
    encodeToText P = Return b /\
    decodeFromText b = Return R /\
    get_prop3 R "sig" "message" "salt" = Return VNull.
Proof.
  intros HP Hver Htime Hexp. split.
  - destruct HP as [Hs _].
    unfold package_of, domain_of, signature_of, message_of in Hs.
    same_inv. subst P. unfold get_prop3, get_prop2. cbn [get_prop bind].
    read_props. cbn [get_prop bind]. read_props. cbn [get_prop bind].
    read_props. reflexivity.
  - destruct (decode_encode_package _ _ _ _ _ HP Hver Htime Hexp)
      as (b & Hb & HR).
    exists b. eexists. split; [exact Hb |]. split; [exact HR |]. reflexivity.
Qed.

(** C10.  For every package whose message has neither [version] nor
    [salt], slots 16 and 17 of the tuple are [undefined] and the JSON
    document has [null] in both places; the decoder takes the [null] in
    slot 16, which is falsy, for the Legacy version, and the decoded
    package has [message.salt] equal to [null]. *)
Theorem missing_version_and_salt_become_null (version : number) (f : fields)
  (P : value) :
  is_package version None None f P ->
  number_is_finite (time f) ->
  number_is_finite (expirationTime f) ->
  exists t w b R,
    compactOffchainAttestationPackage P = Return (VArray t) /\
    nth_error t 16 = Some VUndefined /\
    nth_error t 17 = Some VUndefined /\
    JSON_stringify (VArray t) = Some (JArray w) /\
    nth_error w 16 = Some JNull /\
    nth_error w 17 = Some JNull /\
    encodeToText P = Return b /\
    get_index (JSON_parse (JArray w)) 16 = Return VNull /\
    to_boolean VNull = false /\
    decodeFromText b = Return R /\
    get_prop2 R "sig" "version" = Return (VNumber Legacy) /\
    get_prop3 R "sig" "message" "version" = Return (VNumber Legacy) /\
    get_prop3 R "sig" "message" "salt" = Return VNull.
Proof.
  intros HP Htime Hexp.
  destruct (decode_encode_package _ _ _ _ _ HP) as (b & Hb & HR);
    [auto | assumption | assumption |].
  pose proof (compact_package _ _ _ _ _ HP) as Hc.
  pose proof (stringify_tuple None None f) as Hw.
  pose proof (parse_wire None None f (or_introl eq_refl) Htime Hexp) as Hp.
  unfold tuple_of, tuple_with in Hc, Hw. unfold wire_of in Hw, Hp.
  do 2 eexists. exists b. eexists.
  split; [exact Hc |]. split; [reflexivity |]. split; [reflexivity |].
  split; [exact Hw |]. split; [reflexivity |]. split; [reflexivity |].
  split; [exact Hb |]. split; [rewrite Hp; reflexivity |].
  split; [reflexivity |]. split; [exact HR |].
  repeat split; reflexivity.
Qed.

End CodecFacts.

(** The V2 sample comes back member for member; the V1 sample comes
    back with [message.salt] equal to [null], and the Legacy sample with
    [message.version] equal to the Legacy tag as well. *)
Lemma decode_encode_roundtrip_witness :
  (exists b R,
      zip_plain v2_sample = Return b /\
      unzip_plain b = Return R /\
      same_value R v2_sample = true /\
      deep_equal R v2_sample = true) /\
  (exists b R,
      zip_plain v1_sample = Return b /\
      unzip_plain b = Return R /\
      R = package_of Version1 (VNumber Version1) VNull sample_fields /\
      same_value R v1_sample <> true) /\
  (exists b R,
      zip_plain legacy_sample = Return b /\
      unzip_plain b = Return R /\
      R = package_of Legacy (VNumber Legacy) VNull sample_fields /\
      same_value R legacy_sample <> true).
Proof.
  split; [| split].
  - destruct (decode_encode_roundtrip json json json
                (fun j => j) (fun t => Return t)
                (fun t => t) (fun b => Return b)
                (fun b => b) (fun b => b)
                (fun _ => eq_refl) (fun _ => eq_refl) (fun _ => eq_refl)
                Version2 (Some Version2) (Some sample_salt) sample_fields
                v2_sample)
      as (b & R & Hb & HR & _ & _ & _ & _ & _ & Hsafe).
    + split; reflexivity.
    + right. exists Version2. split; [reflexivity |]. right. right. reflexivity.
    + discriminate.
    + discriminate.
    + reflexivity.
    + reflexivity.
    + exists b, R. split; [exact Hb |]. split; [exact HR |].
      destruct Hsafe as [Hsame Hdeep]; [discriminate | discriminate |].
      split.
      * apply Hsame. split; [reflexivity | discriminate].
      * apply Hdeep; [reflexivity | discriminate | reflexivity].
  - destruct (decode_encode_roundtrip json json json
                (fun j => j) (fun t => Return t)
                (fun t => t) (fun b => Return b)
                (fun b => b) (fun b => b)
                (fun _ => eq_refl) (fun _ => eq_refl) (fun _ => eq_refl)
                Version1 (Some Version1) None sample_fields v1_sample)
      as (b & R & Hb & HR & HRR & _ & _ & _ & _ & Hsafe).
    + split; reflexivity.
    + right. exists Version1. split; [reflexivity |]. right. left. reflexivity.
    + discriminate.
    + discriminate.
    + reflexivity.
    + reflexivity.
    + exists b, R. split; [exact Hb |]. split; [exact HR |].
      split; [exact HRR |].
      destruct Hsafe as [Hsame _]; [discriminate | discriminate |].
      intros H. apply Hsame in H. destruct H as [_ H]. apply H. reflexivity.
  - destruct (decode_encode_roundtrip json json json
                (fun j => j) (fun t => Return t)
                (fun t => t) (fun b => Return b)
                (fun b => b) (fun b => b)
                (fun _ => eq_refl) (fun _ => eq_refl) (fun _ => eq_refl)
                Legacy None None sample_fields legacy_sample)
      as (b & R & Hb & HR & HRR & _ & _ & _ & _ & Hsafe).
    + split; reflexivity.
    + left. reflexivity.
    + discriminate.
    + discriminate.
    + reflexivity.
    + reflexivity.
    + exists b, R. split; [exact Hb |]. split; [exact HR |].
      split; [exact HRR |].
      destruct Hsafe as [Hsame _]; [discriminate | discriminate |].
      intros H. apply Hsame in H. destruct H as [H _]. discriminate H.
Defined.

(** C7, as stated, fails on a V1 package: its message has no salt, the
    JSON text has [null] in slot 17, and the decoded package has
    [message.salt] equal to [null]. *)
Lemma v1_decode_encode_differs :
  exists b R,
    zip_plain v1_sample = Return b /\
    unzip_plain b = Return R /\
    same_value R v1_sample = false /\
    R <> v1_sample /\
    get_prop3 v1_sample "sig" "message" "salt" = Return VUndefined /\
    get_prop3 R "sig" "message" "salt" = Return VNull.
Proof.
  exists (wire_of (Some Version1) None sample_fields).
  exists (package_of Version1 (VNumber Version1) VNull sample_fields).
  repeat split; try reflexivity. discriminate.
Qed.

Lemma missing_version_and_salt_become_null_witness :
  exists t w b R,
    compactOffchainAttestationPackage legacy_sample = Return (VArray t) /\
    nth_error t 16 = Some VUndefined /\
    nth_error t 17 = Some VUndefined /\
    JSON_stringify (VArray t) = Some (JArray w) /\
    nth_error w 16 = Some JNull /\
    nth_error w 17 = Some JNull /\
    zip_plain legacy_sample = Return b /\
    get_index (JSON_parse (JArray w)) 16 = Return VNull /\
    to_boolean VNull = false /\
    unzip_plain b = Return R /\
    get_prop2 R "sig" "version" = Return (VNumber Legacy) /\
    get_prop3 R "sig" "message" "version" = Return (VNumber Legacy) /\
    get_prop3 R "sig" "message" "salt" = Return VNull.
Proof.
  apply (missing_version_and_salt_become_null json json json
           (fun j => j) (fun t => Return t)
           (fun t => t) (fun b => Return b)
           (fun b => b) (fun b => b)
           (fun _ => eq_refl) (fun _ => eq_refl) (fun _ => eq_refl)
           Legacy sample_fields legacy_sample).
  - split; reflexivity.
  - reflexivity.
  - reflexivity.
Defined.

(** C8 (as amended).  In the JSON document of the tuple of a package,
    the chain id, the one bigint of the tuple, is written as its decimal
    string whatever its magnitude; the numbers of the tuple (the
    recovery id, the two times that the compactor coerced to numbers,
    the reserved 0 and the version) are never written as strings, also
    beyond the safe integers. *)
Theorem wire_strings_are_bigints (version : number) (mversion : option number)
  (salt : option string) (f : fields) (P : value) :
  is_package version mversion salt f P ->
  exists t w,
    compactOffchainAttestationPackage P = Return t /\
    JSON_stringify t = Some (JArray w) /\
    get_index t 1 = Return (VBigInt (chainId f)) /\
    nth_error w 1 = Some (JString (bigint_to_string (chainId f))) /\
    get_index t 10 = Return (VNumber (number_of_bigint (time f))) /\
    nth_error w 10 = Some (json_of_number (number_of_bigint (time f))) /\
    get_index t 11 = Return (VNumber (number_of_bigint (expirationTime f))) /\
    nth_error w 11 = Some (json_of_number (number_of_bigint (expirationTime f))) /\
    (forall i j, In i [5; 10; 11; 15; 16]%nat ->
                 nth_error w i = Some j -> is_json_string j = false).
Proof.
  intros HP.
  pose proof (compact_package _ _ _ _ _ HP) as Hc.
  pose proof (stringify_tuple mversion salt f) as Hw.
  unfold wire_of in Hw.
  do 2 eexists. split; [exact Hc |]. split; [exact Hw |].
  repeat split; try reflexivity.
  intros i j Hi Hj. simpl in Hi.
  destruct Hi as [<- | [<- | [<- | [<- | [<- | []]]]]];
    cbn [nth_error] in Hj; injection Hj as <-;
    try reflexivity; try apply json_of_number_not_string.
  destruct mversion; [apply json_of_number_not_string | reflexivity].
Qed.

Lemma wire_strings_are_bigints_witness :
  exists t w,
    compactOffchainAttestationPackage late_sample = Return t /\
    JSON_stringify t = Some (JArray w) /\
    get_index t 1 = Return (VBigInt 1) /\
    nth_error w 1 = Some (JString (bigint_to_string 1)) /\
    get_index t 10 = Return (VNumber (number_of_bigint (2 ^ 60))) /\
    nth_error w 10 = Some (json_of_number (number_of_bigint (2 ^ 60))) /\
    get_index t 11 = Return (VNumber (number_of_bigint 0)) /\
    nth_error w 11 = Some (json_of_number (number_of_bigint 0)) /\
    (forall i j, In i [5; 10; 11; 15; 16]%nat ->
                 nth_error w i = Some j -> is_json_string j = false).
Proof.
  apply (wire_strings_are_bigints Version1 (Some Version1) None late_fields
           late_sample).
  split; reflexivity.
Defined.

(** C8, as stated, fails in both directions: a chain id of 1, a safe
    integer, is written as the string "1", and a time of 2^60, beyond
    the safe integers, is written as a number. *)
Lemma safe_chain_id_written_as_string :
  exists t w,
    compactOffchainAttestationPackage late_sample = Return t /\
    JSON_stringify t = Some (JArray w) /\
    get_index t 1 = Return (VBigInt 1) /\
    is_safe_integer 1 /\
    nth_error w 1 = Some (JString "1") /\
    get_index t 10 = Return (VNumber (NInt (2 ^ 60))) /\
    ~ is_safe_integer (2 ^ 60) /\
    nth_error w 10 = Some (JNumber (NInt (2 ^ 60))).
Proof.
  exists (tuple_of (VNumber Version1) VUndefined late_fields).
  exists (match wire_of (Some Version1) None late_fields with
          | JArray w => w
          | _ => []
          end).
  repeat split; try reflexivity.
  - discriminate.
  - intros H. apply H. reflexivity.
Qed.

(** * Further properties of the module *)

Lemma sentinel_not_zero (zero : string) (v : value) :
  String.eqb zero "0" = false -> sentinel zero v <> VString zero.
Proof.
  intros Hz. unfold sentinel.
  destruct (strict_equal_string v zero) eqn:E.
  - intros H. injection H as H. rewrite <- H in Hz. discriminate Hz.
  - intros ->. simpl in E. rewrite String.eqb_refl in E. discriminate E.
Qed.

(** X1.  The compactor throws nothing but a [TypeError], and throws
    in these cases only: the package is [undefined] or [null]; its
    signature-bearing object is not an object, so that the [in] test
    fails; [domain], [signature] or [message] of the normalized object
    is [undefined] or [null]; or one of the times has no primitive
    value for [Number] to coerce. *)
Theorem compact_throws_only_TypeError (P : value) (e : error) :
  compactOffchainAttestationPackage P = Throw e ->
  e = TypeError /\
  (is_nullish P = true \/
   exists sig0,
     get_prop P "sig" = Return sig0 /\
     (normalized sig0 = Throw TypeError \/
      exists sig,
        normalized sig0 = Return sig /\
        (is_nullish (member sig "domain") = true \/
         is_nullish (member sig "signature") = true \/
         is_nullish (member sig "message") = true \/
         renders (member (member sig "message") "time") = false \/
         renders (member (member sig "message") "expirationTime") = false))).
Proof.
  rewrite compact_unfold. intros H.
  destruct (is_nullish P) eqn:HP.
  { rewrite (get_prop_nullish P "signer" HP) in H. cbn [bind] in H.
    injection H as <-. auto. }
  rewrite (get_prop_member P "signer" HP), (get_prop_member P "sig" HP) in H.
  cbn [bind] in H.
  rewrite (get_prop_member P "sig" HP).
  destruct (normalized (member P "sig")) as [sig |] eqn:Esig.
  2:{ cbn [bind] in H. injection H as <-.
      pose proof (normalized_only_TypeError _ _ Esig) as ->.
      split; [reflexivity |]. right. eexists. split; [reflexivity |]. auto. }
  cbn [bind] in H. unfold compact_normalized in H.
  destruct (is_nullish (member sig "domain")) eqn:Hd.
  { injection H as <-. split; [reflexivity |]. right. eexists.
    split; [reflexivity |]. right. exists sig. auto. }
  destruct (is_nullish (member sig "signature")) eqn:Hs.
  { injection H as <-. split; [reflexivity |]. right. eexists.
    split; [reflexivity |]. right. exists sig. auto. }
  destruct (is_nullish (member sig "message")) eqn:Hm.
  { injection H as <-. split; [reflexivity |]. right. eexists.
    split; [reflexivity |]. right. exists sig. auto. }
  cbn [orb] in H.
  destruct (js_Number_renders (member (member sig "message") "time"))
    as [Ht1 Ht0].
  destruct (js_Number_renders (member (member sig "message") "expirationTime"))
    as [He1 He0].
  destruct (renders (member (member sig "message") "time")) eqn:Rt.
  2:{ rewrite (Ht0 eq_refl) in H. cbn [bind] in H. injection H as <-.
      split; [reflexivity |]. right. eexists. split; [reflexivity |].
      right. exists sig. auto 10. }
  destruct (Ht1 eq_refl) as (n10 & H10). rewrite H10 in H. cbn [bind] in H.
  destruct (renders (member (member sig "message") "expirationTime")) eqn:Re.
  2:{ rewrite (He0 eq_refl) in H. cbn [bind] in H. injection H as <-.
      split; [reflexivity |]. right. eexists. split; [reflexivity |].
      right. exists sig. auto 10. }
  destruct (He1 eq_refl) as (n11 & H11). rewrite H11 in H. discriminate H.
Qed.

(** A package whose time is an object with an own [toString]. *)
Lemma compact_throws_only_TypeError_witness :
  compactOffchainAttestationPackage
    (VObject [("sig", VObject [("domain", VObject []);
                               ("signature", VObject []);
                               ("message", VObject [("time", shadowed)])])])
  = Throw TypeError /\
  renders shadowed = false.
Proof.
  split; [reflexivity |].
  destruct (compact_throws_only_TypeError
              (VObject [("sig", VObject [("domain", VObject []);
                                         ("signature", VObject []);
                                         ("message",
                                          VObject [("time", shadowed)])])])
              TypeError eq_refl) as [_ [H | (sig0 & Hsig0 & H)]].
  - discriminate H.
  - injection Hsig0 as <-.
    destruct H as [H | (sig & Hsig & H)]; [discriminate H |].
    injection Hsig as <-.
    destruct H as [H | [H | [H | [H | H]]]];
      try discriminate H. exact H.
Defined.

(** X2.  A package in the nested form is accepted exactly when the
    [domain], [signature] and [message] members of its signature-bearing
    object are neither [undefined] nor [null] and the two times have a
    primitive value; no leaf is required, a missing leaf fills its slot
    with [undefined] (a missing time with [NaN]), and the tuple is
    [compacted_of] with the two times coerced by [Number]. *)
Theorem nested_package_accepted_iff (P : value) (o : list (string * value)) :
  get_prop P "sig" = Return (VObject o) ->
  isSignedOffchainAttestationV1 (VObject o) = Return false ->
  ((exists t, compactOffchainAttestationPackage P = Return t) <->
   is_nullish (obj_get o "domain") = false /\
   is_nullish (obj_get o "signature") = false /\
   is_nullish (obj_get o "message") = false /\
   renders (member (obj_get o "message") "time") = true /\
   renders (member (obj_get o "message") "expirationTime") = true) /\
  (forall t, compactOffchainAttestationPackage P = Return t ->
             exists time expirationTime,
               js_Number (member (obj_get o "message") "time")
               = Return time /\
               js_Number (member (obj_get o "message") "expirationTime")
               = Return expirationTime /\
               t = compacted_of (member P "signer") (VObject o)
                     time expirationTime).
Proof.
  intros Hsig Hflat.
  assert (HP : is_nullish P = false).
  { destruct P; try discriminate Hsig; reflexivity. }
  assert (Hc : compactOffchainAttestationPackage P
               = compact_normalized (member P "signer") (VObject o)).
  { rewrite compact_unfold, (get_prop_member P "signer" HP), Hsig.
    cbn [bind]. unfold normalized. rewrite Hflat. reflexivity. }
  rewrite Hc. unfold compact_normalized.
  change (member (VObject o) "domain") with (obj_get o "domain").
  change (member (VObject o) "signature") with (obj_get o "signature").
  change (member (VObject o) "message") with (obj_get o "message").
  destruct (js_Number_renders (member (obj_get o "message") "time"))
    as [Ht1 Ht0].
  destruct (js_Number_renders (member (obj_get o "message") "expirationTime"))
    as [He1 He0].
  split.
  - split.
    + intros (t & Ht).
      destruct (is_nullish (obj_get o "domain")); [discriminate Ht |].
      destruct (is_nullish (obj_get o "signature")); [discriminate Ht |].
      destruct (is_nullish (obj_get o "message")); [discriminate Ht |].
      cbn [orb] in Ht.
      destruct (renders (member (obj_get o "message") "time"));
        [| rewrite (Ht0 eq_refl) in Ht; discriminate Ht].
      destruct (Ht1 eq_refl) as (n10 & H10). rewrite H10 in Ht.
      cbn [bind] in Ht.
      destruct (renders (member (obj_get o "message") "expirationTime"));
        [| rewrite (He0 eq_refl) in Ht; discriminate Ht].
      auto.
    + intros (-> & -> & -> & Rt & Re). cbn [orb].
      destruct (Ht1 Rt) as (n10 & ->). destruct (He1 Re) as (n11 & ->).
      eexists. reflexivity.
  - intros t Ht. destruct (_ || _)%bool; [discriminate Ht |].
    destruct (js_Number (member (obj_get o "message") "time"))
      as [n10 |]; [| discriminate Ht].
    cbn [bind] in Ht.
    destruct (js_Number (member (obj_get o "message") "expirationTime"))
      as [n11 |]; [| discriminate Ht].
    cbn [bind] in Ht. injection Ht as <-.
    exists n10, n11. repeat split; reflexivity.
Qed.

(** An object with empty [domain], [signature] and [message] is
    accepted; without [signature], or with a time that has no primitive
    value, it is not. *)
Lemma nested_package_accepted_iff_witness :
  (exists t, compactOffchainAttestationPackage
               (VObject [("sig", VObject [("domain", VObject []);
                                          ("signature", VObject []);
                                          ("message", VObject [])])])
             = Return t) /\
  ~ (exists t, compactOffchainAttestationPackage
                 (VObject [("sig", VObject [("domain", VObject []);
                                            ("message", VObject [])])])
               = Return t) /\
  ~ (exists t, compactOffchainAttestationPackage
                 (VObject [("sig",
                            VObject [("domain", VObject []);
                                     ("signature", VObject []);
                                     ("message",
                                      VObject [("time", shadowed)])])])
               = Return t).
Proof.
  split; [| split].
  - apply (proj1 (nested_package_accepted_iff
                    (VObject [("sig", VObject [("domain", VObject []);
                                               ("signature", VObject []);
                                               ("message", VObject [])])])
                    [("domain", VObject []); ("signature", VObject []);
                     ("message", VObject [])] eq_refl eq_refl)).
    repeat split.
  - intros H.
    apply (proj1 (nested_package_accepted_iff
                    (VObject [("sig", VObject [("domain", VObject []);
                                               ("message", VObject [])])])
                    [("domain", VObject []); ("message", VObject [])]
                    eq_refl eq_refl)) in H.
    destruct H as (_ & H & _). discriminate H.
  - intros H.
    apply (proj1 (nested_package_accepted_iff
                    (VObject [("sig",
                               VObject [("domain", VObject []);
                                        ("signature", VObject []);
                                        ("message",
                                         VObject [("time", shadowed)])])])
                    [("domain", VObject []); ("signature", VObject []);
                     ("message", VObject [("time", shadowed)])]
                    eq_refl eq_refl)) in H.
    destruct H as (_ & _ & _ & H & _). discriminate H.
Defined.

(** X3.  A package in the flat form is accepted exactly when [domain]
    and [message] are neither [undefined] nor [null] and the two times
    have a primitive value; slots 3, 4 and 5 of its tuple are the
    top-level [r], [s] and [v], slot 7 is its [uid] and slot 16 the
    [version] of its message. *)
Theorem flat_package_accepted_iff (P : value) (o : list (string * value)) :
  get_prop P "sig" = Return (VObject o) ->
  isSignedOffchainAttestationV1 (VObject o) = Return true ->
  ((exists t, compactOffchainAttestationPackage P = Return t) <->
   is_nullish (obj_get o "domain") = false /\
   is_nullish (obj_get o "message") = false /\
   renders (member (obj_get o "message") "time") = true /\
   renders (member (obj_get o "message") "expirationTime") = true) /\
  (forall t, compactOffchainAttestationPackage P = Return t ->
             get_index t 3 = Return (obj_get o "r") /\
             get_index t 4 = Return (obj_get o "s") /\
             get_index t 5 = Return (obj_get o "v") /\
             get_index t 7 = Return (obj_get o "uid") /\
             get_index t 16 = Return (member (obj_get o "message") "version")).
Proof.
  intros Hsig Hflat.
  assert (HP : is_nullish P = false).
  { destruct P; try discriminate Hsig; reflexivity. }
  set (n := obj_set (obj_set (obj_remove ["v"; "r"; "s"] o)
                       "version" (VNumber Version1))
              "signature"
              (VObject [("v", obj_get o "v"); ("r", obj_get o "r");
                        ("s", obj_get o "s")])).
  assert (Hd : obj_get n "domain" = obj_get o "domain")
    by (apply converted_member; [discriminate | discriminate | reflexivity]).
  assert (Hm : obj_get n "message" = obj_get o "message")
    by (apply converted_member; [discriminate | discriminate | reflexivity]).
  assert (Hu : obj_get n "uid" = obj_get o "uid")
    by (apply converted_member; [discriminate | discriminate | reflexivity]).
  assert (Hs : obj_get n "signature"
               = VObject [("v", obj_get o "v"); ("r", obj_get o "r");
                          ("s", obj_get o "s")])
    by (unfold n; apply obj_get_set_same).
  assert (Hc : compactOffchainAttestationPackage P
               = compact_normalized (member P "signer") (VObject n)).
  { rewrite compact_unfold, (get_prop_member P "signer" HP), Hsig.
    cbn [bind]. unfold normalized. rewrite Hflat. cbn [bind].
    rewrite convert_object. reflexivity. }
  rewrite Hc. unfold compact_normalized.
  change (member (VObject n) "domain") with (obj_get n "domain").
  change (member (VObject n) "signature") with (obj_get n "signature").
  change (member (VObject n) "message") with (obj_get n "message").
  rewrite Hd, Hm, Hs. cbn [is_nullish]. rewrite Bool.orb_false_r.
  destruct (js_Number_renders (member (obj_get o "message") "time"))
    as [Ht1 Ht0].
  destruct (js_Number_renders (member (obj_get o "message") "expirationTime"))
    as [He1 He0].
  split.
  - split.
    + intros (t & Ht).
      destruct (is_nullish (obj_get o "domain")); [discriminate Ht |].
      destruct (is_nullish (obj_get o "message")); [discriminate Ht |].
      cbn [orb] in Ht.
      destruct (renders (member (obj_get o "message") "time"));
        [| rewrite (Ht0 eq_refl) in Ht; discriminate Ht].
      destruct (Ht1 eq_refl) as (n10 & H10). rewrite H10 in Ht.
      cbn [bind] in Ht.
      destruct (renders (member (obj_get o "message") "expirationTime"));
        [| rewrite (He0 eq_refl) in Ht; discriminate Ht].
      auto.
    + intros (-> & -> & Rt & Re). cbn [orb].
      destruct (Ht1 Rt) as (n10 & ->). destruct (He1 Re) as (n11 & ->).
      eexists. reflexivity.
  - intros t Ht.
    destruct (_ || _)%bool; [discriminate Ht |].
    destruct (js_Number (member (obj_get o "message") "time"))
      as [n10 |]; [| discriminate Ht].
    cbn [bind] in Ht.
    destruct (js_Number (member (obj_get o "message") "expirationTime"))
      as [n11 |]; [| discriminate Ht].
    cbn [bind] in Ht. injection Ht as <-.
    unfold compacted_of, member. cbn [get_prop get_index nth].
    rewrite Hs, Hm, Hu. cbn [get_prop obj_get String.eqb Ascii.eqb Bool.eqb].
    repeat split; reflexivity.
Qed.

Lemma flat_package_accepted_iff_witness :
  exists t,
    compactOffchainAttestationPackage flat_sample = Return t /\
    get_index t 3 = Return (VString (sig_r sample_fields)) /\
    get_index t 4 = Return (VString (sig_s sample_fields)) /\
    get_index t 5 = Return (num 27).
Proof.
  exists (tuple_of VUndefined VUndefined sample_fields).
  split; [reflexivity |].
  destruct (flat_package_accepted_iff flat_sample
              [("domain", domain_of sample_fields);
               ("primaryType", VString (primary_type Version1));
               ("types", VObject [("Attest", VArray (attest_fields Version1))]);
               ("r", VString (sig_r sample_fields));
               ("s", VString (sig_s sample_fields));
               ("v", num (sig_v sample_fields));
               ("uid", VString (uid sample_fields));
               ("message", plain_message None None sample_fields)]
              eq_refl eq_refl) as [_ H].
  destruct (H (tuple_of VUndefined VUndefined sample_fields) eq_refl)
    as (H3 & H4 & H5 & _).
  repeat split; assumption.
Defined.

(** X4.  Every tuple that the compactor returns is an array of exactly
    18 elements, whose slot 15 is the number 0, whose slots 10 and 11
    are numbers, and whose slots 9 and 12 are never the zero-address and
    zero-hash strings themselves; its JSON document is an array of 18
    elements with the number 0 in slot 15. *)
Theorem compacted_tuple_shape (P t : value) :
  compactOffchainAttestationPackage P = Return t ->
  exists l w,
    t = VArray l /\
    List.length l = 18%nat /\
    nth_error l 15 = Some (num 0) /\
    (exists n10 n11, nth_error l 10 = Some (VNumber n10) /\
                     nth_error l 11 = Some (VNumber n11)) /\
    nth_error l 9 <> Some (VString ZeroAddress) /\
    nth_error l 12 <> Some (VString ZeroHash) /\
    JSON_stringify t = Some (JArray w) /\
    List.length w = 18%nat /\
    nth_error w 15 = Some (JNumber (NInt 0)).
Proof.
  intros H. apply compact_returns in H.
  destruct H as (sig0 & sig & n10 & n11 & _ & _ & _ & _ & _ & _ & _ & ->).
  unfold compacted_of. do 2 eexists.
  split; [reflexivity |]. split; [reflexivity |]. split; [reflexivity |].
  split; [do 2 eexists; split; reflexivity |].
  split.
  { cbn [nth_error]. intros H. injection H as H.
    exact (sentinel_not_zero ZeroAddress _ eq_refl H). }
  split.
  { cbn [nth_error]. intros H. injection H as H.
    exact (sentinel_not_zero ZeroHash _ eq_refl H). }
  split; [cbn [JSON_stringify map]; reflexivity |].
  split; reflexivity.
Qed.

Lemma compacted_tuple_shape_witness :
  exists l w,
    tuple_of (VNumber Version2) (VString sample_salt) sample_fields
    = VArray l /\
    List.length l = 18%nat /\
    nth_error l 15 = Some (num 0) /\
    (exists n10 n11, nth_error l 10 = Some (VNumber n10) /\
                     nth_error l 11 = Some (VNumber n11)) /\
    nth_error l 9 <> Some (VString ZeroAddress) /\
    nth_error l 12 <> Some (VString ZeroHash) /\
    JSON_stringify
      (tuple_of (VNumber Version2) (VString sample_salt) sample_fields)
    = Some (JArray w) /\
    List.length w = 18%nat /\
    nth_error w 15 = Some (JNumber (NInt 0)).
Proof.
  exact (compacted_tuple_shape v2_sample
           (tuple_of (VNumber Version2) (VString sample_salt) sample_fields)
           eq_refl).
Defined.

(** X5.  The decompactor reads slots 0 to 14, 16 and 17 only: two
    tuples that agree on them are decompacted alike, whatever the
    reserved slot 15 holds and however long they are. *)
Theorem uncompact_ignores_reserved (l l' : list value) :
  (forall i, (i < 18)%nat -> i <> 15%nat ->
             nth i l VUndefined = nth i l' VUndefined) ->
  uncompactOffchainAttestationPackage (VArray l)
  = uncompactOffchainAttestationPackage (VArray l').
Proof.
  intros H. unfold uncompactOffchainAttestationPackage.
  cbn [get_index].
  rewrite (H 16%nat), (H 0%nat), (H 1%nat), (H 2%nat), (H 3%nat), (H 4%nat),
    (H 5%nat), (H 6%nat), (H 7%nat), (H 8%nat), (H 9%nat), (H 10%nat),
    (H 11%nat), (H 12%nat), (H 13%nat), (H 14%nat), (H 17%nat)
    by (try lia; discriminate).
  reflexivity.
Qed.

Lemma uncompact_ignores_reserved_witness :
  uncompactOffchainAttestationPackage
    (VArray [VString "1.3.0"; VBigInt 1; VNull; VNull; VNull; num 27; VNull;
             VNull; VNull; VString "0"; num 5; num 0; VString "0"; VBool true;
             VString "0x"; num 0; num 1; VUndefined])
  = uncompactOffchainAttestationPackage
      (VArray [VString "1.3.0"; VBigInt 1; VNull; VNull; VNull; num 27; VNull;
               VNull; VNull; VString "0"; num 5; num 0; VString "0"; VBool true;
               VString "0x"; VString "reserved"; num 1; VUndefined;
               VString "extra"]).
Proof.
  apply (uncompact_ignores_reserved
           [VString "1.3.0"; VBigInt 1; VNull; VNull; VNull; num 27; VNull;
            VNull; VNull; VString "0"; num 5; num 0; VString "0"; VBool true;
            VString "0x"; num 0; num 1; VUndefined]
           [VString "1.3.0"; VBigInt 1; VNull; VNull; VNull; num 27; VNull;
            VNull; VNull; VString "0"; num 5; num 0; VString "0"; VBool true;
            VString "0x"; VString "reserved"; num 1; VUndefined;
            VString "extra"]).
  intros i Hi H15.
  do 18 (destruct i as [| i]; [try reflexivity; contradiction |]).
  lia.
Defined.

Lemma js_BigInt_never_Error (v : value) (m : string) :
  js_BigInt v <> Throw (Error m).
Proof.
  unfold js_BigInt. destruct (to_primitive v) as [p | e] eqn:E.
  - cbn [bind]. destruct p as [| | b | n | z | s | l | o]; try discriminate.
    + destruct n; discriminate.
    + destruct (string_to_bigint s); discriminate.
  - cbn [bind]. intros H. injection H as H.
    apply to_primitive_only_TypeError in E. congruence.
Qed.

(** X6.  The decompactor throws an [Error] only for an unsupported
    version: slot 16 is then truthy and neither the V1 nor the V2 tag,
    it renders as a string, and the message is "Unsupported version: "
    followed by its rendering. *)
Theorem uncompact_Error_only_unsupported (t : value) (m : string) :
  uncompactOffchainAttestationPackage t = Throw (Error m) ->
  exists c16 s,
    get_index t 16 = Return c16 /\
    to_boolean c16 = true /\
    strict_equal_number c16 Legacy = false /\
    strict_equal_number c16 Version1 = false /\
    strict_equal_number c16 Version2 = false /\
    to_string c16 = Return s /\
    m = "Unsupported version: " ++ s.
Proof.
  intros H. unfold uncompactOffchainAttestationPackage in H.
  destruct (get_index t 16) as [c16 |] eqn:H16.
  2:{ destruct t; simpl in H16; try discriminate H16;
        injection H16 as <-; discriminate H. }
  pose proof (get_index_total _ _ _ H16) as Hall.
  pose proof (get_index_slot _ _ _ H16) as Hc16.
  rewrite !Hall in H. cbn [bind] in H.
  exists c16.
  destruct (to_boolean c16) eqn:Htruthy.
  - cbn [bind] in H.
    destruct (strict_equal_number c16 Legacy) eqn:E0.
    { apply strict_equal_number_zero_falsy in E0. congruence. }
    destruct (strict_equal_number c16 Version1) eqn:E1;
      [| destruct (strict_equal_number c16 Version2) eqn:E2].
    3:{ destruct (to_string c16) as [s | e] eqn:Es; cbn [bind] in H.
        - injection H as <-. exists s. auto 10.
        - injection H as ->.
          pose proof (to_string_only_TypeError _ _ Es). discriminate. }
    all: exfalso; cbn [bind] in H;
      destruct (js_BigInt (slot t 1)) eqn:B1;
      [| cbn [bind] in H; injection H as ->;
         exact (js_BigInt_never_Error _ _ B1)];
      cbn [bind] in H; rewrite !if_Return in H; cbn [bind] in H;
      destruct (js_BigInt (slot t 10)) eqn:B10;
      [| cbn [bind] in H; injection H as ->;
         exact (js_BigInt_never_Error _ _ B10)];
      cbn [bind] in H;
      destruct (js_BigInt (slot t 11)) eqn:B11;
      [| cbn [bind] in H; injection H as ->;
         exact (js_BigInt_never_Error _ _ B11)];
      cbn [bind] in H; discriminate H.
  - exfalso. cbn [bind] in H. cbn [strict_equal_number Legacy] in H.
    cbn [bind] in H.
    destruct (js_BigInt (slot t 1)) eqn:B1;
      [| cbn [bind] in H; injection H as ->;
         exact (js_BigInt_never_Error _ _ B1)].
    cbn [bind] in H. rewrite !if_Return in H. cbn [bind] in H.
    destruct (js_BigInt (slot t 10)) eqn:B10;
      [| cbn [bind] in H; injection H as ->;
         exact (js_BigInt_never_Error _ _ B10)].
    cbn [bind] in H.
    destruct (js_BigInt (slot t 11)) eqn:B11;
      [| cbn [bind] in H; injection H as ->;
         exact (js_BigInt_never_Error _ _ B11)].
    cbn [bind] in H. discriminate H.
Qed.

Lemma uncompact_Error_only_unsupported_witness :
  exists c16 s,
    get_index tuple_99 16 = Return c16 /\
    to_boolean c16 = true /\
    strict_equal_number c16 Legacy = false /\
    strict_equal_number c16 Version1 = false /\
    strict_equal_number c16 Version2 = false /\
    to_string c16 = Return s /\
    "Unsupported version: 99" = "Unsupported version: " ++ s.
Proof.
  exact (uncompact_Error_only_unsupported tuple_99 "Unsupported version: 99"
           eq_refl).
Defined.

(** With a version slot that resolves to a tag, the decompactor is the
    three conversions in a row. *)
Lemma uncompact_resolved (t c16 : value) (r : number) :
  get_index t 16 = Return c16 ->
  resolves_to c16 r ->
  uncompactOffchainAttestationPackage t
  = (chain <- js_BigInt (slot t 1) ;;
     time <- js_BigInt (slot t 10) ;;
     expiration <- js_BigInt (slot t 11) ;;
     Return (unpacked r t chain time expiration)).
Proof.
  intros H16 Hres.
  unfold uncompactOffchainAttestationPackage.
  rewrite !(get_index_total _ _ _ H16). cbn [bind].
  rewrite <- (get_index_slot _ _ _ H16).
  assert (Hresolve :
            (if to_boolean c16 then Return c16 else Return (VNumber Legacy))
            = Return (VNumber r)).
  { destruct Hres as [[Hfalsy ->] | [-> [-> | ->]]];
      [rewrite Hfalsy | |]; reflexivity. }
  rewrite Hresolve. cbn [bind].
  assert (Hattest :
            (if strict_equal_number (VNumber r) Legacy then Return base_fields
             else if strict_equal_number (VNumber r) Version1
                  then Return (field "version" "uint16" :: base_fields)
                  else if strict_equal_number (VNumber r) Version2
                       then Return (field "version" "uint16" :: base_fields
                                      ++ [field "salt" "bytes32"])
                       else (rendering <- to_string (VNumber r) ;;
                             Throw (Error ("Unsupported version: "
                                             ++ rendering))))
            = Return (attest_fields r)).
  { destruct Hres as [[_ ->] | [_ [-> | ->]]]; reflexivity. }
  rewrite Hattest. cbn [bind].
  destruct (js_BigInt (slot t 1)) as [chain |]; [| reflexivity]. cbn [bind].
  rewrite !if_Return. cbn [bind].
  destruct (js_BigInt (slot t 10)) as [time |]; [| reflexivity]. cbn [bind].
  destruct (js_BigInt (slot t 11)) as [expiration |]; [| reflexivity].
  cbn [bind]. unfold unpacked.
  destruct Hres as [[_ ->] | [_ [-> | ->]]]; reflexivity.
Qed.

(** X7.  When the version slot resolves to a tag, the decompactor fails
    only in a [BigInt] conversion, and with the error of the first one
    that fails, in the order chain id (slot 1), time (slot 10),
    expiration time (slot 11). *)
Theorem uncompact_conversion_failure (t c16 : value) (r : number) (e : error) :
  get_index t 16 = Return c16 ->
  resolves_to c16 r ->
  uncompactOffchainAttestationPackage t = Throw e ->
  js_BigInt (slot t 1) = Throw e \/
  (exists chain,
      js_BigInt (slot t 1) = Return chain /\
      js_BigInt (slot t 10) = Throw e) \/
  (exists chain time,
      js_BigInt (slot t 1) = Return chain /\
      js_BigInt (slot t 10) = Return time /\
      js_BigInt (slot t 11) = Throw e).
Proof.
  intros H16 Hres H. rewrite (uncompact_resolved t c16 r H16 Hres) in H.
  destruct (js_BigInt (slot t 1)) as [chain | e1]; cbn [bind] in H;
    [| left; congruence].
  destruct (js_BigInt (slot t 10)) as [time | e10]; cbn [bind] in H;
    [| right; left; exists chain; split; [reflexivity | congruence]].
  destruct (js_BigInt (slot t 11)) as [expiration | e11]; cbn [bind] in H;
    [discriminate H |].
  right. right. exists chain, time.
  split; [reflexivity |]. split; [reflexivity | congruence].
Qed.

Lemma uncompact_conversion_failure_witness :
  uncompactOffchainAttestationPackage (VArray []) = Throw TypeError /\
  (js_BigInt (slot (VArray []) 1) = Throw TypeError \/
   (exists chain,
       js_BigInt (slot (VArray []) 1) = Return chain /\
       js_BigInt (slot (VArray []) 10) = Throw TypeError) \/
   (exists chain time,
       js_BigInt (slot (VArray []) 1) = Return chain /\
       js_BigInt (slot (VArray []) 10) = Return time /\
       js_BigInt (slot (VArray []) 11) = Throw TypeError)).
Proof.
  split; [reflexivity |].
  exact (uncompact_conversion_failure (VArray []) VUndefined Legacy TypeError
           eq_refl (or_introl (conj eq_refl eq_refl)) eq_refl).
Defined.

(** X8.  The compactor does not validate the time: a package whose
    message has no [time], or one that [Number] does not turn into an
    integer, is compacted, with [Number(time)] in slot 10, but the
    decompactor returns no package for that tuple. *)
Theorem non_integral_time_undecodable (P t x : value) :
  compactOffchainAttestationPackage P = Return t ->
  get_prop3 P "sig" "message" "time" = Return x ->
  exists n,
    js_Number x = Return n /\
    get_index t 10 = Return (VNumber n) /\
    (is_integral n = false ->
     forall R, uncompactOffchainAttestationPackage t <> Return R).
Proof.
  intros Hc Hx. apply compact_returns in Hc.
  destruct Hc as (sig0 & sig & n10 & n11 & Hsig0 & Hsig & _ & _ & _
                  & H10 & _ & ->).
  rewrite (compact_reads_message _ _ _ _ _ Hsig0 Hsig Hx) in H10.
  exists n10. split; [exact H10 |]. split; [reflexivity |].
  intros Hint R HR. apply uncompact_inv in HR.
  destruct HR as (c16 & r & chain & time & expiration
                  & _ & _ & _ & Htime & _).
  unfold slot, compacted_of in Htime. cbn [get_index nth] in Htime.
  destruct n10; simpl in Hint, Htime; discriminate.
Qed.

(** A message without [time] is compacted with [NaN] in slot 10, and
    the tuple is not decompacted. *)
Lemma non_integral_time_undecodable_witness :
  exists t,
    compactOffchainAttestationPackage
      (VObject [("sig", VObject [("domain", VObject []);
                                 ("signature", VObject []);
                                 ("message", VObject [])])])
    = Return t /\
    get_index t 10 = Return (VNumber NNaN) /\
    forall R, uncompactOffchainAttestationPackage t <> Return R.
Proof.
  eexists. split; [reflexivity |].
  destruct (non_integral_time_undecodable
              (VObject [("sig", VObject [("domain", VObject []);
                                         ("signature", VObject []);
                                         ("message", VObject [])])])
              _ VUndefined eq_refl eq_refl) as (n & Hn & H10 & Hno).
  injection Hn as <-. split; [exact H10 |]. exact (Hno eq_refl).
Defined.

(** X9.  A decompacted package never has the literal string "0" as its
    recipient or its refUID: the decompactor takes it for the sentinel. *)
Theorem decompacted_never_literal_zero (t R : value) :
  uncompactOffchainAttestationPackage t = Return R ->
  get_prop3 R "sig" "message" "recipient" <> Return (VString "0") /\
  get_prop3 R "sig" "message" "refUID" <> Return (VString "0").
Proof.
  intros H. apply uncompact_inv in H.
  destruct H as (c16 & r & chain & time & expiration & _ & _ & _ & _ & _ & ->).
  unfold unpacked, get_prop3, get_prop2.
  cbn [get_prop bind obj_get String.eqb Ascii.eqb Bool.eqb].
  split.
  - destruct (strict_equal_string (slot t 9) "0") eqn:E; [discriminate |].
    intros H. injection H as H. rewrite H in E. discriminate E.
  - destruct (strict_equal_string (slot t 12) "0") eqn:E; [discriminate |].
    intros H. injection H as H. rewrite H in E. discriminate E.
Qed.

Lemma decompacted_never_literal_zero_witness :
  get_prop3 (package_of Legacy (VNumber Legacy) VUndefined sample_fields)
    "sig" "message" "recipient" <> Return (VString "0") /\
  get_prop3 (package_of Legacy (VNumber Legacy) VUndefined sample_fields)
    "sig" "message" "refUID" <> Return (VString "0").
Proof.
  exact (decompacted_never_literal_zero
           (tuple_of VUndefined VUndefined sample_fields)
           (package_of Legacy (VNumber Legacy) VUndefined sample_fields)
           eq_refl).
Defined.

(** X10.  The sentinel is ambiguous: a package whose recipient is the
    literal string "0" is compacted like one whose recipient is the
    zero address, and comes back with the zero address. *)
Theorem literal_zero_recipient_becomes_zero_address (P t R : value) :
  compactOffchainAttestationPackage P = Return t ->
  get_prop3 P "sig" "message" "recipient" = Return (VString "0") ->
  uncompactOffchainAttestationPackage t = Return R ->
  get_index t 9 = Return (VString "0") /\
  get_prop3 R "sig" "message" "recipient" = Return (VString ZeroAddress).
Proof.
  intros Hc Hx Hu. apply compact_returns in Hc.
  destruct Hc as (sig0 & sig & n10 & n11 & Hsig0 & Hsig & _ & _ & _ & _ & _
                  & ->).
  assert (H9 : get_index (compacted_of (member P "signer") sig n10 n11) 9
               = Return (VString "0")).
  { unfold compacted_of. cbn [get_index nth].
    rewrite (compact_reads_message _ _ _ _ _ Hsig0 Hsig Hx). reflexivity. }
  split; [exact H9 |].
  apply uncompact_inv in Hu.
  destruct Hu as (c16 & r & chain & time & expiration & _ & _ & _ & _ & _ & ->).
  unfold unpacked, get_prop3, get_prop2.
  cbn [get_prop bind obj_get String.eqb Ascii.eqb Bool.eqb].
  unfold slot at 1. rewrite H9. reflexivity.
Qed.

Lemma literal_zero_recipient_becomes_zero_address_witness :
  exists t R,
    compactOffchainAttestationPackage
      (package_of Version1 (VNumber Version1) VUndefined
         (with_recipient "0" sample_fields)) = Return t /\
    uncompactOffchainAttestationPackage t = Return R /\
    get_index t 9 = Return (VString "0") /\
    get_prop3 R "sig" "message" "recipient" = Return (VString ZeroAddress).
Proof.
  exists (tuple_of (VNumber Version1) VUndefined sample_fields).
  exists (package_of Version1 (VNumber Version1) VUndefined sample_fields).
  split; [reflexivity |]. split; [reflexivity |].
  exact (literal_zero_recipient_becomes_zero_address
           (package_of Version1 (VNumber Version1) VUndefined
              (with_recipient "0" sample_fields))
           (tuple_of (VNumber Version1) VUndefined sample_fields)
           (package_of Version1 (VNumber Version1) VUndefined sample_fields)
           eq_refl eq_refl eq_refl).
Defined.

(** X11.  The tuple carries nothing of the signature-bearing object but
    [domain], [signature], [uid], [message] and the flat [v], [r], [s]:
    setting any other member of it, such as the top-level [version],
    [primaryType] or [types], does not change what the compactor
    returns. *)
Theorem compact_ignores_other_members (P P' : value)
  (o : list (string * value)) (k : string) (x : value) :
  get_prop P "signer" = get_prop P' "signer" ->
  get_prop P "sig" = Return (VObject (obj_set o k x)) ->
  get_prop P' "sig" = Return (VObject o) ->
  ~ In k ["domain"; "signature"; "uid"; "message"; "v"; "r"; "s"] ->
  compactOffchainAttestationPackage P = compactOffchainAttestationPackage P'.
Proof.
  intros Hsgn Hsig Hsig' Hk.
  assert (Hne : forall j, In j ["domain"; "signature"; "uid"; "message";
                                "v"; "r"; "s"] -> k <> j).
  { intros j Hj ->. exact (Hk Hj). }
  assert (Hget : forall j, In j ["domain"; "signature"; "uid"; "message";
                                 "v"; "r"; "s"] ->
                           obj_get (obj_set o k x) j = obj_get o j).
  { intros j Hj. apply obj_get_set_other. exact (Hne j Hj). }
  assert (Hhas : forall j, In j ["v"; "r"; "s"] ->
                           obj_has (obj_set o k x) j = obj_has o j).
  { intros j Hj. apply obj_has_set_other. intros ->. apply Hk.
    simpl in Hj. simpl. intuition. }
  rewrite !compact_unfold, Hsgn, Hsig, Hsig'.
  destruct (get_prop P' "signer") as [sgn |]; [| reflexivity].
  cbn [bind]. rewrite !normalized_object.
  rewrite !Hhas by (simpl; auto). cbn [bind].
  destruct (obj_has o "v" && obj_has o "r" && obj_has o "s").
  - apply compact_normalized_ext; unfold member; cbn [get_prop];
      rewrite ?obj_get_set_same;
      rewrite ?converted_member by (try discriminate; reflexivity);
      cbn [is_nullish get_prop obj_get String.eqb Ascii.eqb Bool.eqb];
      rewrite ?Hget by (simpl; auto 10); reflexivity.
  - apply compact_normalized_ext; unfold member; cbn [get_prop];
      rewrite ?Hget by (simpl; auto 10); reflexivity.
Qed.

Lemma compact_ignores_other_members_witness :
  compactOffchainAttestationPackage
    (VObject
       [("sig",
         VObject
           (obj_set
              [("version", VNumber Version1);
               ("domain", domain_of sample_fields);
               ("primaryType", VString (primary_type Version1));
               ("types", VObject [("Attest", VArray (attest_fields Version1))]);
               ("signature", signature_of sample_fields);
               ("uid", VString (uid sample_fields));
               ("message", plain_message (Some Version1) None sample_fields)]
              "version" (VNumber Version2)));
        ("signer", VString (signer sample_fields))])
  = compactOffchainAttestationPackage v1_sample.
Proof.
  apply (compact_ignores_other_members _ _
           [("version", VNumber Version1);
            ("domain", domain_of sample_fields);
            ("primaryType", VString (primary_type Version1));
            ("types", VObject [("Attest", VArray (attest_fields Version1))]);
            ("signature", signature_of sample_fields);
            ("uid", VString (uid sample_fields));
            ("message", plain_message (Some Version1) None sample_fields)]
           "version" (VNumber Version2)).
  - reflexivity.
  - reflexivity.
  - reflexivity.
  - simpl. intros H.
    repeat (destruct H as [H | H]; [discriminate H |]). exact H.
Defined.

(** X12.  The flat and the nested form of a signature-bearing object
    are compacted alike: a flat object and a nested one with the same
    [domain], [uid] and [message], whose [signature] has the [r], [s]
    and [v] that the flat one has at its top level, give the same
    result. *)
Theorem flat_compacts_like_nested (P P' : value)
  (o o' : list (string * value)) :
  get_prop P "signer" = get_prop P' "signer" ->
  get_prop P "sig" = Return (VObject o) ->
  isSignedOffchainAttestationV1 (VObject o) = Return true ->
  get_prop P' "sig" = Return (VObject o') ->
  isSignedOffchainAttestationV1 (VObject o') = Return false ->
  obj_get o' "domain" = obj_get o "domain" ->
  obj_get o' "uid" = obj_get o "uid" ->
  obj_get o' "message" = obj_get o "message" ->
  is_nullish (obj_get o' "signature") = false ->
  member (obj_get o' "signature") "r" = obj_get o "r" ->
  member (obj_get o' "signature") "s" = obj_get o "s" ->
  member (obj_get o' "signature") "v" = obj_get o "v" ->
  compactOffchainAttestationPackage P = compactOffchainAttestationPackage P'.
Proof.
  intros Hsgn Hsig Hflat Hsig' Hnested Hd Hu Hm Hn Hr Hs Hv.
  rewrite !compact_unfold, Hsgn, Hsig, Hsig'.
  destruct (get_prop P' "signer") as [sgn |]; [| reflexivity].
  cbn [bind]. unfold normalized. rewrite Hflat, Hnested. cbn [bind].
  rewrite convert_object. cbn [bind].
  assert (Hmo : forall (p : list (string * value)) (j : string),
             member (VObject p) j = obj_get p j) by reflexivity.
  apply compact_normalized_ext; rewrite !Hmo;
    rewrite ?obj_get_set_same, ?Hmo;
    rewrite ?converted_member by (try discriminate; reflexivity);
    cbn [is_nullish obj_get String.eqb Ascii.eqb Bool.eqb];
    congruence.
Qed.

Lemma flat_compacts_like_nested_witness :
  compactOffchainAttestationPackage
    (flat_package_of (plain_message (Some Version1) None sample_fields)
       sample_fields)
  = compactOffchainAttestationPackage v1_sample.
Proof.
  apply (flat_compacts_like_nested _ _
           [("domain", domain_of sample_fields);
            ("primaryType", VString (primary_type Version1));
            ("types", VObject [("Attest", VArray (attest_fields Version1))]);
            ("r", VString (sig_r sample_fields));
            ("s", VString (sig_s sample_fields));
            ("v", num (sig_v sample_fields));
            ("uid", VString (uid sample_fields));
            ("message", plain_message (Some Version1) None sample_fields)]
           [("version", VNumber Version1);
            ("domain", domain_of sample_fields);
            ("primaryType", VString (primary_type Version1));
            ("types", VObject [("Attest", VArray (attest_fields Version1))]);
            ("signature", signature_of sample_fields);
            ("uid", VString (uid sample_fields));
            ("message", plain_message (Some Version1) None sample_fields)]);
    reflexivity.
Defined.

(** X13.  Every package that the decompactor returns can be compacted
    again, and the result is the canonical form of the tuple it came
    from: the chain id as a bigint, the times as numbers, the resolved
    version tag in slot 16, the number 0 in slot 15, "0" for a recipient
    or refUID slot that held "0" or the zero constant, and every other
    slot as it was. *)
Theorem recompact_is_canonical (t R : value) :
  uncompactOffchainAttestationPackage t = Return R ->
  exists c16 r chain time expiration,
    get_index t 16 = Return c16 /\
    resolves_to c16 r /\
    js_BigInt (slot t 1) = Return chain /\
    js_BigInt (slot t 10) = Return time /\
    js_BigInt (slot t 11) = Return expiration /\
    compactOffchainAttestationPackage R
    = Return (canonical_tuple r t chain time expiration).
Proof.
  intros H. apply uncompact_inv in H.
  destruct H as (c16 & r & chain & time & expiration
                 & H16 & Hres & Hchain & Htime & Hexp & ->).
  exists c16, r, chain, time, expiration.
  repeat (split; [assumption |]).
  unfold unpacked, compactOffchainAttestationPackage, get_prop2.
  cbn [get_prop bind obj_get String.eqb Ascii.eqb Bool.eqb].
  unfold isSignedOffchainAttestationV1.
  cbn [has_property bind obj_has existsb fst String.eqb Ascii.eqb Bool.eqb orb].
  cbn [get_prop bind obj_get String.eqb Ascii.eqb Bool.eqb js_Number
         to_primitive].
  rewrite !if_Return. reflexivity.
Qed.

Lemma recompact_is_canonical_witness :
  exists c16 r chain time expiration,
    get_index (tuple_of VUndefined VUndefined sample_fields) 16 = Return c16 /\
    resolves_to c16 r /\
    js_BigInt (slot (tuple_of VUndefined VUndefined sample_fields) 1)
    = Return chain /\
    js_BigInt (slot (tuple_of VUndefined VUndefined sample_fields) 10)
    = Return time /\
    js_BigInt (slot (tuple_of VUndefined VUndefined sample_fields) 11)
    = Return expiration /\
    compactOffchainAttestationPackage
      (package_of Legacy (VNumber Legacy) VUndefined sample_fields)
    = Return (canonical_tuple r (tuple_of VUndefined VUndefined sample_fields)
                chain time expiration).
Proof.
  exact (recompact_is_canonical
           (tuple_of VUndefined VUndefined sample_fields)
           (package_of Legacy (VNumber Legacy) VUndefined sample_fields)
           eq_refl).
Defined.

(** A number with a 53-bit significand is left alone by the rounding. *)
Lemma round53_fixed (q s : Z) :
  2 ^ 52 <= q < 2 ^ 53 -> 0 <= s -> round53 (q * 2 ^ s) = q * 2 ^ s.
Proof.
  intros [Hlo Hhi] Hs.
  assert (Hq : 0 < q).
  { assert (0 < 2 ^ 52) by (apply Z.pow_pos_nonneg; lia). lia. }
  assert (Hlogq : Z.log2 q = 52).
  { apply Z.log2_unique; [lia | split; [exact Hlo | exact Hhi]]. }
  assert (Hlog : Z.log2 (q * 2 ^ s) = s + 52).
  { rewrite Z.log2_mul_pow2 by lia. lia. }
  unfold round53. rewrite Hlog.
  destruct (Z.leb_spec (s + 52 + 1) 53) as [_ | Hbig]; [reflexivity |].
  replace (s + 52 + 1 - 53) with s by lia.
  assert (H2s : 0 < 2 ^ s) by (apply Z.pow_pos_nonneg; lia).
  rewrite Z.shiftr_div_pow2 by lia.
  rewrite Z.div_mul by lia.
  rewrite !Z.shiftl_mul_pow2 by lia.
  replace (q * 2 ^ s - q * 2 ^ s) with 0 by lia.
  assert (Hhalf : 0 < 1 * 2 ^ (s - 1)).
  { assert (0 < 2 ^ (s - 1)) by (apply Z.pow_pos_nonneg; lia). lia. }
  destruct (Z.ltb_spec (1 * 2 ^ (s - 1)) 0); [lia |].
  destruct (Z.eqb_spec 0 (1 * 2 ^ (s - 1))); [lia |].
  reflexivity.
Qed.

(** The rounding leaves a number below 2^53 alone and gives a number
    with a 53-bit significand otherwise. *)
Lemma round53_form (n : Z) :
  0 <= n ->
  round53 n = n /\ n < 2 ^ 53 \/
  exists q s, 2 ^ 52 <= q < 2 ^ 53 /\ 0 <= s /\ round53 n = q * 2 ^ s.
Proof.
  intros Hn. unfold round53.
  destruct (Z.leb_spec (Z.log2 n + 1) 53) as [Hsmall | Hbig].
  - left. split; [reflexivity |].
    destruct (Z.eq_dec n 0) as [-> | Hn0]; [reflexivity |].
    apply Z.log2_lt_pow2; lia.
  - right. set (sh := Z.log2 n + 1 - 53).
    assert (Hsh : 0 < sh) by (unfold sh; lia).
    assert (Hpos : 0 < n).
    { destruct (Z.eq_dec n 0) as [-> | ?]; [simpl in Hbig; lia | lia]. }
    pose proof (Z.log2_spec n Hpos) as [Hlow Hup].
    assert (H2sh : 0 < 2 ^ sh) by (apply Z.pow_pos_nonneg; lia).
    rewrite Z.shiftr_div_pow2 by lia.
    assert (Hq : n / 2 ^ sh < 2 ^ 53).
    { apply Z.div_lt_upper_bound; [exact H2sh |].
      rewrite <- Z.pow_add_r by lia.
      replace (sh + 53) with (Z.succ (Z.log2 n)) by (unfold sh; lia).
      exact Hup. }
    assert (Hq52 : 2 ^ 52 <= n / 2 ^ sh).
    { apply Z.div_le_lower_bound; [exact H2sh |].
      rewrite <- Z.pow_add_r by lia.
      replace (sh + 52) with (Z.log2 n) by (unfold sh; lia).
      exact Hlow. }
    match goal with
    | |- context [Z.shiftl ?q' sh] =>
        assert (Hq' : q' = n / 2 ^ sh \/ q' = n / 2 ^ sh + 1)
          by (destruct (_ || _)%bool; auto);
        generalize dependent q'
    end.
    intros q' Hq'. rewrite Z.shiftl_mul_pow2 by lia.
    destruct (Z.eq_dec q' (2 ^ 53)) as [E | NE].
    + exists (2 ^ 52), (sh + 1).
      split; [split; [lia | apply Z.pow_lt_mono_r; lia] |].
      split; [lia |]. rewrite E, Z.pow_add_r by lia.
      change (2 ^ 53) with (2 ^ 52 * 2). change (2 ^ 1) with 2. lia.
    + exists q', sh. split; [lia |]. split; [lia | reflexivity].
Qed.

Lemma round53_idempotent (n : Z) : 0 <= n -> round53 (round53 n) = round53 n.
Proof.
  intros Hn. destruct (round53_form n Hn) as [[H _] | (q & s & Hq & Hs & H)].
  - rewrite H. exact H.
  - rewrite H. apply round53_fixed; assumption.
Qed.

Lemma round53_positive (n : Z) : 0 < n -> 0 < round53 n.
Proof.
  intros Hn.
  destruct (round53_form n ltac:(lia)) as [[H _] | (q & s & Hq & Hs & H)].
  - lia.
  - rewrite H.
    assert (0 < 2 ^ 52) by (apply Z.pow_pos_nonneg; lia).
    assert (0 < 2 ^ s) by (apply Z.pow_pos_nonneg; lia).
    apply Z.mul_pos_pos; lia.
Qed.

(** The coercion loses bits once only. *)
Lemma through_double_idempotent (z : Z) :
  through_double (through_double z) = through_double z.
Proof.
  unfold through_double.
  destruct (Z.lt_trichotomy z 0) as [Hneg | [-> | Hpos]]; [| reflexivity |].
  - pose proof (round53_positive (Z.abs z) ltac:(lia)) as Hr.
    rewrite (Z.sgn_neg z Hneg).
    replace (-1 * round53 (Z.abs z)) with (- round53 (Z.abs z)) by lia.
    rewrite Z.sgn_neg by lia. rewrite Z.abs_opp, (Z.abs_eq (round53 _)) by lia.
    rewrite round53_idempotent by lia. lia.
  - pose proof (round53_positive (Z.abs z) ltac:(lia)) as Hr.
    rewrite (Z.sgn_pos z Hpos).
    replace (1 * round53 (Z.abs z)) with (round53 (Z.abs z)) by lia.
    rewrite Z.sgn_pos by lia. rewrite (Z.abs_eq (round53 _)) by lia.
    rewrite round53_idempotent by lia. lia.
Qed.

Lemma through_double_finite (z : Z) :
  number_is_finite z -> number_is_finite (through_double z).
Proof.
  unfold number_is_finite. intros H.
  assert (Habs : Z.abs (through_double z) = round53 (Z.abs z)).
  { unfold through_double.
    destruct (Z.lt_trichotomy z 0) as [Hneg | [-> | Hpos]]; [| reflexivity |].
    - pose proof (round53_positive (Z.abs z) ltac:(lia)).
      rewrite (Z.sgn_neg z Hneg). lia.
    - pose proof (round53_positive (Z.abs z) ltac:(lia)).
      rewrite (Z.sgn_pos z Hpos). lia. }
  rewrite Habs, round53_idempotent by lia. exact H.
Qed.

Lemma decompacted_leaves_idempotent (f : fields) :
  decompacted_leaves (decompacted_leaves f) = decompacted_leaves f.
Proof.
  unfold decompacted_leaves. cbn [recipient refUID time expirationTime
    domain_version chainId verifyingContract sig_r sig_s sig_v signer uid
    schema revocable data].
  rewrite !through_double_idempotent.
  assert (Hu : forall zero s, String.eqb zero "0" = false ->
                              unsentinel zero (unsentinel zero s)
                              = unsentinel zero s).
  { intros zero s Hz. unfold unsentinel.
    destruct (String.eqb s "0") eqn:E; [rewrite Hz | rewrite E]; reflexivity. }
  rewrite !Hu by reflexivity. reflexivity.
Qed.

(** The compactor on a package as the decompactor lays it out. *)
Lemma compact_canonical (version : number) (mversion salt : value)
  (f : fields) :
  compactOffchainAttestationPackage (package_of version mversion salt f)
  = Return (tuple_of mversion salt f).
Proof.
  unfold package_of, compactOffchainAttestationPackage, get_prop2.
  cbn [get_prop bind obj_get String.eqb Ascii.eqb Bool.eqb].
  unfold isSignedOffchainAttestationV1.
  cbn [has_property bind obj_has existsb fst String.eqb Ascii.eqb Bool.eqb orb].
  unfold domain_of, signature_of, message_of.
  cbn [get_prop bind obj_get String.eqb Ascii.eqb Bool.eqb strict_equal_string
         js_Number to_primitive].
  rewrite !if_Return. cbn [bind]. unfold tuple_of, tuple_with.
  destruct (String.eqb (recipient f) ZeroAddress),
    (String.eqb (refUID f) ZeroHash); reflexivity.
Qed.

(** X14.  Compaction followed by decompaction is idempotent on signed
    packages: the package that comes back from one round trip comes
    back unchanged from the next, also when the first one lost bits of
    a time beyond the safe integers or set a missing version. *)
Theorem decompact_compact_idempotent (version : number)
  (mversion : option number) (salt : option string) (f : fields) (P : value) :
  is_package version mversion salt f P ->
  (mversion = None \/ exists n, mversion = Some n /\ is_version_tag n) ->
  number_is_finite (time f) ->
  number_is_finite (expirationTime f) ->
  exists R,
    decompact_compact P = Return R /\
    decompact_compact R = Return R.
Proof.
  intros HP Hver Htime Hexp.
  eexists. split.
  - exact (decompact_compact_package _ _ _ _ _ HP Hver Htime Hexp).
  - unfold decompact_compact. rewrite compact_canonical. cbn [bind].
    unfold tuple_of.
    rewrite (uncompact_tuple _ _ _ _ (resolved_version mversion)).
    + rewrite decompacted_leaves_idempotent. reflexivity.
    + reflexivity.
    + destruct Hver as [-> | (n & -> & [-> | [-> | ->]])]; simpl; auto.
    + apply through_double_finite. exact Htime.
    + apply through_double_finite. exact Hexp.
Qed.

Lemma decompact_compact_idempotent_witness :
  exists R,
    decompact_compact late_sample = Return R /\
    decompact_compact R = Return R.
Proof.
  apply (decompact_compact_idempotent Version1 (Some Version1) None
           late_fields late_sample).
  - split; reflexivity.
  - right. exists Version1. split; [reflexivity |]. right. left. reflexivity.
  - reflexivity.
  - reflexivity.
Defined.

Section CodecMore.

Variables text bytes base64 : Type.
Variable JSON_write : json -> text.
Variable JSON_read : text -> result json.
Variable deflate : text -> bytes.
Variable inflate : bytes -> result text.
Variable fromUint8Array : bytes -> base64.
Variable toUint8Array : base64 -> bytes.
Variable encodeURIComponent : base64 -> string.

Hypothesis JSON_read_write : forall j, JSON_read (JSON_write j) = Return j.
Hypothesis inflate_deflate : forall s, inflate (deflate s) = Return s.
Hypothesis toUint8Array_fromUint8Array :
  forall b, toUint8Array (fromUint8Array b) = b.

(** X15.  Encoding to text and building the share URL fail exactly when
    the compactor does, with its error: the tuple is an array, so
    [JSON.stringify] always has a text for it.  Otherwise the text is
    the base64 of the deflated JSON text of the tuple, and the URL is
    the fixed path followed by the percent-encoded text. *)
Theorem encoding_fails_only_in_compaction (P : value) :
  match compactOffchainAttestationPackage P with
  | Return t =>
      exists w,
        JSON_stringify t = Some (JArray w) /\
        zipAndEncodeToBase64 JSON_write deflate fromUint8Array P
        = Return (fromUint8Array (deflate (JSON_write (JArray w)))) /\
        createOffchainURL JSON_write deflate fromUint8Array
          encodeURIComponent P
        = Return ("/offchain/url/#attestation="
                    ++ encodeURIComponent
                         (fromUint8Array (deflate (JSON_write (JArray w)))))
  | Throw e =>
      zipAndEncodeToBase64 JSON_write deflate fromUint8Array P = Throw e /\
      createOffchainURL JSON_write deflate fromUint8Array
        encodeURIComponent P = Throw e
  end.
Proof.
  unfold createOffchainURL, zipAndEncodeToBase64.
  destruct (compactOffchainAttestationPackage P) as [t | e] eqn:Hc.
  - pose proof (compact_returns _ _ Hc)
      as (sig0 & sig & n10 & n11 & _ & _ & _ & _ & _ & _ & _ & ->).
    unfold compacted_of. cbn [bind JSON_stringify].
    eexists. split; [reflexivity |]. split; reflexivity.
  - cbn [bind]. auto.
Qed.

(** X16.  The text pipeline and the direct path agree up to a missing
    salt: for a signed package, decoding the encoded text and
    decompacting the compacted tuple return the same package, except
    that a salt that the message does not have is [null] after the
    text and [undefined] without it. *)
Theorem text_pipeline_agrees_with_direct_path (version : number)
  (mversion : option number) (salt : option string) (f : fields) (P : value) :
  is_package version mversion salt f P ->
  (mversion = None \/ exists n, mversion = Some n /\ is_version_tag n) ->
  number_is_finite (time f) ->
  number_is_finite (expirationTime f) ->
  exists b r f',
    zipAndEncodeToBase64 JSON_write deflate fromUint8Array P = Return b /\
    decodeBase64ZippedBase64 JSON_read inflate toUint8Array b
    = Return (package_of r (VNumber r) (through_json (salt_value salt)) f') /\
    decompact_compact P
    = Return (package_of r (VNumber r) (salt_value salt) f') /\
    (salt <> None ->
     decodeBase64ZippedBase64 JSON_read inflate toUint8Array b
     = decompact_compact P).
Proof.
  intros HP Hver Htime Hexp.
  destruct (decode_encode_package text bytes base64 JSON_write JSON_read
              deflate inflate fromUint8Array toUint8Array
              JSON_read_write inflate_deflate toUint8Array_fromUint8Array
              _ _ _ _ _ HP Hver Htime Hexp) as (b & Hb & HR).
  pose proof (decompact_compact_package _ _ _ _ _ HP Hver Htime Hexp) as HD.
  exists b, (resolved_version mversion), (decompacted_leaves f).
  split; [exact Hb |]. split; [exact HR |]. split; [exact HD |].
  intros Hsalt. rewrite HR, HD.
  destruct salt; [reflexivity | contradiction].
Qed.

End CodecMore.

Lemma text_pipeline_agrees_with_direct_path_witness :
  exists b,
    zip_plain v2_sample = Return b /\
    unzip_plain b = decompact_compact v2_sample.
Proof.
  destruct (text_pipeline_agrees_with_direct_path json json json
              (fun j => j) (fun t => Return t)
              (fun t => t) (fun b => Return b)
              (fun b => b) (fun b => b)
              (fun _ => eq_refl) (fun _ => eq_refl) (fun _ => eq_refl)
              Version2 (Some Version2) (Some sample_salt) sample_fields
              v2_sample)
    as (b & r & f' & Hb & _ & _ & Heq).
  - split; reflexivity.
  - right. exists Version2. split; [reflexivity |]. right. right. reflexivity.
  - reflexivity.
  - reflexivity.
  - exists b. split; [exact Hb |]. apply Heq. discriminate.
Defined.

(** X17.  The version tag alone selects the typed-data description: two
    decompacted packages have the same [types] exactly when they have
    the same [version], whatever else their tuples hold, and then they
    have the same [primaryType]. *)
Theorem version_determines_types (t t' R R' : value) :
  uncompactOffchainAttestationPackage t = Return R ->
  uncompactOffchainAttestationPackage t' = Return R' ->
  (get_prop2 R "sig" "version" = get_prop2 R' "sig" "version" <->
   get_prop2 R "sig" "types" = get_prop2 R' "sig" "types") /\
  (get_prop2 R "sig" "version" = get_prop2 R' "sig" "version" ->
   get_prop2 R "sig" "primaryType" = get_prop2 R' "sig" "primaryType").
Proof.
  intros H H'. apply uncompact_inv in H. apply uncompact_inv in H'.
  destruct H as (c16 & r & chain & time & expiration
                 & _ & Hres & _ & _ & _ & ->).
  destruct H' as (c16' & r' & chain' & time' & expiration'
                  & _ & Hres' & _ & _ & _ & ->).
  apply resolves_to_tag in Hres. apply resolves_to_tag in Hres'.
  unfold unpacked, get_prop2.
  cbn [get_prop bind obj_get String.eqb Ascii.eqb Bool.eqb].
  split; [split |].
  - intros H. injection H as ->. reflexivity.
  - destruct Hres as [-> | [-> | ->]], Hres' as [-> | [-> | ->]];
      intros H; try reflexivity; discriminate H.
  - intros H. injection H as ->. reflexivity.
Qed.

Lemma version_determines_types_witness :
  (get_prop2 (package_of Legacy (VNumber Legacy) VUndefined sample_fields)
     "sig" "version"
   = get_prop2 (package_of Legacy (VNumber Legacy) VNull late_fields)
       "sig" "version" <->
   get_prop2 (package_of Legacy (VNumber Legacy) VUndefined sample_fields)
     "sig" "types"
   = get_prop2 (package_of Legacy (VNumber Legacy) VNull late_fields)
       "sig" "types") /\
  (get_prop2 (package_of Legacy (VNumber Legacy) VUndefined sample_fields)
     "sig" "version"
   = get_prop2 (package_of Legacy (VNumber Legacy) VNull late_fields)
       "sig" "version" ->
   get_prop2 (package_of Legacy (VNumber Legacy) VUndefined sample_fields)
     "sig" "primaryType"
   = get_prop2 (package_of Legacy (VNumber Legacy) VNull late_fields)
       "sig" "primaryType").
Proof.
  exact (version_determines_types
           (tuple_of VUndefined VUndefined sample_fields)
           (tuple_with (VString "1") VNull VNull late_fields)
           (package_of Legacy (VNumber Legacy) VUndefined sample_fields)
           (package_of Legacy (VNumber Legacy) VNull late_fields)
           eq_refl eq_refl).
Defined.

(** X18.  Every decompacted package is in the nested form, with the
    fixed domain name, and carries slots 0, 2 to 8, 13, 14 and 17 of
    the tuple unchanged, whatever they hold: the decompactor converts
    the chain id and the times and checks nothing else. *)
Theorem decompacted_copies_slots (t R : value) :
  uncompactOffchainAttestationPackage t = Return R ->
  (sig <- get_prop R "sig" ;; isSignedOffchainAttestationV1 sig)
  = Return false /\
  get_prop3 R "sig" "domain" "name" = Return (VString "EAS Attestation") /\
  get_prop3 R "sig" "domain" "version" = get_index t 0 /\
  get_prop3 R "sig" "domain" "verifyingContract" = get_index t 2 /\
  get_prop3 R "sig" "signature" "r" = get_index t 3 /\
  get_prop3 R "sig" "signature" "s" = get_index t 4 /\
  get_prop3 R "sig" "signature" "v" = get_index t 5 /\
  get_prop R "signer" = get_index t 6 /\
  get_prop2 R "sig" "uid" = get_index t 7 /\
  get_prop3 R "sig" "message" "schema" = get_index t 8 /\
  get_prop3 R "sig" "message" "revocable" = get_index t 13 /\
  get_prop3 R "sig" "message" "data" = get_index t 14 /\
  get_prop3 R "sig" "message" "salt" = get_index t 17.
Proof.
  intros H. apply uncompact_inv in H.
  destruct H as (c16 & r & chain & time & expiration
                 & H16 & _ & _ & _ & _ & ->).
  rewrite !(get_index_total _ _ _ H16).
  repeat split; reflexivity.
Qed.

Lemma decompacted_copies_slots_witness :
  get_prop3 (package_of Version2 (VNumber Version2) (VString sample_salt)
               sample_fields) "sig" "message" "salt"
  = get_index (tuple_of (VNumber Version2) (VString sample_salt)
                 sample_fields) 17 /\
  get_prop (package_of Version2 (VNumber Version2) (VString sample_salt)
              sample_fields) "signer"
  = get_index (tuple_of (VNumber Version2) (VString sample_salt)
                 sample_fields) 6.
Proof.
  destruct (decompacted_copies_slots
              (tuple_of (VNumber Version2) (VString sample_salt) sample_fields)
              (package_of Version2 (VNumber Version2) (VString sample_salt)
                 sample_fields) eq_refl)
    as (_ & _ & _ & _ & _ & _ & _ & H6 & _ & _ & _ & _ & H17).
  split; assumption.
Defined.

(** X19.  The decompactor takes the chain id in any form that [BigInt]
    converts: two tuples that agree on every slot but slot 1, and whose
    slots 1 convert to the same bigint (the bigint itself, its decimal
    string as in the JSON text, or the integral number), are
    decompacted alike. *)
Theorem chain_id_forms_decompact_alike (l l' : list value) (z : Z) :
  js_BigInt (nth 1 l VUndefined) = Return z ->
  js_BigInt (nth 1 l' VUndefined) = Return z ->
  (forall i, (i < 18)%nat -> i <> 1%nat ->
             nth i l VUndefined = nth i l' VUndefined) ->
  uncompactOffchainAttestationPackage (VArray l)
  = uncompactOffchainAttestationPackage (VArray l').
Proof.
  intros Hz Hz' H. unfold uncompactOffchainAttestationPackage.
  cbn [get_index].
  rewrite (H 16%nat), (H 0%nat), (H 2%nat), (H 3%nat), (H 4%nat),
    (H 5%nat), (H 6%nat), (H 7%nat), (H 8%nat), (H 9%nat), (H 10%nat),
    (H 11%nat), (H 12%nat), (H 13%nat), (H 14%nat), (H 17%nat)
    by (try lia; discriminate).
  cbn [bind]. rewrite Hz, Hz'. reflexivity.
Qed.

Lemma chain_id_forms_decompact_alike_witness :
  uncompactOffchainAttestationPackage
    (tuple_with (VBigInt 11155111) (VNumber Version1) VUndefined sample_fields)
  = uncompactOffchainAttestationPackage
      (tuple_with (VString "11155111") (VNumber Version1) VUndefined
         sample_fields).
Proof.
  apply (chain_id_forms_decompact_alike _ _ 11155111).
  - reflexivity.
  - reflexivity.
  - intros i Hi H1.
    do 18 (destruct i as [| i]; [try reflexivity; contradiction |]).
    lia.
Defined.
